(** * Evania backend: XP / streak / levelling engine and weekly insights

    A shallow embedding of [server.js] (and of the schema of [db.js]) and
    the properties of its completion pipeline.

    Number model.  JavaScript numbers are IEEE-754 binary64 values.
    - Counters, identifiers of days, timestamps in milliseconds and row
      counts are integers on which the code only adds, subtracts and
      compares: they are [Z], exact as long as they stay safe integers.
    - Wherever the code leaves the integers ([0.05 * streak], [x / 7],
      [toFixed(2)], [Math.round(base * mult)]) the expression is evaluated
      in module [B64], binary64 arithmetic as specified by the standard
      library's [SpecFloat] (round to nearest, ties to even).
    - [Math.sqrt] in [computeLevel] is taken on an integer and floored at
      once; from zero on it is modelled by the integer square root, which
      [computeLevel_b64_exact] proves equal to the binary64 evaluation
      [computeLevel_b64] on every total below [2^52].  Below zero it is
      NaN ([computeLevel_double_NaN]), which the table of users refuses:
      the request fails.

    Date model.  A local date ["YYYY-MM-DD"] is represented by its day
    number (a [Z]), and the lexicographic order used by SQL [BETWEEN] is
    the order of the day numbers.  [dayjs(a).diff(dayjs(b), "day")]
    counts days of 24 hours between the instants that the two dates are
    parsed to in the time zone of the server ([diff_days]); this is the
    difference of the day numbers where every local midnight exists. *)

From Stdlib Require Import ZArith Lia Bool QArith Qround Qabs Lqa.
From Stdlib Require Import SpecFloat.
From stdpp Require Import gmap strings list.

Local Open Scope Z_scope.

(** ** Binary64 arithmetic *)

Module B64.

Definition prec : Z := 53.
Definition emax : Z := 1024.

Definition float : Type := spec_float.

(** An integer as a double (exact below [2^53], rounded above). *)
Definition of_Z (z : Z) : float := binary_normalize prec emax z 0 false.

Definition add : float -> float -> float := SFadd prec emax.
Definition mul : float -> float -> float := SFmul prec emax.
Definition div : float -> float -> float := SFdiv prec emax.
Definition sqrt : float -> float := SFsqrt prec emax.

(** A decimal literal [n / d] of the source text ([0.05] is
    [literal 5 100]): the double nearest to the quotient. *)
Definition literal (n : Z) (d : positive) : float :=
  div (of_Z n) (of_Z (Zpos d)).

(** [Math.min] on two numbers. *)
Definition min (a b : float) : float :=
  match SFcompare a b with
  | None => S754_nan
  | Some Lt => a
  | Some Gt => b
  | Some Eq =>
      match a, b with
      | S754_zero true, _ => a
      | _, S754_zero true => b
      | _, _ => a
      end
  end.

(** The signed mantissa of a finite double: its value is
    [smant * 2^e]. *)
Definition smant (s : bool) (m : positive) : Z := cond_Zopp s (Zpos m).

(** The largest integer below a double; [0] stands for the values that
    have none (NaN and the infinities). *)
Definition floorZ (x : float) : Z :=
  match x with
  | S754_finite s m e => Z.shiftl (smant s m) e
  | _ => 0
  end.

(** [Math.floor]. *)
Definition floor (x : float) : float :=
  match x with
  | S754_finite s m e =>
      match floorZ x with
      | 0 => S754_zero s
      | z => of_Z z
      end
  | _ => x
  end.

(** [Math.round], read as an integer: [floor (x + 1/2)] on the exact
    value, so that ties go up.  [0] stands for NaN and the infinities,
    which no finite product of this program reaches. *)
Definition round (x : float) : Z :=
  match x with
  | S754_finite s m e =>
      if 0 <=? e then Z.shiftl (smant s m) e
      else (2 * smant s m + 2 ^ (- e)) / 2 ^ (1 - e)
  | _ => 0
  end.

(** The text produced by [x.toFixed(2)]: a sign and a count of
    hundredths, or the plain rendering of [x] (from [1e21] on, and for
    NaN and the infinities). *)
Inductive fixed2 : Type :=
| Fixed (neg : bool) (hundredths : Z)
| Plain (x : float).

(** [x.toFixed(2)]: the integer [n] with [n / 100 - |x|] nearest to
    zero, the larger one when two are as near. *)
Definition toFixed2 (x : float) : fixed2 :=
  match x with
  | S754_zero _ => Fixed false 0
  | S754_finite s m e =>
      if 0 <=? e then
        if 10 ^ 21 <=? Z.shiftl (Zpos m) e then Plain x
        else Fixed s (100 * Z.shiftl (Zpos m) e)
      else
        if 10 ^ 21 * 2 ^ (- e) <=? Zpos m then Plain x
        else Fixed s ((200 * Zpos m + 2 ^ (- e)) / 2 ^ (1 - e))
  | _ => Plain x
  end.

(** [parseFloat] on such a text: the double nearest to the decimal. *)
Definition parseFloat (t : fixed2) : float :=
  match t with
  | Fixed s (Zpos n) => div (S754_finite s n 0) (S754_finite false 100 0)
  | Fixed s _ => S754_zero s
  | Plain x => x
  end.

(** The same double, representation for representation. *)
Definition same (a b : float) : bool :=
  match a, b with
  | S754_zero s, S754_zero t => Bool.eqb s t
  | S754_infinity s, S754_infinity t => Bool.eqb s t
  | S754_nan, S754_nan => true
  | S754_finite s m e, S754_finite t n f =>
      Bool.eqb s t && Pos.eqb m n && Z.eqb e f
  | _, _ => false
  end.

(** The exact value of a double, as a rational ([0] for NaN and the
    infinities). *)
Definition toQ (x : float) : Q :=
  match x with
  | S754_finite s m e =>
      if 0 <=? e then inject_Z (smant s m * 2 ^ e)
      else Qmake (smant s m) (Z.to_pos (2 ^ (- e)))
  | _ => 0%Q
  end.

(** Rounding to two decimal places, half up on the exact decimal value:
    the double nearest to [n / 100], where [n] is [100 * |x|] rounded half
    up, with the sign of [x]; values from [1e21] on, NaN and the
    infinities are left as they are. *)
Definition round2 (x : float) : float :=
  match x with
  | S754_zero _ => S754_zero false
  | S754_finite s _ _ =>
      if Qle_bool (inject_Z (10 ^ 21)) (Qabs (toQ x)) then x
      else parseFloat (Fixed s (Qfloor (100 * Qabs (toQ x) + (1 # 2))%Q))
  | _ => x
  end.

End B64.

(** ** Helpers of server.js *)

(** [x || 0] on a number. *)
Definition or0 (x : Z) : Z := if x =? 0 then 0 else x.

(** [computeLevel]: [Math.floor(Math.sqrt(totalXP) / 2) + 1]. *)
Definition computeLevel (totalXP : Z) : Z := Z.sqrt totalXP / 2 + 1.

(** The same expression evaluated in binary64. *)
Definition computeLevel_b64 (totalXP : Z) : Z :=
  B64.floorZ (B64.div (B64.sqrt (B64.of_Z totalXP)) (B64.of_Z 2)) + 1.

(** The expression as a double: NaN below zero. *)
Definition computeLevel_double (totalXP : Z) : B64.float :=
  B64.add (B64.floor (B64.div (B64.sqrt (B64.of_Z totalXP)) (B64.of_Z 2)))
          (B64.of_Z 1).

(** A row of table [users]; the columns the engine never writes (email,
    password hash, time zone and the preferences) are left out: the
    handlers below pass them back to the store as they read them. *)
Record user : Type := mkUser {
  id : string;
  total_xp : Z;
  level : Z;
  current_streak : Z;
  longest_streak : Z;
  last_active_local_date : option Z;
  avatar_tier : Z
}.

(** What [dayjs] takes from the time zone of the server.  Calendar dates
    are day numbers (days since 1970-01-01); [parsed d] is the instant, in
    milliseconds, that [dayjs("YYYY-MM-DD")] makes of the date [d]: its
    local midnight, or where the clocks skip midnight the instant at which
    they do; [utcOffset d] is the offset from UTC, in minutes, at that
    instant. *)
Record zone : Type := mkZone {
  parsed : Z -> Z;
  utcOffset : Z -> Z
}.

(** A server that runs in UTC. *)
Definition utc : zone := mkZone (fun d => 86400000 * d) (fun _ => 0).

(** Africa/Cairo around 26 April 2024 (day 19839), when the clocks went
    from 00:00 straight to 01:00: UTC+2 before, UTC+3 from 22:00 UTC of
    the 25th on, which is what the 26th is parsed to. *)
Definition cairo : zone :=
  mkZone (fun d => if d <=? 19839 then 86400000 * d - 7200000
                   else 86400000 * d - 10800000)
         (fun d => if d <? 19839 then 120 else 180).

(** [dayjs(a).diff(dayjs(b), "day")]: the time from [b] to [a], less the
    change of offset between them, in days of 24 hours, cut towards zero
    (the quotient of two integers of this size is cut the same in
    binary64). *)
Definition diff_days (tz : zone) (a b : Z) : Z :=
  let zoneDelta := (utcOffset tz b - utcOffset tz a) * 60000 in
  Z.quot (parsed tz a - parsed tz b - zoneDelta) 86400000.

(** [applyStreakProgress(u)], with the time zone of the server and the
    date that [localDateISO()] reads from the clock as arguments. *)
Definition applyStreakProgress (tz : zone) (today : Z) (u : user) : user :=
  let streak :=
    match last_active_local_date u with
    | None => 1
    | Some last =>
        let diff := diff_days tz today last in
        if diff =? 0 then current_streak u
        else if diff =? 1 then or0 (current_streak u) + 1
        else 1
    end in
  {| id := id u;
     total_xp := total_xp u;
     level := level u;
     current_streak := streak;
     longest_streak := Z.max (or0 (longest_streak u)) (or0 streak);
     last_active_local_date := Some today;
     avatar_tier := avatar_tier u |}.

(** [streakMultiplier(streak)]. *)
Definition streakMultiplier (streak : Z) : B64.float :=
  if (streak =? 0) || (streak <? 1) then B64.of_Z 1
  else
    let perDay :=
      B64.min (B64.mul (B64.literal 5 100) (B64.of_Z streak))
              (B64.literal 5 10) in
    let band :=
      B64.mul (B64.floor (B64.div (B64.of_Z streak) (B64.of_Z 7)))
              (B64.literal 1 10) in
    B64.parseFloat
      (B64.toFixed2 (B64.add (B64.add (B64.of_Z 1) perDay) band)).

(** [Math.round(base_points * mult)]. *)
Definition gainedXP (base_points : Z) (mult : B64.float) : Z :=
  B64.round (B64.mul (B64.of_Z base_points) mult).

(** ** Tables of db.js *)

Record quest : Type := mkQuest {
  q_id : string;
  q_title : string;
  q_base_points : Z;
  cooldown_sec : Z;
  q_active : bool
}.

(** [created_at] holds the instant of [new Date().toISOString()] in
    milliseconds, which is what [new Date(created_at).getTime()] reads
    back. *)
Record run : Type := mkRun {
  run_id : string;
  run_user_id : string;
  run_quest_id : string;
  run_gained_xp : Z;
  streak_applied : Z;
  run_created_at : Z;
  run_local_date : Z
}.

Record routine : Type := mkRoutine {
  r_id : string;
  r_user_id : string;
  r_title : string;
  r_base_points : Z;
  r_daily_target : Z;
  r_active : bool
}.

Record routine_log : Type := mkRoutineLog {
  rl_id : string;
  rl_routine_id : string;
  rl_user_id : string;
  rl_gained_xp : Z;
  rl_created_at : Z;
  rl_local_date : Z
}.

Record store : Type := mkStore {
  users : list user;
  quests : list quest;
  runs : list run;
  routines : list routine;
  routine_logs : list routine_log
}.

(** The rows seeded by db.js. *)
Definition seed_quests : list quest :=
  [ mkQuest "q1" "2-min Breathing" 10 0 true;
    mkQuest "q2" "Drink Water" 5 3600 true;
    mkQuest "q3" "10 Push-ups" 12 0 true;
    mkQuest "q4" "Journal 3 lines" 15 0 true ].

Definition empty_store : store := mkStore [] seed_quests [] [] [].

(** ** Prepared statements *)

Module sql.

Definition getUser (st : store) (uid : string) : option user :=
  List.find (fun u => String.eqb (id u) uid) (users st).

(** [INSERT ... ON CONFLICT(id) DO UPDATE]: the row with this [id] is
    overwritten when there is one (every column the model keeps is), and
    a row is added otherwise. *)
Fixpoint upsert (u : user) (rows : list user) : list user :=
  match rows with
  | [] => [u]
  | v :: rows =>
      if String.eqb (id v) (id u) then u :: rows else v :: upsert u rows
  end.

Definition upsertUser (st : store) (u : user) : store :=
  mkStore (upsert u (users st)) (quests st) (runs st) (routines st)
          (routine_logs st).

Definition getQuest (st : store) (questId : string) : option quest :=
  List.find (fun q => String.eqb (q_id q) questId && q_active q) (quests st).

(** The later of two runs by [created_at]. *)
Definition later (a b : run) : run :=
  if run_created_at a <? run_created_at b then b else a.

(** [ORDER BY created_at DESC LIMIT 1]. *)
Definition lastRunForQuest (st : store) (uid questId : string) : option run :=
  match List.filter
          (fun r => String.eqb (run_user_id r) uid
                    && String.eqb (run_quest_id r) questId) (runs st) with
  | [] => None
  | r :: rs => Some (fold_left later rs r)
  end.

Definition insertRun (st : store) (r : run) : store :=
  mkStore (users st) (quests st) (runs st ++ [r]) (routines st)
          (routine_logs st).

Definition insertRoutine (st : store) (r : routine) : store :=
  mkStore (users st) (quests st) (runs st) (routines st ++ [r])
          (routine_logs st).

Definition getRoutineById (st : store) (rid uid : string) : option routine :=
  List.find (fun r => String.eqb (r_id r) rid && String.eqb (r_user_id r) uid
                      && r_active r) (routines st).

Definition logged_on (rid uid : string) (date : Z) (l : routine_log) : bool :=
  String.eqb (rl_routine_id l) rid && String.eqb (rl_user_id l) uid
  && (rl_local_date l =? date).

Definition countRoutineLogsToday (st : store) (rid uid : string) (date : Z) : Z :=
  Z.of_nat (length (List.filter (logged_on rid uid date) (routine_logs st))).

Definition insertRoutineLog (st : store) (l : routine_log) : store :=
  mkStore (users st) (quests st) (runs st) (routines st)
          (routine_logs st ++ [l]).

End sql.

(** ** Requests *)

(** What a request reads from outside the store: the clock, as the
    instant of [Date.now()] in milliseconds and the date of
    [localDateISO()], the identifier drawn by [nanoid()], and the time
    zone of the server.  One reading of the clock serves the whole
    request. *)
Record env : Type := mkEnv {
  nowMs : Z;
  today : Z;
  nanoid : string;
  tz : zone
}.

(** The middleware that makes sure the row of the caller exists. *)
Definition newUser (userId : string) : user := mkUser userId 0 1 0 0 None 0.

Definition ensureUser (st : store) (userId : string) : store * user :=
  match sql.getUser st userId with
  | Some u => (st, u)
  | None =>
      let st' := sql.upsertUser st (newUser userId) in
      (st', default (newUser userId) (sql.getUser st' userId))
  end.

Record progress : Type := mkProgress {
  totalXP : Z;
  p_level : Z;
  currentStreak : Z;
  longestStreak : Z;
  lastActiveDayISO : option Z;
  avatar : Z
}.

Definition progress_of (u : user) : progress :=
  mkProgress (total_xp u) (level u) (current_streak u) (longest_streak u)
             (last_active_local_date u) (avatar_tier u).

(** The replies of the two completion routes: an error with its HTTP
    status, the reply 500 that follows an exception in the handler, or
    the body of a success. *)
Inductive response : Type :=
| Error (status : Z) (error : string) (retryAfterSec : option Z)
| ServerError
| RunDone (gained streakApplied : Z) (p : progress)
          (basePoints : Z) (mult : B64.float) (leveledUp : bool)
| LogDone (gained localDate : Z) (p : progress).

(** [Math.ceil(x / 1000)] on an integer [x]. *)
Definition ceil_div (x d : Z) : Z := - ((- x) / d).

(** The cooldown check of [POST /api/runs]: the seconds still to wait
    when the request is refused. *)
Definition cooldown_wait (st : store) (e : env) (u : user) (q : quest)
    (questId : string) : option Z :=
  if cooldown_sec q >? 0 then
    match sql.lastRunForQuest st (id u) questId with
    | Some last =>
        let lastMs := run_created_at last in
        if nowMs e - lastMs <? cooldown_sec q * 1000 then
          Some (ceil_div (cooldown_sec q * 1000 - (nowMs e - lastMs)) 1000)
        else None
    | None => None
    end
  else None.

(** The avatar step shared by both routes:
    [if (u.level > prevLevel && u.level % 5 === 0) u.avatar_tier = (u.avatar_tier || 0) + 1]. *)
Definition promote (prevLevel : Z) (u : user) : user :=
  if (level u >? prevLevel) && (Z.rem (level u) 5 =? 0) then
    mkUser (id u) (total_xp u) (level u) (current_streak u) (longest_streak u)
           (last_active_local_date u) (or0 (avatar_tier u) + 1)
  else u.

(** [u.total_xp += gainedXP; u.level = computeLevel(u.total_xp)], where
    the level is a number.  The level is written with the integer square
    root; for the totals from 0 to [2^52] that is the value of the code's
    expression on doubles (see [computeLevel_b64_exact]). *)
Definition award_row (gained : Z) (u : user) : user :=
  mkUser (id u) (total_xp u + gained) (computeLevel (total_xp u + gained))
         (current_streak u) (longest_streak u) (last_active_local_date u)
         (avatar_tier u).

(** The same step for any total: below zero [Math.sqrt] gives NaN and so
    does [computeLevel] (see [computeLevel_double_NaN]); there is no row
    then ([None]): NaN is bound as NULL, [level] is [NOT NULL], and
    [sql.upsertUser] throws. *)
Definition award (gained : Z) (u : user) : option user :=
  if total_xp u + gained <? 0 then None else Some (award_row gained u).

(** [POST /api/runs], after the middleware has set [req.user].  The
    transaction writes the user and the run or, when [sql.upsertUser]
    throws, nothing; express answers the exception with 500. *)
Definition post_runs (st : store) (e : env) (req_user : user)
    (questId : string) : store * response :=
  let u := req_user in
  match sql.getQuest st questId with
  | None => (st, Error 400 "Invalid questId" None)
  | Some q =>
      match cooldown_wait st e u q questId with
      | Some waitSec => (st, Error 429 "Cooldown active" (Some waitSec))
      | None =>
          let prevLevel := level u in
          let u := applyStreakProgress (tz e) (today e) u in
          let mult := streakMultiplier (current_streak u) in
          let gained := gainedXP (q_base_points q) mult in
          match award gained u with
          | None => (st, ServerError)
          | Some u =>
              let u := promote prevLevel u in
              let st' :=
                sql.insertRun (sql.upsertUser st u)
                  (mkRun (nanoid e) (id u) questId gained (current_streak u)
                         (nowMs e) (today e)) in
              let fresh := default u (sql.getUser st' (id u)) in
              (st', RunDone gained (current_streak fresh) (progress_of fresh)
                            (q_base_points q) mult (level fresh >? prevLevel))
          end
      end
  end.

(** [POST /api/routines/:id/log], after the middleware. *)
Definition post_routine_log (st : store) (e : env) (req_user : user)
    (rid : string) : store * response :=
  let userId := id req_user in
  match sql.getRoutineById st rid userId with
  | None => (st, Error 404 "Routine not found" None)
  | Some routine =>
      let c := sql.countRoutineLogsToday st rid userId (today e) in
      if c >=? r_daily_target routine then
        (st, Error 400 "Daily target already reached for this routine" None)
      else
        let u := req_user in
        let prevLevel := level u in
        let u := applyStreakProgress (tz e) (today e) u in
        let mult := streakMultiplier (current_streak u) in
        let gained := gainedXP (r_base_points routine) mult in
        match award gained u with
        | None => (st, ServerError)
        | Some u =>
            let u := promote prevLevel u in
            let st' :=
              sql.insertRoutineLog (sql.upsertUser st u)
                (mkRoutineLog (nanoid e) rid userId gained (nowMs e) (today e)) in
            let fresh := default u (sql.getUser st' userId) in
            (st', LogDone gained (today e) (progress_of fresh))
        end
  end.

(** A completion request as the server receives it: the caller, what is
    completed, and what the request reads from outside. *)
Inductive request : Type :=
| PostRun (e : env) (userId questId : string)
| PostRoutineLog (e : env) (userId rid : string).

Definition handle (st : store) (r : request) : store * response :=
  match r with
  | PostRun e userId questId =>
      let '(st1, u) := ensureUser st userId in post_runs st1 e u questId
  | PostRoutineLog e userId rid =>
      let '(st1, u) := ensureUser st userId in post_routine_log st1 e u rid
  end.

(** A sequence of requests, served one after the other. *)
Definition serve (st : store) (rs : list request) : store :=
  fold_left (fun s r => fst (handle s r)) rs st.

(** The error kinds of the specification, read off a reply. *)
Inductive error_kind : Type :=
| INVALID_INPUT | NOT_FOUND | RATE_LIMITED | LIMIT_REACHED.

Definition kind_of (r : response) : option error_kind :=
  match r with
  | Error 429 _ _ => Some RATE_LIMITED
  | Error 404 _ _ => Some NOT_FOUND
  | Error 400 msg _ =>
      if String.eqb msg "Daily target already reached for this routine"
      then Some LIMIT_REACHED else Some INVALID_INPUT
  | _ => None
  end.

(** ** Creating a routine *)

(** The values that the fields [dailyTarget] and [basePoints] of a
    parsed body are taken from, with [JUndefined] for a missing field.
    [JNum z] is a number whose value is the integer [z]: the double
    that the parser of the body made of the digits, so beyond [2^53] the
    rounded one.  A body with a number that has a fraction, or with an
    array or an object in these fields, is not among them. *)
Inductive jsval : Type :=
| JUndefined
| JNull
| JBool (b : bool)
| JNum (z : Z)
| JStr (s : string).

(** The result of [Number(v)]. *)
Inductive number : Type :=
| NaN
| Num (z : Z).

Section CreateRoutine.

(** The conversion of a string to a number is the language's; the route
    is described for any such conversion. *)
Variable StringToNumber : string -> number.

Definition Number (v : jsval) : number :=
  match v with
  | JUndefined => NaN
  | JNull => Num 0
  | JBool b => Num (if b then 1 else 0)
  | JNum z => Num z
  | JStr s => StringToNumber s
  end.

(** A destructuring default: [{ dailyTarget = 1 }]. *)
Definition with_default (v : jsval) (d : Z) : jsval :=
  match v with
  | JUndefined => JNum d
  | _ => v
  end.

(** [Number(v) || d]. *)
Definition number_or (v : jsval) (d : Z) : Z :=
  match Number v with
  | NaN => d
  | Num 0 => d
  | Num z => z
  end.

Inductive routine_reply : Type :=
| TitleRequired
| Created (r : option routine).

(** [POST /api/routines]; [title] is a string when it is there. *)
Definition post_routines (st : store) (e : env) (userId : string)
    (title : option string) (dailyTarget basePoints : jsval)
    : store * routine_reply :=
  let dailyTarget := with_default dailyTarget 1 in
  let basePoints := with_default basePoints 6 in
  match title with
  | None | Some EmptyString => (st, TitleRequired)
  | Some title =>
      let rid := nanoid e in
      let st' :=
        sql.insertRoutine st
          (mkRoutine rid userId title (number_or basePoints 6)
                     (number_or dailyTarget 1) true) in
      (st', Created (sql.getRoutineById st' rid userId))
  end.

End CreateRoutine.

(** ** Weekly insights *)

Inductive risk_band : Type := Green | Amber | Red.

Record day_row : Type := mkDay {
  date : Z;
  d_quests : Z;
  d_routineLogs : Z;
  d_xp : Z
}.

(** [SELECT local_date, COUNT( * ), SUM(gained_xp) FROM runs WHERE user_id=?
    AND local_date BETWEEN ? AND ? GROUP BY local_date]. *)
Definition runs_by_date (st : store) (userId : string) (start stop : Z)
    : list (Z * Z * Z) :=
  let rows :=
    List.filter (fun r => String.eqb (run_user_id r) userId
                          && (start <=? run_local_date r)
                          && (run_local_date r <=? stop)) (runs st) in
  map (fun d =>
         let g := List.filter (fun r => run_local_date r =? d) rows in
         (d, Z.of_nat (length g),
          fold_left (fun acc r => acc + run_gained_xp r) g 0))
      (remove_dups (map run_local_date rows)).

(** [SELECT local_date, COUNT( * ) FROM routine_logs WHERE user_id=? AND
    local_date BETWEEN ? AND ? GROUP BY local_date]. *)
Definition logs_by_date (st : store) (userId : string) (start stop : Z)
    : list (Z * Z) :=
  let rows :=
    List.filter (fun l => String.eqb (rl_user_id l) userId
                          && (start <=? rl_local_date l)
                          && (rl_local_date l <=? stop)) (routine_logs st) in
  map (fun d =>
         (d, Z.of_nat (length (List.filter (fun l => rl_local_date l =? d) rows))))
      (remove_dups (map rl_local_date rows)).

(** [SELECT id, daily_target FROM routines WHERE user_id=? AND active=1]. *)
Definition active_routines (st : store) (userId : string) : list routine :=
  List.filter (fun r => String.eqb (r_user_id r) userId && r_active r)
              (routines st).

(** The seven days of the window, oldest first. *)
Definition window_days (today : Z) : list Z :=
  map (fun i => today - i) [6; 5; 4; 3; 2; 1; 0].

Definition byDay_init (days : list Z) : gmap Z day_row :=
  fold_left (fun m d => <[d := mkDay d 0 0 0]> m) days ∅.

Definition byDay_runs (rows : list (Z * Z * Z)) (m : gmap Z day_row)
    : gmap Z day_row :=
  fold_left
    (fun m '(d, n, xp) =>
       match m !! d with
       | Some row => <[d := mkDay (date row) (or0 n) (d_routineLogs row) (or0 xp)]> m
       | None => m
       end) rows m.

Definition byDay_logs (rows : list (Z * Z)) (m : gmap Z day_row)
    : gmap Z day_row :=
  fold_left
    (fun m '(d, n) =>
       match m !! d with
       | Some row => <[d := mkDay (date row) (d_quests row) (or0 n) (d_xp row)]> m
       | None => m
       end) rows m.

Definition dailyTargetTotal_of (rs : list routine) : Z :=
  or0 (fold_left (fun acc r => acc + or0 (r_daily_target r)) rs 0).

(** The number of days of the window whose routine logs reach the
    target. *)
Definition daysMetTarget_of (dailyTargetTotal : Z) (series : list day_row) : Z :=
  fold_left
    (fun n row =>
       if (dailyTargetTotal >? 0) && (d_routineLogs row >=? dailyTargetTotal)
       then n + 1 else n) series 0.

(** [dailyTargetTotal > 0 ? Math.round((daysMetTarget / 7) * 100) : 0]. *)
Definition completionRate_of (dailyTargetTotal daysMetTarget : Z) : Z :=
  if dailyTargetTotal >? 0 then
    B64.round (B64.mul (B64.div (B64.of_Z daysMetTarget) (B64.of_Z 7))
                       (B64.of_Z 100))
  else 0.

Definition riskBand_of (completionRate : Z) : risk_band :=
  if completionRate >=? 70 then Green
  else if completionRate >=? 40 then Amber
  else Red.

Record insights : Type := mkInsights {
  w_start : Z;
  w_end : Z;
  series : list day_row;
  t_xp : Z;
  t_quests : Z;
  t_routineLogs : Z;
  dailyTargetTotal : Z;
  daysMetTarget : Z;
  completionRate : Z;
  riskBand : risk_band;
  avatarMood : string
}.

(** [GET /api/insights/weekly] for the caller [userId] on the date
    [today]. *)
Definition weekly (st : store) (today : Z) (userId : string) : insights :=
  let start := today - 6 in
  let runs := runs_by_date st userId start today in
  let rlogs := logs_by_date st userId start today in
  let routines := active_routines st userId in
  let days := window_days today in
  let byDay := byDay_logs rlogs (byDay_runs runs (byDay_init days)) in
  let rows := map (fun d => default (mkDay d 0 0 0) (byDay !! d)) days in
  let total := dailyTargetTotal_of routines in
  let met := daysMetTarget_of total rows in
  let rate := completionRate_of total met in
  let band := riskBand_of rate in
  mkInsights start today rows
    (fold_left (fun acc row => acc + d_xp row) rows 0)
    (fold_left (fun acc row => acc + d_quests row) rows 0)
    (fold_left (fun acc row => acc + d_routineLogs row) rows 0)
    total met rate band
    (match band with
     | Green => "happy"
     | Amber => "thoughtful"
     | Red => "tired"
     end).

(** ** The rules as the specification words them *)

(** The zone has every local midnight: each date is parsed to its own
    midnight, so that [dayjs] finds between two dates the days of the
    calendar. *)
Definition midnights (tz : zone) : Prop :=
  forall d, parsed tz d = 86400000 * d - 60000 * utcOffset tz d.

(** Rounding half up, to an integer and at the second decimal, on exact
    decimal values. *)
Definition half_up (q : Q) : Z := Qfloor (q + (1 # 2))%Q.

Definition round2_spec (q : Q) : Q :=
  (inject_Z (half_up (100 * q)) / 100)%Q.

Definition Qsmaller (a b : Q) : Q := if Qle_bool a b then a else b.

(** The multiplier as a decimal: [1.0] below one day, otherwise
    [round2 (1.0 + perDay + weekBonus)] with
    [perDay = min (0.05 * streak, 0.5)] and
    [weekBonus = floor (streak / 7) * 0.1]. *)
Definition streakMultiplier_spec (streak : Z) : Q :=
  if streak <? 1 then 1%Q
  else
    let perDay := Qsmaller ((5 # 100) * inject_Z streak)%Q (5 # 10)%Q in
    let weekBonus := (inject_Z (Qfloor (inject_Z streak / 7)) * (1 # 10))%Q in
    round2_spec (1 + perDay + weekBonus)%Q.



(** The multiplier of the specification in hundredths. *)
Definition hundredths (streak : Z) : Z :=
  half_up (100 * streakMultiplier_spec streak).

(** The points of a completion as the specification computes them: the
    product of the base points and the multiplier, rounded half up to
    the nearest integer. *)
Definition award_spec (base streak : Z) : Z :=
  half_up (inject_Z base * streakMultiplier_spec streak).

(** That product lies exactly halfway between two integers. *)
Definition halfway (base streak : Z) : bool :=
  let q := (inject_Z base * streakMultiplier_spec streak + (1 # 2))%Q in
  Qeq_bool q (inject_Z (Qfloor q)).




(** The row of a user after a completion worth [base] points on the date
    [today]: streak first, then the award, then the avatar step. *)
Definition completed (tz : zone) (today base : Z) (u : user) : user :=
  let u1 := applyStreakProgress tz today u in
  promote (level u)
    (award_row (gainedXP base (streakMultiplier (current_streak u1))) u1).

(** The points of a completion worth [base] for the user [u] on the date
    [today]: the product of [base] and the multiplier of the streak as
    updated, rounded half up. *)
Definition awarded (tz : zone) (base today : Z) (u : user) : Z :=
  B64.round
    (B64.mul (B64.of_Z base)
       (streakMultiplier (current_streak (applyStreakProgress tz today u)))).

(** The award of a completion worth [base] leaves the total of [u] at
    zero or above: so it does for every quest of the seed and every user
    that the routes have written, and a request for which it does not
    ends in the reply 500. *)
Definition payable (e : env) (base : Z) (u : user) : Prop :=
  0 <= total_xp u + awarded (tz e) base (today e) u.

(** The avatar rule between the row [u] before an event and the row [u']
    after it: one tier more when the level has risen to a multiple of 5,
    the same tier otherwise. *)
Definition tier_rule (u u' : user) : Prop :=
  (level u < level u' /\ (5 | level u') ->
   avatar_tier u' = avatar_tier u + 1) /\
  (~ (level u < level u' /\ (5 | level u')) ->
   avatar_tier u' = avatar_tier u).

(** [last] is a most recent run of the quest by the user: one of their
    runs of it, with no later one. *)
Definition most_recent_run (st : store) (uid questId : string) (last : run)
    : Prop :=
  In last (runs st) /\ run_user_id last = uid /\ run_quest_id last = questId /\
  forall r, In r (runs st) -> run_user_id r = uid -> run_quest_id r = questId ->
            run_created_at r <= run_created_at last.

(** The user has no run of the quest. *)
Definition no_run (st : store) (uid questId : string) : Prop :=
  forall r, In r (runs st) ->
            ~ (run_user_id r = uid /\ run_quest_id r = questId).

(** The refusal of a log beyond the daily target. *)
Definition limit_reached : response :=
  Error 400 "Daily target already reached for this routine" None.

(** The user has no routine log dated in the week that ends on
    [today]. *)
Definition no_logs_in_window (st : store) (today : Z) (userId : string) : Prop :=
  forall l, In l (routine_logs st) -> rl_user_id l = userId ->
            ~ (today - 6 <= rl_local_date l <= today).

(** The number of routine logs of the user dated [d]. *)
Definition logs_on (st : store) (userId : string) (d : Z) : Z :=
  Z.of_nat
    (length (List.filter
               (fun l => String.eqb (rl_user_id l) userId
                         && (rl_local_date l =? d)) (routine_logs st))).

(** Every row of the day map sits under its own date. *)
Definition dated (m : gmap Z day_row) : Prop :=
  forall d row, m !! d = Some row -> date row = d.

(** Every row of the day map has no routine log. *)
Definition no_logs (m : gmap Z day_row) : Prop :=
  forall d row, m !! d = Some row -> d_routineLogs row = 0.

(** [Number(v)] is [0] or NaN, the cases in which [Number(v) || d] is
    [d]. *)
Definition zero_or_NaN (n : number) : Prop := n = NaN \/ n = Num 0.

(** [f] holds on the [n] integers from [lo] on. *)
Fixpoint holds_from (f : Z -> bool) (lo : Z) (n : nat) : bool :=
  match n with
  | O => true
  | S n => f lo && holds_from f (lo + 1) n
  end.

(** Every user of the store has a longest streak at least as long as the
    current one. *)
Definition streaks_ordered (st : store) : Prop :=
  forall u, In u (users st) -> current_streak u <= longest_streak u.

Definition is_success (r : response) : bool :=
  match r with
  | Error _ _ _ | ServerError => false
  | _ => true
  end.

(** The replies to a sequence of requests served one after the other. *)
Fixpoint replies (st : store) (rs : list request) : list response :=
  match rs with
  | [] => []
  | r :: rs => snd (handle st r) :: replies (fst (handle st r)) rs
  end.

(** ** What the histories say of a user *)

(** The caller of a completion request. *)
Definition caller (r : request) : string :=
  match r with
  | PostRun _ userId _ => userId
  | PostRoutineLog _ userId _ => userId
  end.





(** Every user who has been active has a streak of at least one day. *)
Definition streaks_started (st : store) : Prop :=
  forall u, In u (users st) ->
            last_active_local_date u <> None -> 1 <= current_streak u.



(** A double that is not below zero (NaN counts: it is not a negative
    number). *)
Definition not_negative (x : B64.float) : bool :=
  match x with
  | S754_zero true | S754_infinity true | S754_finite true _ _ => false
  | _ => true
  end.

(** The number of accepted requests among the replies. *)
Definition accepted (rs : list response) : Z :=
  Z.of_nat (length (List.filter is_success rs)).

(** Completions on the [n] consecutive dates from [d] on. *)
Fixpoint consecutive_days (tz : zone) (n : nat) (d : Z) (u : user) : user :=
  match n with
  | O => u
  | S n => consecutive_days tz n (d + 1) (applyStreakProgress tz d u)
  end.


(** ** The reading routes *)

(** [GET /api/routines]: the active routines of the caller, the last
    created first ([ORDER BY rowid DESC]), each with the number of the
    logs of today that carry its id and its owner. *)
Definition get_routines (st : store) (today : Z) (userId : string)
    : list (routine * Z) :=
  rev (map (fun r =>
              (r, sql.countRoutineLogsToday st (r_id r) (r_user_id r) today))
           (List.filter (fun r => String.eqb (r_user_id r) userId && r_active r)
                        (routines st))).

(** [GET /api/progress], after the middleware. *)
Definition get_progress (st : store) (userId : string) : store * option progress :=
  let '(st1, u) := ensureUser st userId in
  (st1, option_map progress_of (sql.getUser st1 (id u))).

(** The number of runs of the user dated [d], and their points. *)
Definition runs_on (st : store) (userId : string) (d : Z) : Z :=
  Z.of_nat
    (length (List.filter
               (fun r => String.eqb (run_user_id r) userId
                         && (run_local_date r =? d)) (runs st))).

Definition xp_on (st : store) (userId : string) (d : Z) : Z :=
  fold_right Z.add 0
    (map run_gained_xp
       (List.filter (fun r => String.eqb (run_user_id r) userId
                              && (run_local_date r =? d)) (runs st))).

(** The sum of [f] over the days of a list. *)
Definition sum_days (f : Z -> Z) (days : list Z) : Z :=
  fold_right Z.add 0 (map f days).

(** The sum of the weights [w] of the elements of a list that satisfy
    [p]. *)
Definition weigh {A} (p : A -> bool) (w : A -> Z) (l : list A) : Z :=
  fold_right Z.add 0 (map (fun x => if p x then w x else 0) l).

(** Within the week that ends on [today]. *)
Definition in_window (today d : Z) : bool := (today - 6 <=? d) && (d <=? today).

(** The sum of the daily targets of the active routines of a user, over
    the rows of [routines]. *)
Definition target_total (st : store) (userId : string) : Z :=
  weigh (fun r => String.eqb (r_user_id r) userId && r_active r)
        r_daily_target (routines st).

(** ** migrate.js *)

(** SQLite does not tell the upper-case ASCII letters from the lower-case
    ones in the name of a column. *)
Definition lower_ascii (c : Ascii.ascii) : Ascii.ascii :=
  let n := Ascii.nat_of_ascii c in
  if ((65 <=? n) && (n <=? 90))%nat then Ascii.ascii_of_nat (n + 32) else c.

Fixpoint lower (s : string) : string :=
  match s with
  | EmptyString => EmptyString
  | String c s => String (lower_ascii c) (lower s)
  end.

Definition same_column (a b : string) : bool := String.eqb (lower a) (lower b).

(** What the script sees of the database: the names of the columns of
    each table, in the order of their creation; the tables are found
    under their names in lower case. *)
Definition hasColumn (db : gmap string (list string)) (table name : string)
    : bool :=
  match db !! table with
  | Some cols => existsb (String.eqb name) cols
  | None => false
  end.

(** [ALTER TABLE t ADD COLUMN c ...]: refused ([None], the exception of
    [db.exec]) when the table is missing or has a column of that name
    already, in whatever case. *)
Definition alter_add (db : gmap string (list string)) (t c : string)
    : option (gmap string (list string)) :=
  match db !! t with
  | None => None
  | Some cols =>
      if existsb (same_column c) cols then None
      else Some (<[t := cols ++ [c]]> db)
  end.

(** [addColumn(table, name, sql)], the statement [sql] adding the column
    [snd sql] to the table [fst sql]. *)
Definition addColumn (db : gmap string (list string)) (table name : string)
    (sql : string * string) : option (gmap string (list string)) :=
  if hasColumn db table name then Some db
  else alter_add db (fst sql) (snd sql).

(** The columns that the script adds to [users], in its order. *)
Definition migration_columns : list string :=
  ["email"; "password_hash"; "theme_color"; "daily_target"; "goals_json";
   "baseline_mood"; "onboarding_done"].

(** The body of the [try]: one [addColumn] after the other, up to the
    first that throws. *)
Definition migration_steps (db : gmap string (list string))
    : option (gmap string (list string)) :=
  fold_left
    (fun acc c =>
       match acc with
       | Some db => addColumn db "users" c ("users", c)
       | None => None
       end) migration_columns (Some db).

(** The script: [COMMIT] and the migrated database, or [ROLLBACK], the
    database as it was and the exit code 1. *)
Definition migrate (db : gmap string (list string))
    : gmap string (list string) * bool :=
  match migration_steps db with
  | Some db' => (db', true)
  | None => (db, false)
  end.

(** The columns of the script that a table lacks, in the order of the
    script. *)
Definition missing_columns (cols : list string) : list string :=
  List.filter (fun c => negb (existsb (String.eqb c) cols)) migration_columns.

(** The column [c] is not among [cols] as the script compares names, and
    is among them as SQLite does. *)
Definition clashes (cols : list string) (c : string) : bool :=
  negb (existsb (String.eqb c) cols) && existsb (same_column c) cols.

Definition case_clash (cols : list string) : bool :=
  existsb (clashes cols) migration_columns.

(** ** The identity of a request *)

(** What the middleware reads of a verified token: its [sub] and its
    [userId], strings where they are there (the tokens of this server
    carry the user's id as [sub]). *)
Record payload : Type := mkPayload {
  p_sub : option string;
  p_userId : option string
}.

(** A string that counts as true: there and not empty. *)
Definition truthy (o : option string) : option string :=
  match o with
  | Some EmptyString => None
  | _ => o
  end.

(** [a || b] on two strings that may be missing. *)
Definition or_else (a b : option string) : option string :=
  match truthy a with
  | Some x => Some x
  | None => b
  end.

Section Identity.

(** [jwt.verify(token, JWT_SECRET)] is the library's: [None] when it
    throws.  The middleware is described for any verification. *)
Variable verify : string -> option payload.

(** The first middleware, from the [Authorization] and [x-user-id]
    headers to [req.authUserId]. *)
Definition authUserId (authorization x_user_id : option string) : string :=
  let fromToken :=
    match authorization with
    | Some auth =>
        if String.prefix "Bearer " auth then
          match verify (String.substring 7 (String.length auth - 7)%nat auth) with
          | Some p => or_else (p_sub p) (p_userId p)
          | None => None
          end
        else None
    | None => None
    end in
  match truthy fromToken with
  | Some uid => uid
  | None =>
      match truthy x_user_id with
      | Some uid => uid
      | None => "demo-user"
      end
  end.

End Identity.

(** * Properties *)

(** ** The builtins on doubles, against exact rational arithmetic *)

Section B64_facts.

Lemma pow2_pos_id k : 0 <= k -> Zpos (Z.to_pos (2 ^ k)) = 2 ^ k.
Proof. intros Hk. apply Z2Pos.id. apply Z.pow_pos_nonneg; lia. Qed.

Lemma abs_smant s m : Z.abs (B64.smant s m) = Zpos m.
Proof. destruct s; reflexivity. Qed.

(** [Math.floor] is the floor of the exact value. *)
Lemma floorZ_toQ x : B64.floorZ x = Qfloor (B64.toQ x).
Proof.
  destruct x as [s| s | | s m e]; try reflexivity.
  unfold B64.floorZ, B64.toQ. destruct (Z.leb_spec 0 e) as [He|He].
  - rewrite Qfloor_Z. apply Z.shiftl_mul_pow2; lia.
  - unfold Qfloor. rewrite pow2_pos_id by lia.
    rewrite <- Z.shiftr_div_pow2 by lia.
    rewrite <- Z.shiftl_opp_r, Z.opp_involutive. reflexivity.
Qed.

(** [Math.round] is the floor of the exact value plus one half. *)
Lemma round_toQ x : B64.round x = Qfloor (B64.toQ x + (1 # 2))%Q.
Proof.
  destruct x as [s| s | | s m e]; try reflexivity.
  unfold B64.round, B64.toQ. destruct (Z.leb_spec 0 e) as [He|He].
  - rewrite Z.shiftl_mul_pow2 by lia.
    unfold Qfloor, Qplus, inject_Z. cbn [Qnum Qden].
    change (Z.pos (1 * 2)) with 2.
    generalize (B64.smant s m * 2 ^ e). intros z.
    apply Z.div_unique with (r := 1); lia.
  - unfold Qfloor, Qplus. cbn [Qnum Qden].
    rewrite Pos2Z.inj_mul, pow2_pos_id by lia.
    replace (1 - e) with (Z.succ (- e)) by lia. rewrite Z.pow_succ_r by lia.
    f_equal; lia.
Qed.

(** Ties go up: [Math.round x] is the integer [n] with
    [n - 1/2 <= x < n + 1/2]. *)
Lemma round_half_up x :
  (inject_Z (B64.round x) - (1 # 2) <= B64.toQ x)%Q /\
  (B64.toQ x < inject_Z (B64.round x) + (1 # 2))%Q.
Proof.
  rewrite round_toQ.
  assert (Hlo := Qfloor_le (B64.toQ x + (1 # 2))).
  assert (Hhi := Qlt_floor (B64.toQ x + (1 # 2))).
  rewrite inject_Z_plus in Hhi. change (inject_Z 1) with 1%Q in Hhi.
  generalize dependent (inject_Z (Qfloor (B64.toQ x + (1 # 2)))).
  intros n Hlo Hhi. split; lra.
Qed.

(** [toFixed(2)] rounds the exact value half up at the second decimal. *)
Lemma toFixed2_toQ s m e :
  B64.toFixed2 (S754_finite s m e) =
  if Qle_bool (inject_Z (10 ^ 21)) (Qabs (B64.toQ (S754_finite s m e)))
  then B64.Plain (S754_finite s m e)
  else B64.Fixed s
         (Qfloor (100 * Qabs (B64.toQ (S754_finite s m e)) + (1 # 2))%Q).
Proof.
  unfold B64.toFixed2, B64.toQ. destruct (Z.leb_spec 0 e) as [He|He].
  - rewrite Z.shiftl_mul_pow2 by lia.
    assert (Hp : 0 < 2 ^ e) by (apply Z.pow_pos_nonneg; lia).
    unfold Qabs, Qle_bool, inject_Z, Qfloor, Qplus, Qmult. cbn [Qnum Qden].
    rewrite Z.abs_mul, abs_smant, (Z.abs_eq (2 ^ e)) by lia.
    rewrite !Z.mul_1_r.
    destruct (10 ^ 21 <=? Z.pos m * 2 ^ e); [reflexivity|].
    f_equal. change (Z.pos (1 * 1 * 2)) with 2.
    apply Z.div_unique with (r := 1); lia.
  - assert (Hp : 0 < 2 ^ (- e)) by (apply Z.pow_pos_nonneg; lia).
    unfold Qabs, Qle_bool, inject_Z, Qfloor, Qplus, Qmult. cbn [Qnum Qden].
    rewrite abs_smant, pow2_pos_id by lia. rewrite Z.mul_1_r.
    destruct (10 ^ 21 * 2 ^ (- e) <=? Z.pos m); [reflexivity|].
    f_equal. rewrite !Pos2Z.inj_mul, pow2_pos_id by lia.
    replace (1 - e) with (Z.succ (- e)) by lia. rewrite Z.pow_succ_r by lia.
    f_equal; lia.
Qed.

(** [parseFloat(x.toFixed(2))] is [round2]. *)
Lemma parseFloat_toFixed2 x : B64.parseFloat (B64.toFixed2 x) = B64.round2 x.
Proof.
  destruct x as [s| s | | s m e]; try reflexivity.
  rewrite toFixed2_toQ. unfold B64.round2.
  destruct (Qle_bool _ _); reflexivity.
Qed.

(** A mantissa of [d] digits lies between [2^(d-1)] and [2^d]. *)
Lemma digits2_bounds p :
  2 ^ (Zpos (digits2_pos p) - 1) <= Zpos p < 2 ^ Zpos (digits2_pos p).
Proof.
  induction p as [p IH|p IH|]; cbn [digits2_pos].
  - rewrite Pos2Z.inj_succ.
    replace (Z.succ (Zpos (digits2_pos p)) - 1)
      with (Z.succ (Zpos (digits2_pos p) - 1)) by lia.
    rewrite !Z.pow_succ_r by lia. lia.
  - rewrite Pos2Z.inj_succ.
    replace (Z.succ (Zpos (digits2_pos p)) - 1)
      with (Z.succ (Zpos (digits2_pos p) - 1)) by lia.
    rewrite !Z.pow_succ_r by lia. lia.
  - simpl. lia.
Qed.

Lemma digits2_unique p d :
  2 ^ (d - 1) <= Zpos p < 2 ^ d -> Zpos (digits2_pos p) = d.
Proof.
  intros [Hlo Hhi]. destruct (digits2_bounds p) as [Hlo' Hhi'].
  assert (0 < d).
  { destruct (Z.ltb_spec 0 d); [assumption|].
    assert (2 ^ d <= 2 ^ 0).
    { destruct (Z.eq_dec d 0) as [->|]; [lia|].
      rewrite Z.pow_neg_r by lia. simpl. lia. }
    simpl in *. lia. }
  destruct (Z.lt_trichotomy (Zpos (digits2_pos p)) d) as [Hlt|[Heq|Hgt]]; [|exact Heq|].
  - assert (2 ^ Zpos (digits2_pos p) <= 2 ^ (d - 1)) by (apply Z.pow_le_mono_r; lia). lia.
  - assert (2 ^ d <= 2 ^ (Zpos (digits2_pos p) - 1)) by (apply Z.pow_le_mono_r; lia). lia.
Qed.

Lemma iter_xO m n : Zpos (Pos.iter xO m n) = Zpos m * 2 ^ Zpos n.
Proof.
  revert m. induction n using Pos.peano_ind; intros m.
  - simpl. lia.
  - rewrite Pos.iter_succ, Pos2Z.inj_succ, Z.pow_succ_r by lia.
    rewrite Pos2Z.inj_xO, IHn. lia.
Qed.

Lemma shl_align_spec m e e' :
  e' <= e ->
  snd (shl_align m e e') = e' /\
  Zpos (fst (shl_align m e e')) = Zpos m * 2 ^ (e - e').
Proof.
  intros H. unfold shl_align. destruct (e' - e) as [|p|p] eqn:Hd.
  - assert (e' = e) by lia. subst. simpl. rewrite Z.sub_diag. simpl. lia.
  - lia.
  - simpl. split; [reflexivity|]. rewrite iter_xO. f_equal. f_equal. lia.
Qed.

Lemma fexp_normal e : -1074 <= e - 53 -> fexp 53 1024 e = e - 53.
Proof. intros H. unfold fexp, emin. lia. Qed.

Lemma loc_shr_record m l : loc_of_shr_record (shr_record_of_loc m l) = l.
Proof. destruct l as [|[]]; reflexivity. Qed.

Lemma shr_m_record m l : shr_m (shr_record_of_loc m l) = m.
Proof. destruct l as [|[]]; reflexivity. Qed.

Lemma shr_fexp_53 m e l :
  Zpos (digits2_pos m) = 53 -> -1074 <= e ->
  shr_fexp 53 1024 (Zpos m) e l = (shr_record_of_loc (Zpos m) l, e).
Proof.
  intros Hd He. unfold shr_fexp. cbn [Zdigits2]. rewrite Hd.
  rewrite fexp_normal by lia. replace (53 + e - 53 - e) with 0 by lia.
  reflexivity.
Qed.

(** Rounding a mantissa that has 53 digits already: no shift, unless
    rounding up reaches [2^53]. *)
Lemma binary_round_aux_53 m e l :
  Zpos (digits2_pos m) = 53 -> -1074 <= e -> e + 1 <= 971 ->
  binary_round_aux 53 1024 false (Zpos m) e l =
  if round_nearest_even (Zpos m) l <? 2 ^ 53
  then S754_finite false (Z.to_pos (round_nearest_even (Zpos m) l)) e
  else S754_finite false (Z.to_pos (2 ^ 52)) (e + 1).
Proof.
  intros Hd He He'. unfold binary_round_aux.
  rewrite (shr_fexp_53 m e l Hd He), loc_shr_record, shr_m_record.
  assert (Hb := digits2_bounds m). rewrite Hd in Hb.
  assert (Hr : round_nearest_even (Zpos m) l = Zpos m \/
               round_nearest_even (Zpos m) l = Zpos (m + 1)).
  { destruct l as [|[]]; cbn [round_nearest_even];
      try destruct (Z.even (Zpos m)); auto; right; lia. }
  destruct Hr as [-> | ->].
  - destruct (Z.ltb_spec (Zpos m) (2 ^ 53)); [|lia].
    rewrite (shr_fexp_53 m e loc_Exact Hd He). cbn [shr_record_of_loc shr_m].
    destruct (Z.leb_spec e (1024 - 53)); [|lia]. reflexivity.
  - destruct (Z.ltb_spec (Zpos (m + 1)) (2 ^ 53)) as [Hlt|Hge].
    + assert (Hd' : Zpos (digits2_pos (m + 1)) = 53).
      { apply digits2_unique. change (53 - 1) with 52. lia. }
      rewrite (shr_fexp_53 (m + 1) e loc_Exact Hd' He). cbn [shr_record_of_loc shr_m].
      destruct (Z.leb_spec e (1024 - 53)); [|lia]. reflexivity.
    + assert (Hm : (m + 1)%positive = 9007199254740992%positive) by lia.
      rewrite Hm. unfold shr_fexp.
      change (Zdigits2 (Zpos 9007199254740992)) with 54.
      rewrite fexp_normal by lia. replace (54 + e - 53 - e) with 1 by lia.
      change (Z.to_pos (2 ^ 52)) with 4503599627370496%positive.
      cbn. destruct (Z.leb_spec (e + 1) (1024 - 53)); [|lia]. reflexivity.
Qed.

(** An integer of at most 53 digits is represented exactly, with its
    mantissa shifted to 53 digits. *)
Lemma of_Z_normal p :
  Zpos (digits2_pos p) <= 53 ->
  B64.of_Z (Zpos p) =
  S754_finite false (Z.to_pos (Zpos p * 2 ^ (53 - Zpos (digits2_pos p))))
              (Zpos (digits2_pos p) - 53).
Proof.
  intros Hd. unfold B64.of_Z, binary_normalize, binary_round.
  unfold B64.prec, B64.emax.
  set (d := Zpos (digits2_pos p)) in *.
  assert (Hd0 : 0 < d) by (unfold d; lia).
  rewrite Z.add_0_r, fexp_normal by lia.
  destruct (shl_align_spec p 0 (d - 53) ltac:(lia)) as [He Hm].
  destruct (shl_align p 0 (d - 53)) as [mz ez]. simpl in He, Hm. subst ez.
  replace (0 - (d - 53)) with (53 - d) in Hm by lia.
  assert (Hb := digits2_bounds p). fold d in Hb.
  assert (Hdz : Zpos (digits2_pos mz) = 53).
  { apply digits2_unique. rewrite Hm.
    assert (E1 : 2 ^ (53 - 1) = 2 ^ (d - 1) * 2 ^ (53 - d))
      by (rewrite <- Z.pow_add_r by lia; f_equal; lia).
    assert (E2 : 2 ^ 53 = 2 ^ d * 2 ^ (53 - d))
      by (rewrite <- Z.pow_add_r by lia; f_equal; lia).
    rewrite E1, E2.
    assert (0 < 2 ^ (53 - d)) by (apply Z.pow_pos_nonneg; lia).
    split; [apply Z.mul_le_mono_nonneg_r|apply Z.mul_lt_mono_pos_r]; lia. }
  rewrite binary_round_aux_53 by lia. cbn [round_nearest_even].
  assert (Hb2 := digits2_bounds mz). rewrite Hdz in Hb2.
  destruct (Z.ltb_spec (Zpos mz) (2 ^ 53)); [|lia].
  rewrite <- Hm. reflexivity.
Qed.

(** The sign only marks the result of a rounding. *)
Lemma binary_round_aux_sign m e l :
  binary_round_aux 53 1024 true m e l =
  SFopp (binary_round_aux 53 1024 false m e l).
Proof.
  unfold binary_round_aux.
  destruct (shr_fexp 53 1024 m e l) as [mrs' e'].
  destruct (shr_fexp 53 1024 _ e' loc_Exact) as [mrs'' e''].
  destruct (shr_m mrs''); [reflexivity| |reflexivity].
  destruct (e'' <=? 1024 - 53); reflexivity.
Qed.

Lemma of_Z_opp p : B64.of_Z (Zneg p) = SFopp (B64.of_Z (Zpos p)).
Proof.
  unfold B64.of_Z, binary_normalize, binary_round.
  destruct (shl_align _ _ _) as [mz ez].
  apply binary_round_aux_sign.
Qed.

(** The square root of a normal double with 53 digits: the integer root
    of the mantissa scaled by [4^k], rounded to nearest. *)
Lemma sqrt_normal m e :
  Zpos (digits2_pos m) = 53 -> -52 <= e <= 0 ->
  let k := 26 - e / 2 in
  let q := Z.sqrt (Zpos m * 2 ^ (e + 2 * k)) in
  let r := Zpos m * 2 ^ (e + 2 * k) - q * q in
  let q' := if r <=? q then q else q + 1 in
  2 ^ 52 <= q < 2 ^ 53 /\
  B64.sqrt (S754_finite false m e) =
  if q' <? 2 ^ 53 then S754_finite false (Z.to_pos q') (- k)
  else S754_finite false (Z.to_pos (2 ^ 52)) (- k + 1).
Proof.
  intros Hd He k q r q'.
  assert (Hb := digits2_bounds m). rewrite Hd in Hb. change (53 - 1) with 52 in Hb.
  assert (Hdiv := Z.div_mod e 2 ltac:(lia)).
  assert (Hmod := Z.mod_pos_bound e 2 ltac:(lia)).
  assert (Hs : e + 2 * k = 52 + e mod 2) by (unfold k; lia).
  assert (Hm' : 2 ^ 104 <= Zpos m * 2 ^ (e + 2 * k) < 2 ^ 106).
  { rewrite Hs. assert (e mod 2 = 0 \/ e mod 2 = 1) as [->| ->] by lia.
    - change (52 + 0) with 52. change (2 ^ 104) with (2 ^ 52 * 2 ^ 52).
      change (2 ^ 106) with (2 ^ 53 * 2 ^ 53). nia.
    - change (52 + 1) with 53. change (2 ^ 104) with (2 ^ 52 * 2 ^ 52).
      change (2 ^ 106) with (2 ^ 53 * 2 ^ 53). nia. }
  assert (Hq : 2 ^ 52 <= q < 2 ^ 53).
  { unfold q. split.
    - apply Z.sqrt_le_square; [lia|lia|]. change (2 ^ 52 * 2 ^ 52) with (2 ^ 104). lia.
    - apply Z.sqrt_lt_square; [lia|lia|]. change (2 ^ 53 * 2 ^ 53) with (2 ^ 106). lia. }
  split; [exact Hq|].
  unfold B64.sqrt, SFsqrt, SFsqrt_core_binary, B64.prec, B64.emax.
  cbn [Zdigits2]. rewrite Hd.
  rewrite !Z.div2_div.
  assert (Hd2 : (53 + e + 1) / 2 = e / 2 + 27).
  { replace (53 + e + 1) with (e + 27 * 2) by lia. now rewrite Z.div_add by lia. }
  rewrite Hd2, fexp_normal by lia.
  replace (Z.min (e / 2 + 27 - 53) (e / 2)) with (- k) by (unfold k; lia).
  replace (e - 2 * - k) with (e + 2 * k) by lia.
  assert (Hsh : match e + 2 * k with
                | 0 => Zpos m
                | Zpos _ => Z.shiftl (Zpos m) (e + 2 * k)
                | Zneg _ => 0
                end = Zpos m * 2 ^ (e + 2 * k)).
  { rewrite <- Z.shiftl_mul_pow2 by lia.
    destruct (e + 2 * k) eqn:E; try lia; reflexivity. }
  rewrite Hsh.
  assert (Hspec := Z.sqrtrem_spec (Zpos m * 2 ^ (e + 2 * k)) ltac:(lia)).
  assert (Hfst := Z.sqrtrem_sqrt (Zpos m * 2 ^ (e + 2 * k))).
  destruct (Z.sqrtrem (Zpos m * 2 ^ (e + 2 * k))) as [q0 r0].
  simpl in Hfst. fold q in Hfst. subst q0.
  destruct Hspec as [Heq Hr0].
  assert (Hr : r0 = r) by (unfold r; lia). subst r0.
  assert (Hqp : q = Zpos (Z.to_pos q)) by (rewrite Z2Pos.id; lia).
  assert (Hdq : Zpos (digits2_pos (Z.to_pos q)) = 53).
  { apply digits2_unique. rewrite <- Hqp. exact Hq. }
  rewrite Hqp at 1.
  rewrite binary_round_aux_53 by (unfold k; lia).
  rewrite <- Hqp.
  assert (Hround :
    round_nearest_even q
      (if r =? 0 then loc_Exact
       else loc_Inexact (if r <=? q then Lt else Gt)) = q').
  { unfold q'. destruct (Z.eqb_spec r 0) as [H0|H0].
    - simpl. destruct (Z.leb_spec r q); [reflexivity|lia].
    - destruct (Z.leb_spec r q); reflexivity. }
  rewrite Hround. reflexivity.
Qed.

(** Halving a normal double lowers its exponent by one. *)
Lemma div_by_2 mz ez :
  Zpos (digits2_pos mz) = 53 -> -1000 <= ez <= 900 ->
  B64.div (S754_finite false mz ez) (B64.of_Z 2) = S754_finite false mz (ez - 1).
Proof.
  intros Hd He.
  change (B64.of_Z 2) with (S754_finite false 4503599627370496 (-51)).
  unfold B64.div, SFdiv, SFdiv_core_binary, B64.prec, B64.emax.
  cbn [Zdigits2 xorb]. rewrite Hd.
  change (Zpos (digits2_pos 4503599627370496)) with 53.
  replace (53 + ez - (53 + -51)) with (ez + 51) by lia.
  rewrite fexp_normal by lia.
  replace (Z.min (ez + 51 - 53) (ez - -51)) with (ez - 2) by lia.
  replace (ez - -51 - (ez - 2)) with 53 by lia.
  rewrite Z.shiftl_mul_pow2 by lia.
  assert (Hdiv : Z.div_eucl (Zpos mz * 2 ^ 53) (Zpos 4503599627370496)
                 = (Zpos mz~0, 0)).
  { assert (H := Z.div_eucl_eq (Zpos mz * 2 ^ 53) (Zpos 4503599627370496) ltac:(lia)).
    assert (H' := Z.mod_pos_bound (Zpos mz * 2 ^ 53) (Zpos 4503599627370496) ltac:(lia)).
    unfold Z.modulo in H'.
    destruct (Z.div_eucl _ _) as [a b].
    change (2 ^ 53) with (2 * 4503599627370496) in H.
    assert (a = 2 * Zpos mz /\ b = 0) as [-> ->] by nia.
    reflexivity. }
  rewrite Hdiv.
  change (new_location (Zpos 4503599627370496) 0) with loc_Exact.
  unfold binary_round_aux.
  assert (Hsh : shr_fexp 53 1024 (Zpos mz~0) (ez - 2) loc_Exact
                = (Build_shr_record (Zpos mz) false false, ez - 1)).
  { unfold shr_fexp. cbn [Zdigits2 digits2_pos]. rewrite Pos2Z.inj_succ, Hd.
    rewrite fexp_normal by lia.
    replace (Z.succ 53 + (ez - 2) - 53 - (ez - 2)) with 1 by lia.
    cbn. f_equal. lia. }
  rewrite Hsh. cbn [shr_m loc_of_shr_record round_nearest_even].
  rewrite (shr_fexp_53 mz (ez - 1) loc_Exact Hd) by lia.
  cbn [shr_record_of_loc shr_m].
  destruct (Z.leb_spec (ez - 1) (1024 - 53)); [reflexivity|lia].
Qed.

End B64_facts.

(** ** The rounding of a product *)







Lemma same_eq a b : B64.same a b = true -> a = b.
Proof.
  destruct a as [s|s| |s m e], b as [t|t| |t n f]; simpl; try discriminate;
    try reflexivity.
  - intros H. apply Bool.eqb_prop in H. congruence.
  - intros H. apply Bool.eqb_prop in H. congruence.
  - intros H. apply andb_prop in H as [H He]. apply andb_prop in H as [Hs Hm].
    apply Bool.eqb_prop in Hs. apply Pos.eqb_eq in Hm. apply Z.eqb_eq in He.
    congruence.
Qed.

Lemma holds_from_spec f n : forall lo z,
  holds_from f lo n = true -> lo <= z < lo + Z.of_nat n -> f z = true.
Proof.
  induction n as [|n IH]; intros lo z H Hz.
  - simpl in Hz. lia.
  - simpl in H. apply andb_prop in H as [H0 H1].
    destruct (Z.eq_dec z lo) as [->|Hne]; [exact H0|].
    apply (IH (lo + 1)); [exact H1|lia].
Qed.

(** ** The streak engine *)

Lemma or0_id x : or0 x = x.
Proof. unfold or0. destruct (Z.eqb_spec x 0); congruence. Qed.

(** Where every local midnight exists the days that [dayjs] counts are
    those of the calendar; they are in UTC. *)
Lemma diff_days_calendar tz a b : midnights tz -> diff_days tz a b = a - b.
Proof.
  intros H. unfold diff_days. cbv zeta. rewrite (H a), (H b).
  replace (86400000 * a - 60000 * utcOffset tz a
           - (86400000 * b - 60000 * utcOffset tz b)
           - (utcOffset tz b - utcOffset tz a) * 60000)
    with ((a - b) * 86400000) by ring.
  apply Z.quot_mul. discriminate.
Qed.

Lemma midnights_utc : midnights utc.
Proof. intros d. simpl. ring. Qed.

Lemma diff_days_same tz d : diff_days tz d d = 0.
Proof.
  unfold diff_days. cbv zeta.
  replace (parsed tz d - parsed tz d - (utcOffset tz d - utcOffset tz d) * 60000)
    with 0 by ring.
  reflexivity.
Qed.

(** The streak update of a completion in a zone that has every local
    midnight: no last active date gives a streak of 1; a calendar
    difference of 0 days leaves the streak as it is, a difference of 1
    adds exactly 1, any larger or negative difference resets it to 1; the
    last active date becomes today (in every zone). *)
Theorem applyStreakProgress_streak (tz : zone) (today : Z) (u : user) :
  midnights tz ->
  (last_active_local_date u = None ->
   current_streak (applyStreakProgress tz today u) = 1) /\
  (forall last, last_active_local_date u = Some last ->
     (today - last = 0 ->
      current_streak (applyStreakProgress tz today u) = current_streak u) /\
     (today - last = 1 ->
      current_streak (applyStreakProgress tz today u) = current_streak u + 1) /\
     (today - last > 1 \/ today - last < 0 ->
      current_streak (applyStreakProgress tz today u) = 1)) /\
  last_active_local_date (applyStreakProgress tz today u) = Some today.
Proof.
  intros Htz.
  unfold applyStreakProgress; simpl. split; [|split; [|reflexivity]].
  - intros ->. reflexivity.
  - intros last ->. rewrite (diff_days_calendar tz today last Htz).
    repeat split.
    + intros ->. reflexivity.
    + intros ->. simpl. now rewrite or0_id.
    + intros H. destruct (Z.eqb_spec (today - last) 0); [lia|].
      destruct (Z.eqb_spec (today - last) 1); [lia|reflexivity].
Qed.

(** The four cases on a user with a streak of 3, in UTC. *)
Lemma applyStreakProgress_streak_witness :
  current_streak (applyStreakProgress utc 11 (mkUser "a" 40 4 3 5 None 0)) = 1 /\
  current_streak (applyStreakProgress utc 11 (mkUser "a" 40 4 3 5 (Some 11) 0)) = 3 /\
  current_streak (applyStreakProgress utc 11 (mkUser "a" 40 4 3 5 (Some 10) 0)) = 4 /\
  current_streak (applyStreakProgress utc 11 (mkUser "a" 40 4 3 5 (Some 9) 0)) = 1 /\
  current_streak (applyStreakProgress utc 11 (mkUser "a" 40 4 3 5 (Some 12) 0)) = 1.
Proof.
  split; [|split; [|split; [|split]]].
  - apply (proj1 (applyStreakProgress_streak utc 11 (mkUser "a" 40 4 3 5 None 0)
                    midnights_utc)).
    reflexivity.
  - apply (proj1 (proj1 (proj2 (applyStreakProgress_streak utc 11
             (mkUser "a" 40 4 3 5 (Some 11) 0) midnights_utc)) 11 eq_refl)).
    reflexivity.
  - apply (proj1 (proj2 (proj1 (proj2 (applyStreakProgress_streak utc 11
             (mkUser "a" 40 4 3 5 (Some 10) 0) midnights_utc)) 10 eq_refl))).
    reflexivity.
  - apply (proj2 (proj2 (proj1 (proj2 (applyStreakProgress_streak utc 11
             (mkUser "a" 40 4 3 5 (Some 9) 0) midnights_utc)) 9 eq_refl))).
    left. reflexivity.
  - apply (proj2 (proj2 (proj1 (proj2 (applyStreakProgress_streak utc 11
             (mkUser "a" 40 4 3 5 (Some 12) 0) midnights_utc)) 12 eq_refl))).
    right. reflexivity.
Defined.

(** C1: where the clocks skip midnight the update does not follow the
    calendar.  In Africa/Cairo a user with a streak of 3 who was last
    active on 26 April 2024 and completes on the 27th, one calendar day
    later, keeps the streak of 3 (23 hours lie between the two dates as
    parsed, which [dayjs] counts as 0 days), and completing on the 28th
    instead, two calendar days later, gets a streak of 4 and no reset. *)
Theorem streak_across_skipped_midnight :
  diff_days cairo 19840 19839 = 0 /\
  current_streak
    (applyStreakProgress cairo 19840 (mkUser "a" 40 4 3 5 (Some 19839) 0)) = 3 /\
  diff_days cairo 19841 19839 = 1 /\
  current_streak
    (applyStreakProgress cairo 19841 (mkUser "a" 40 4 3 5 (Some 19839) 0)) = 4.
Proof. repeat split. Qed.

(** ** The multiplier *)




(** ** The award against the exact product *)









(** ** Levels *)

(** The level [L] of [totalXP] is the one with
    [2 (L - 1) <= sqrt totalXP < 2 L]. *)
Lemma computeLevel_bounds totalXP :
  0 <= totalXP ->
  4 * (computeLevel totalXP - 1) ^ 2 <= totalXP < 4 * computeLevel totalXP ^ 2.
Proof.
  intros H. unfold computeLevel.
  destruct (Z.sqrt_spec totalXP H) as [Hlo Hhi].
  assert (Hs := Z.sqrt_nonneg totalXP).
  set (s := Z.sqrt totalXP) in *.
  assert (Hk := Z.div_mod s 2 ltac:(lia)).
  assert (Hr := Z.mod_pos_bound s 2 ltac:(lia)).
  set (k := s / 2) in *. nia.
Qed.

Lemma square_lt a b : 0 <= a -> 0 <= b -> a * a < b * b -> a < b.
Proof. intros. nia. Qed.

(** The root of [x * 4^k] rounded to nearest and divided by [2^(k+1)]
    has the floor of half the root of [x], as long as it has 53 digits
    and [k] is at least 27. *)
Lemma level_arith x k :
  0 <= x -> 27 <= k ->
  let q := Z.sqrt (x * 2 ^ (2 * k)) in
  let r := x * 2 ^ (2 * k) - q * q in
  q < 2 ^ 53 ->
  (if r <=? q then q else q + 1) / 2 ^ (k + 1) = Z.sqrt x / 2.
Proof.
  intros Hx Hk q r Hq53.
  set (K := 2 ^ k).
  assert (HK : 0 < K) by (apply Z.pow_pos_nonneg; lia).
  assert (HKK : 2 ^ (2 * k) = K * K).
  { unfold K. rewrite <- Z.pow_add_r by lia. f_equal. lia. }
  assert (HK1 : 2 ^ (k + 1) = 2 * K).
  { unfold K. rewrite Z.pow_add_r by lia. simpl. lia. }
  assert (HK54 : 2 ^ 54 <= K * K).
  { rewrite <- HKK. apply Z.pow_le_mono_r; lia. }
  assert (Hqs := Z.sqrt_spec (x * 2 ^ (2 * k)) ltac:(rewrite HKK; nia)).
  fold q in Hqs. cbv zeta in Hqs. rewrite HKK in Hqs.
  assert (Hq0 := Z.sqrt_nonneg (x * 2 ^ (2 * k))). fold q in Hq0.
  assert (Hn := Z.sqrt_spec x Hx). cbv zeta in Hn.
  assert (Hs0 := Z.sqrt_nonneg x).
  set (s := Z.sqrt x) in *.
  assert (Hdm := Z.div_mod s 2 ltac:(lia)).
  assert (Hmd := Z.mod_pos_bound s 2 ltac:(lia)).
  set (n := s / 2) in *.
  assert (Hn0 : 0 <= n) by lia.
  assert (Hlo : 4 * n * n <= x) by nia.
  assert (Hhi : x + 1 <= 4 * (n + 1) * (n + 1)) by nia.
  rewrite HK1. unfold r. rewrite HKK.
  set (B := 2 * (n + 1) * K).
  assert (HqB : q < B).
  { apply square_lt; [lia|unfold B; nia|].
    assert (x * (K * K) < B * B); [|lia].
    unfold B. nia. }
  assert (HqA : 2 * n * K <= q).
  { assert (2 * n * K < q + 1); [|lia].
    apply square_lt; [nia|lia|]. nia. }
  symmetry. apply Z.div_unique_pos with
    (r := (if x * (K * K) - q * q <=? q then q else q + 1) - 2 * K * n).
  2: lia.
  destruct (Z.leb_spec (x * (K * K) - q * q) q) as [Hle|Hgt].
  - unfold B in HqB. lia.
  - assert (q + 1 < B); [|unfold B in *; lia].
    destruct (Z.eq_dec (q + 1) B) as [HeqB|]; [|lia]. exfalso.
    assert (HxK : x * (K * K) <= B * B - K * K) by (unfold B; nia).
    assert (q = B - 1) by lia. subst q.
    assert (B <= 2 ^ 53) by lia.
    change (2 ^ 53) with 9007199254740992 in *.
    change (2 ^ 54) with 18014398509481984 in *.
    nia.
Qed.

(** The binary64 evaluation of [computeLevel] is the integer one on
    every total below [2^52]. *)
Lemma computeLevel_b64_exact totalXP :
  0 <= totalXP < 2 ^ 52 -> computeLevel_b64 totalXP = computeLevel totalXP.
Proof.
  intros [Hx0 Hx]. destruct totalXP as [|p|p]; [vm_compute; reflexivity| |lia].
  unfold computeLevel_b64, computeLevel. f_equal.
  assert (Hb := digits2_bounds p).
  set (d := Zpos (digits2_pos p)) in *.
  assert (Hd0 : 0 < d) by (unfold d; lia).
  assert (Hd : d <= 52).
  { destruct (Z.leb_spec d 52); [assumption|].
    assert (2 ^ 52 <= 2 ^ (d - 1)) by (apply Z.pow_le_mono_r; lia). lia. }
  rewrite of_Z_normal by (fold d; lia). fold d.
  set (m := Z.to_pos (Zpos p * 2 ^ (53 - d))).
  assert (Hp2 : 0 < 2 ^ (53 - d)) by (apply Z.pow_pos_nonneg; lia).
  assert (Hm : Zpos m = Zpos p * 2 ^ (53 - d)) by (unfold m; rewrite Z2Pos.id; lia).
  assert (Hdm : Zpos (digits2_pos m) = 53).
  { apply digits2_unique. rewrite Hm.
    assert (E1 : 2 ^ (53 - 1) = 2 ^ (d - 1) * 2 ^ (53 - d))
      by (rewrite <- Z.pow_add_r by lia; f_equal; lia).
    assert (E2 : 2 ^ 53 = 2 ^ d * 2 ^ (53 - d))
      by (rewrite <- Z.pow_add_r by lia; f_equal; lia).
    rewrite E1, E2.
    split; [apply Z.mul_le_mono_nonneg_r|apply Z.mul_lt_mono_pos_r]; lia. }
  destruct (sqrt_normal m (d - 53) Hdm ltac:(lia)) as [Hq Hsqrt].
  cbv zeta in Hq, Hsqrt.
  set (k := 26 - (d - 53) / 2) in *.
  assert (Hdiv := Z.div_mod (d - 53) 2 ltac:(lia)).
  assert (Hmod := Z.mod_pos_bound (d - 53) 2 ltac:(lia)).
  assert (Hk : 27 <= k <= 52) by (unfold k; lia).
  assert (Hval : Zpos m * 2 ^ (d - 53 + 2 * k) = Zpos p * 2 ^ (2 * k)).
  { rewrite Hm, <- Z.mul_assoc, <- Z.pow_add_r by lia. do 2 f_equal. lia. }
  rewrite Hval in Hq, Hsqrt.
  assert (Harith := level_arith (Zpos p) k ltac:(lia) ltac:(lia)).
  cbv zeta in Harith. specialize (Harith ltac:(lia)).
  set (q := Z.sqrt (Zpos p * 2 ^ (2 * k))) in *.
  set (q' := if Zpos p * 2 ^ (2 * k) - q * q <=? q then q else q + 1) in *.
  assert (Hq' : q <= q' <= q + 1) by (unfold q'; destruct (_ <=? _); lia).
  rewrite Hsqrt, <- Harith.
  assert (Hpk : 0 < 2 ^ k) by (apply Z.pow_pos_nonneg; lia).
  destruct (Z.ltb_spec q' (2 ^ 53)) as [Hlt|Hge].
  - assert (Hqp : Zpos (Z.to_pos q') = q') by (rewrite Z2Pos.id; lia).
    rewrite div_by_2; [| |lia].
    + unfold B64.floorZ, B64.smant, cond_Zopp. rewrite Hqp.
      rewrite <- (Z.opp_involutive (- k - 1)), Z.shiftl_opp_r.
      rewrite Z.shiftr_div_pow2 by lia. do 2 f_equal. lia.
    + apply digits2_unique. rewrite Hqp. change (53 - 1) with 52. lia.
  - assert (Hq53 : q' = 2 ^ 53) by lia. rewrite Hq53.
    change (Z.to_pos (2 ^ 52)) with 4503599627370496%positive.
    rewrite div_by_2; [|reflexivity|lia].
    unfold B64.floorZ, B64.smant, cond_Zopp.
    replace (- k + 1 - 1) with (- k) by lia.
    rewrite Z.shiftl_opp_r, Z.shiftr_div_pow2 by lia.
    rewrite Z.pow_add_r by lia. change (2 ^ 1) with 2.
    change (2 ^ 53) with (4503599627370496 * 2).
    rewrite Z.div_mul_cancel_r by lia. reflexivity.
Qed.

(** C9: [computeLevel], the floor of half the square root plus 1, is
    monotonic non-decreasing over the non-negative totals, and
    [computeLevel 0 = 1]; below [2^52] the binary64 evaluation of the
    source expression is that function, and so monotonic too. *)
Theorem computeLevel_monotone :
  (forall x y, 0 <= x -> x <= y -> computeLevel x <= computeLevel y) /\
  computeLevel 0 = 1 /\
  (forall x, 0 <= x < 2 ^ 52 -> computeLevel_b64 x = computeLevel x) /\
  (forall x y, 0 <= x -> x <= y -> y < 2 ^ 52 ->
               computeLevel_b64 x <= computeLevel_b64 y) /\
  computeLevel_b64 0 = 1.
Proof.
  assert (Hmono : forall x y, 0 <= x -> x <= y ->
                              computeLevel x <= computeLevel y).
  { intros x y Hx Hxy. unfold computeLevel.
    apply Z.add_le_mono_r. apply Z.div_le_mono; [lia|].
    apply Z.sqrt_le_mono. exact Hxy. }
  split; [exact Hmono|]. split; [reflexivity|].
  split; [exact computeLevel_b64_exact|]. split; [|vm_compute; reflexivity].
  intros x y Hx Hxy Hy.
  rewrite !computeLevel_b64_exact by lia. now apply Hmono.
Qed.

Lemma computeLevel_monotone_witness : computeLevel 11 <= computeLevel 16.
Proof. apply (proj1 computeLevel_monotone 11 16); lia. Defined.

(** Below zero the level is NaN: the square root of a negative number. *)
Lemma computeLevel_double_NaN x :
  - 2 ^ 53 < x < 0 -> computeLevel_double x = S754_nan.
Proof.
  intros Hx. destruct x as [|p|p]; [lia|lia|].
  unfold computeLevel_double. rewrite of_Z_opp.
  assert (Hd : Zpos (digits2_pos p) <= 53).
  { assert (Hb := digits2_bounds p).
    destruct (Z.le_gt_cases (Zpos (digits2_pos p)) 53) as [H|H]; [exact H|].
    exfalso.
    assert (2 ^ 53 <= 2 ^ (Zpos (digits2_pos p) - 1))
      by (apply Z.pow_le_mono_r; lia).
    lia. }
  rewrite (of_Z_normal p Hd). reflexivity.
Qed.

(** ** The sign of the points *)

Lemma binary_round_aux_not_negative m e l :
  not_negative (binary_round_aux 53 1024 false m e l) = true.
Proof.
  unfold binary_round_aux.
  destruct (shr_fexp 53 1024 m e l) as [mrs' e'].
  destruct (shr_fexp 53 1024 _ e' loc_Exact) as [mrs'' e''].
  destruct (shr_m mrs''); [reflexivity| |reflexivity].
  destruct (e'' <=? 1024 - 53); reflexivity.
Qed.

Lemma of_Z_not_negative z : 0 <= z -> not_negative (B64.of_Z z) = true.
Proof.
  intros Hz. destruct z as [|p|p]; [reflexivity| |lia].
  unfold B64.of_Z, binary_normalize, binary_round.
  destruct (shl_align _ _ _). apply binary_round_aux_not_negative.
Qed.

Lemma mul_not_negative a b :
  not_negative a = true -> not_negative b = true ->
  not_negative (B64.mul a b) = true.
Proof.
  destruct a as [[]|[]| |[] ma ea], b as [[]|[]| |[] mb eb];
    try discriminate; intros _ _; try reflexivity.
  apply binary_round_aux_not_negative.
Qed.

Lemma div_not_negative a b :
  not_negative a = true -> not_negative b = true ->
  not_negative (B64.div a b) = true.
Proof.
  destruct a as [[]|[]| |[] ma ea], b as [[]|[]| |[] mb eb];
    try discriminate; intros _ _; try reflexivity.
  unfold B64.div, SFdiv.
  destruct (SFdiv_core_binary _ _ _ _ _ _) as [[mz ez] lz].
  apply binary_round_aux_not_negative.
Qed.

Lemma add_not_negative a b :
  not_negative a = true -> not_negative b = true ->
  not_negative (B64.add a b) = true.
Proof.
  destruct a as [[]|[]| |[] ma ea], b as [[]|[]| |[] mb eb];
    try discriminate; intros _ _; try reflexivity.
  unfold B64.add, SFadd, binary_normalize, cond_Zopp.
  change (Zpos (fst (shl_align ma ea (Z.min ea eb)))
          + Zpos (fst (shl_align mb eb (Z.min ea eb))))
    with (Zpos (fst (shl_align ma ea (Z.min ea eb))
                + fst (shl_align mb eb (Z.min ea eb)))).
  unfold binary_round.
  destruct (shl_align (_ + _) _ _). apply binary_round_aux_not_negative.
Qed.

Lemma min_not_negative a b :
  not_negative a = true -> not_negative b = true ->
  not_negative (B64.min a b) = true.
Proof.
  intros Ha Hb. unfold B64.min.
  destruct (SFcompare a b) as [[]|]; try assumption; [|reflexivity].
  destruct a as [[]|[]| |[] ma ea]; try assumption; try discriminate;
    destruct b as [[]|[]| |[] mb eb]; try assumption; try discriminate;
    reflexivity.
Qed.

Lemma floor_not_negative a :
  not_negative a = true -> not_negative (B64.floor a) = true.
Proof.
  destruct a as [[]|[]| |[] m e]; try discriminate; intros _; try reflexivity.
  unfold B64.floor.
  assert (H : 0 <= B64.floorZ (S754_finite false m e)).
  { unfold B64.floorZ, B64.smant, cond_Zopp. apply Z.shiftl_nonneg. lia. }
  destruct (B64.floorZ (S754_finite false m e)) as [|p|p]; [reflexivity| |lia].
  now apply of_Z_not_negative.
Qed.

Lemma literal_not_negative n d : 0 <= n -> not_negative (B64.literal n d) = true.
Proof.
  intros Hn. unfold B64.literal.
  apply div_not_negative; apply of_Z_not_negative; lia.
Qed.

Lemma round2_not_negative a :
  not_negative a = true ->
  not_negative (B64.parseFloat (B64.toFixed2 a)) = true.
Proof.
  destruct a as [[]|[]| |[] m e]; try discriminate; intros _; try reflexivity.
  unfold B64.toFixed2.
  destruct (0 <=? e).
  - destruct (_ <=? _); [reflexivity|]. unfold B64.parseFloat.
    destruct (100 * _) as [|p|p]; try reflexivity.
    apply (div_not_negative (S754_finite false p 0) (S754_finite false 100 0));
      reflexivity.
  - destruct (_ <=? _); [reflexivity|]. unfold B64.parseFloat.
    destruct (_ / _) as [|p|p]; try reflexivity.
    apply (div_not_negative (S754_finite false p 0) (S754_finite false 100 0));
      reflexivity.
Qed.

(** The multiplier is never a negative number. *)
Lemma streakMultiplier_not_negative streak :
  not_negative (streakMultiplier streak) = true.
Proof.
  unfold streakMultiplier.
  destruct (Z.eqb_spec streak 0) as [|Hz]; [reflexivity|].
  destruct (Z.ltb_spec streak 1) as [|H1]; [reflexivity|].
  cbn [orb]. apply round2_not_negative.
  repeat first
    [ apply add_not_negative | apply mul_not_negative | apply min_not_negative
    | apply floor_not_negative | apply div_not_negative
    | apply literal_not_negative | apply of_Z_not_negative ]; lia.
Qed.

Lemma round_not_negative a : not_negative a = true -> 0 <= B64.round a.
Proof.
  destruct a as [[]|[]| |[] m e]; try discriminate; intros _; simpl; try lia.
  unfold B64.smant, cond_Zopp. destruct (Z.leb_spec 0 e).
  - apply Z.shiftl_nonneg. lia.
  - apply Z.div_pos.
    + assert (0 < 2 ^ (- e)) by (apply Z.pow_pos_nonneg; lia). lia.
    + apply Z.pow_pos_nonneg; lia.
Qed.

(** Base points that are not negative are awarded as points that are not
    negative, and leave a total that is not negative so. *)
Lemma awarded_nonneg tz base today u : 0 <= base -> 0 <= awarded tz base today u.
Proof.
  intros Hb. unfold awarded. apply round_not_negative.
  apply mul_not_negative;
    [now apply of_Z_not_negative|apply streakMultiplier_not_negative].
Qed.

Lemma payable_nonneg e base u : 0 <= base -> 0 <= total_xp u -> payable e base u.
Proof.
  intros Hb Hu. unfold payable.
  assert (H := awarded_nonneg (tz e) base (today e) u Hb). lia.
Qed.

(** ** The completion routes *)

Section Completion.

Lemma find_upsert u rows :
  List.find (fun v => String.eqb (id v) (id u)) (sql.upsert u rows) = Some u.
Proof.
  induction rows as [|v rows IH]; simpl.
  - now rewrite String.eqb_refl.
  - destruct (String.eqb (id v) (id u)) eqn:Hv; simpl.
    + now rewrite String.eqb_refl.
    + now rewrite Hv.
Qed.

Lemma In_upsert u rows v : In v (sql.upsert u rows) -> v = u \/ In v rows.
Proof.
  induction rows as [|w rows IH]; simpl.
  - intros [<-|[]]. now left.
  - destruct (String.eqb (id w) (id u)); simpl.
    + intros [<-|H]; [now left|now right; right].
    + intros [<-|H]; [now right; left|].
      destruct (IH H) as [->|H']; [now left|now right; right].
Qed.

Lemma getUser_upsertUser st u : sql.getUser (sql.upsertUser st u) (id u) = Some u.
Proof. unfold sql.getUser, sql.upsertUser; simpl. apply find_upsert. Qed.

Lemma getUser_id st uid u : sql.getUser st uid = Some u -> id u = uid.
Proof.
  unfold sql.getUser. intros H. apply find_some in H as [_ H].
  now apply String.eqb_eq.
Qed.

Lemma id_promote prev u : id (promote prev u) = id u.
Proof. unfold promote. destruct (_ && _); reflexivity. Qed.

Lemma id_completed tz today base u : id (completed tz today base u) = id u.
Proof. unfold completed. rewrite id_promote. reflexivity. Qed.

Lemma current_streak_promote prev u :
  current_streak (promote prev u) = current_streak u.
Proof. unfold promote. destruct (_ && _); reflexivity. Qed.

Lemma longest_streak_promote prev u :
  longest_streak (promote prev u) = longest_streak u.
Proof. unfold promote. destruct (_ && _); reflexivity. Qed.


Lemma level_promote prev u : level (promote prev u) = level u.
Proof. unfold promote. destruct (_ && _); reflexivity. Qed.

Lemma current_streak_completed tz today base u :
  current_streak (completed tz today base u) =
  current_streak (applyStreakProgress tz today u).
Proof. unfold completed. rewrite current_streak_promote. reflexivity. Qed.

Lemma longest_streak_completed tz today base u :
  longest_streak (completed tz today base u) =
  longest_streak (applyStreakProgress tz today u).
Proof. unfold completed. rewrite longest_streak_promote. reflexivity. Qed.

(** What [POST /api/runs] does when it does not refuse and the new total
    is not negative. *)
Lemma post_runs_success st e u questId q :
  sql.getQuest st questId = Some q ->
  cooldown_wait st e u q questId = None ->
  0 <= total_xp u + awarded (tz e) (q_base_points q) (today e) u ->
  let u' := completed (tz e) (today e) (q_base_points q) u in
  let mult :=
    streakMultiplier (current_streak (applyStreakProgress (tz e) (today e) u)) in
  let gained := gainedXP (q_base_points q) mult in
  post_runs st e u questId =
  (sql.insertRun (sql.upsertUser st u')
     (mkRun (nanoid e) (id u) questId gained (current_streak u')
            (nowMs e) (today e)),
   RunDone gained (current_streak u') (progress_of u') (q_base_points q)
           mult (level u' >? level u)).
Proof.
  intros Hq Hc Hnn. unfold post_runs. rewrite Hq, Hc. cbv zeta. unfold award.
  change (total_xp (applyStreakProgress (tz e) (today e) u)) with (total_xp u).
  destruct (Z.ltb_spec
              (total_xp u +
               gainedXP (q_base_points q)
                 (streakMultiplier
                    (current_streak (applyStreakProgress (tz e) (today e) u)))) 0)
    as [Hneg|_]; [unfold awarded, gainedXP in *; lia|].
  fold (completed (tz e) (today e) (q_base_points q) u).
  set (u' := completed (tz e) (today e) (q_base_points q) u).
  assert (Hid : id u' = id u) by apply id_completed.
  assert (Hget :
    sql.getUser
      (sql.insertRun (sql.upsertUser st u')
         (mkRun (nanoid e) (id u') questId
            (gainedXP (q_base_points q)
               (streakMultiplier
                  (current_streak (applyStreakProgress (tz e) (today e) u))))
            (current_streak u') (nowMs e) (today e))) (id u') = Some u').
  { apply getUser_upsertUser. }
  rewrite Hget. simpl. rewrite Hid. reflexivity.
Qed.

(** When the new total is negative the level is NaN, the transaction
    fails and nothing is written. *)
Lemma post_runs_failure st e u questId q :
  sql.getQuest st questId = Some q ->
  cooldown_wait st e u q questId = None ->
  total_xp u + awarded (tz e) (q_base_points q) (today e) u < 0 ->
  post_runs st e u questId = (st, ServerError).
Proof.
  intros Hq Hc Hneg. unfold post_runs. rewrite Hq, Hc. cbv zeta. unfold award.
  change (total_xp (applyStreakProgress (tz e) (today e) u)) with (total_xp u).
  destruct (Z.ltb_spec
              (total_xp u +
               gainedXP (q_base_points q)
                 (streakMultiplier
                    (current_streak (applyStreakProgress (tz e) (today e) u)))) 0)
    as [_|Hnn]; [reflexivity|unfold awarded, gainedXP in *; lia].
Qed.

(** What [POST /api/routines/:id/log] does when it does not refuse and
    the new total is not negative. *)
Lemma post_routine_log_success st e u rid routine :
  sql.getRoutineById st rid (id u) = Some routine ->
  sql.countRoutineLogsToday st rid (id u) (today e) < r_daily_target routine ->
  0 <= total_xp u + awarded (tz e) (r_base_points routine) (today e) u ->
  let u' := completed (tz e) (today e) (r_base_points routine) u in
  let gained :=
    gainedXP (r_base_points routine)
      (streakMultiplier (current_streak (applyStreakProgress (tz e) (today e) u))) in
  post_routine_log st e u rid =
  (sql.insertRoutineLog (sql.upsertUser st u')
     (mkRoutineLog (nanoid e) rid (id u) gained (nowMs e) (today e)),
   LogDone gained (today e) (progress_of u')).
Proof.
  intros Hr Hc Hnn. unfold post_routine_log. rewrite Hr. cbv zeta.
  destruct (Z.geb_spec (sql.countRoutineLogsToday st rid (id u) (today e))
              (r_daily_target routine)) as [Hge|_]; [lia|].
  unfold award.
  change (total_xp (applyStreakProgress (tz e) (today e) u)) with (total_xp u).
  destruct (Z.ltb_spec
              (total_xp u +
               gainedXP (r_base_points routine)
                 (streakMultiplier
                    (current_streak (applyStreakProgress (tz e) (today e) u)))) 0)
    as [Hneg|_]; [unfold awarded, gainedXP in *; lia|].
  fold (completed (tz e) (today e) (r_base_points routine) u).
  set (u' := completed (tz e) (today e) (r_base_points routine) u).
  assert (Hid : id u' = id u) by apply id_completed.
  rewrite <- Hid at 3.
  assert (Hget : forall l,
    sql.getUser (sql.insertRoutineLog (sql.upsertUser st u') l) (id u') = Some u').
  { intros l. apply getUser_upsertUser. }
  rewrite Hget. reflexivity.
Qed.

Lemma post_routine_log_failure st e u rid routine :
  sql.getRoutineById st rid (id u) = Some routine ->
  sql.countRoutineLogsToday st rid (id u) (today e) < r_daily_target routine ->
  total_xp u + awarded (tz e) (r_base_points routine) (today e) u < 0 ->
  post_routine_log st e u rid = (st, ServerError).
Proof.
  intros Hr Hc Hneg. unfold post_routine_log. rewrite Hr. cbv zeta.
  destruct (Z.geb_spec (sql.countRoutineLogsToday st rid (id u) (today e))
              (r_daily_target routine)) as [Hge|_]; [lia|].
  unfold award.
  change (total_xp (applyStreakProgress (tz e) (today e) u)) with (total_xp u).
  destruct (Z.ltb_spec
              (total_xp u +
               gainedXP (r_base_points routine)
                 (streakMultiplier
                    (current_streak (applyStreakProgress (tz e) (today e) u)))) 0)
    as [_|Hnn]; [reflexivity|unfold awarded, gainedXP in *; lia].
Qed.



(** A reply of [POST /api/runs] that is not an error comes from an active
    quest whose cooldown lets the request through, and a total that is
    not negative. *)
Lemma post_runs_inv st e u questId st' r :
  post_runs st e u questId = (st', r) -> is_success r = true ->
  exists q, sql.getQuest st questId = Some q /\
            cooldown_wait st e u q questId = None /\
            0 <= total_xp u + awarded (tz e) (q_base_points q) (today e) u.
Proof.
  intros Hrun Hok.
  destruct (sql.getQuest st questId) as [q|] eqn:Hq.
  - destruct (cooldown_wait st e u q questId) as [w|] eqn:Hc.
    + unfold post_runs in Hrun. rewrite Hq, Hc in Hrun.
      injection Hrun as <- <-. discriminate.
    + exists q. split; [reflexivity|]. split; [exact Hc|].
      destruct (Z.lt_ge_cases
                  (total_xp u + awarded (tz e) (q_base_points q) (today e) u) 0)
        as [Hneg|Hnn]; [|exact Hnn].
      rewrite (post_runs_failure st e u questId q Hq Hc Hneg) in Hrun.
      injection Hrun as <- <-. discriminate.
  - unfold post_runs in Hrun. rewrite Hq in Hrun.
    injection Hrun as <- <-. discriminate.
Qed.

(** A reply of [POST /api/routines/:id/log] that is not an error comes
    from a routine of the caller still under its daily target, and a
    total that is not negative. *)
Lemma post_routine_log_inv st e u rid st' r :
  post_routine_log st e u rid = (st', r) -> is_success r = true ->
  exists routine,
    sql.getRoutineById st rid (id u) = Some routine /\
    sql.countRoutineLogsToday st rid (id u) (today e) < r_daily_target routine /\
    0 <= total_xp u + awarded (tz e) (r_base_points routine) (today e) u.
Proof.
  intros Hrun Hok.
  destruct (sql.getRoutineById st rid (id u)) as [routine|] eqn:Hr.
  - exists routine. split; [reflexivity|].
    destruct (Z.lt_ge_cases
                (sql.countRoutineLogsToday st rid (id u) (today e))
                (r_daily_target routine)) as [Hlt|Hge].
    + split; [exact Hlt|].
      destruct (Z.lt_ge_cases
                  (total_xp u
                   + awarded (tz e) (r_base_points routine) (today e) u) 0)
        as [Hneg|Hnn]; [|exact Hnn].
      rewrite (post_routine_log_failure st e u rid routine Hr Hlt Hneg) in Hrun.
      injection Hrun as <- <-. discriminate.
    + unfold post_routine_log in Hrun. rewrite Hr in Hrun. cbv zeta in Hrun.
      destruct (Z.geb_spec (sql.countRoutineLogsToday st rid (id u) (today e))
                  (r_daily_target routine)) as [_|Hlt]; [|lia].
      injection Hrun as <- <-. discriminate.
  - unfold post_routine_log in Hrun. rewrite Hr in Hrun.
    injection Hrun as <- <-. discriminate.
Qed.

(** Every request of [POST /api/runs] is either refused, the store being
    left as it is, or goes through as [post_runs_success] says. *)
Lemma post_runs_cases st e u questId :
  (fst (post_runs st e u questId) = st /\
   is_success (snd (post_runs st e u questId)) = false) \/
  (exists q, sql.getQuest st questId = Some q /\
             cooldown_wait st e u q questId = None /\
             0 <= total_xp u + awarded (tz e) (q_base_points q) (today e) u).
Proof.
  destruct (sql.getQuest st questId) as [q|] eqn:Hq.
  - destruct (cooldown_wait st e u q questId) as [w|] eqn:Hc.
    + left. unfold post_runs. rewrite Hq, Hc. split; reflexivity.
    + destruct (Z.lt_ge_cases
                  (total_xp u + awarded (tz e) (q_base_points q) (today e) u) 0)
        as [Hneg|Hnn].
      * left. rewrite (post_runs_failure st e u questId q Hq Hc Hneg).
        split; reflexivity.
      * right. exists q. split; [reflexivity|]. split; [exact Hc|exact Hnn].
  - left. unfold post_runs. rewrite Hq. split; reflexivity.
Qed.

Lemma post_routine_log_cases st e u rid :
  (fst (post_routine_log st e u rid) = st /\
   is_success (snd (post_routine_log st e u rid)) = false) \/
  (exists routine,
     sql.getRoutineById st rid (id u) = Some routine /\
     sql.countRoutineLogsToday st rid (id u) (today e) < r_daily_target routine /\
     0 <= total_xp u + awarded (tz e) (r_base_points routine) (today e) u).
Proof.
  destruct (sql.getRoutineById st rid (id u)) as [routine|] eqn:Hr.
  - destruct (Z.lt_ge_cases
                (sql.countRoutineLogsToday st rid (id u) (today e))
                (r_daily_target routine)) as [Hlt|Hge].
    + destruct (Z.lt_ge_cases
                  (total_xp u
                   + awarded (tz e) (r_base_points routine) (today e) u) 0)
        as [Hneg|Hnn].
      * left. rewrite (post_routine_log_failure st e u rid routine Hr Hlt Hneg).
        split; reflexivity.
      * right. exists routine. split; [reflexivity|]. split; [exact Hlt|exact Hnn].
    + left. unfold post_routine_log. rewrite Hr. cbv zeta.
      destruct (Z.geb_spec (sql.countRoutineLogsToday st rid (id u) (today e))
                  (r_daily_target routine)) as [_|Hlt]; [|lia].
      split; reflexivity.
  - left. unfold post_routine_log. rewrite Hr. split; reflexivity.
Qed.

(** In binary64 the product of 50 points and the multiplier 1.15 of a
    3-day streak is 57.49999999999999, so 57 points are awarded where the
    decimal product 57.5 rounds half up to 58. *)
Example gainedXP_50_streak_3 :
  gainedXP 50 (streakMultiplier 3) = 57 /\
  award_spec 50 3 = 58 /\ halfway 50 3 = true.
Proof. repeat split; vm_compute; reflexivity. Qed.





Lemma rem_5_divide l : Z.rem l 5 = 0 <-> (5 | l).
Proof. apply Z.rem_divide. lia. Qed.

Lemma tier_rule_promote prev u :
  (level u >? prev) && (Z.rem (level u) 5 =? 0) = true <->
  prev < level u /\ (5 | level u).
Proof.
  rewrite andb_true_iff, Z.gtb_lt, Z.eqb_eq, rem_5_divide. reflexivity.
Qed.

Lemma tier_rule_completed tz today base u : tier_rule u (completed tz today base u).
Proof.
  unfold tier_rule, completed.
  set (a := award_row _ _). rewrite level_promote.
  assert (Ha : avatar_tier a = avatar_tier u) by reflexivity.
  assert (Hp := tier_rule_promote (level u) a).
  unfold promote. clearbody a.
  destruct ((level a >? level u) && (Z.rem (level a) 5 =? 0));
    cbn [avatar_tier]; rewrite ?or0_id, Ha.
  - split; [reflexivity|].
    intros Hn. exfalso. apply Hn. apply Hp. reflexivity.
  - split; [|reflexivity].
    intros H. apply Hp in H. discriminate.
Qed.

(** A jump from level 3 to level 10 passes level 5 and arrives on a
    multiple of 5: one tier is gained, not two. *)
Example tier_once_across_levels :
  let u := mkUser "a" 20 3 0 0 None 0 in
  level (completed utc 0 300 u) = 10 /\
  avatar_tier (completed utc 0 300 u) = avatar_tier u + 1.
Proof. split; vm_compute; reflexivity. Qed.

(** C8: on a single completion event the avatar tier grows by exactly 1
    when the new level is above the previous one and divisible by 5, and
    stays as it is otherwise; so it grows by at most 1 per event, however
    many levels the points skip. *)
Theorem avatar_tier_rule :
  (forall st e u questId st' r,
     post_runs st e u questId = (st', r) -> is_success r = true ->
     exists u', sql.getUser st' (id u) = Some u' /\ tier_rule u u' /\
                avatar_tier u <= avatar_tier u' <= avatar_tier u + 1) /\
  (forall st e u rid st' r,
     post_routine_log st e u rid = (st', r) -> is_success r = true ->
     exists u', sql.getUser st' (id u) = Some u' /\ tier_rule u u' /\
                avatar_tier u <= avatar_tier u' <= avatar_tier u + 1).
Proof.
  assert (Hb : forall tz today base u,
             avatar_tier u <= avatar_tier (completed tz today base u)
             <= avatar_tier u + 1).
  { intros tz today base u. unfold completed, promote.
    destruct (_ && _); simpl; rewrite ?or0_id; lia. }
  split.
  - intros st e u questId st' r Hrun Hok.
    destruct (post_runs_inv _ _ _ _ _ _ Hrun Hok) as (q & Hq & Hc & Hnn).
    rewrite (post_runs_success _ _ _ _ _ Hq Hc Hnn) in Hrun. cbv zeta in Hrun.
    apply pair_equal_spec in Hrun as [<- _].
    exists (completed (tz e) (today e) (q_base_points q) u).
    split; [|split; [apply tier_rule_completed|apply Hb]].
    rewrite <- (id_completed (tz e) (today e) (q_base_points q) u).
    apply getUser_upsertUser.
  - intros st e u rid st' r Hrun Hok.
    destruct (post_routine_log_inv _ _ _ _ _ _ Hrun Hok) as (routine & Hr & Hc & Hnn).
    rewrite (post_routine_log_success _ _ _ _ _ Hr Hc Hnn) in Hrun.
    cbv zeta in Hrun. apply pair_equal_spec in Hrun as [<- _].
    exists (completed (tz e) (today e) (r_base_points routine) u).
    split; [|split; [apply tier_rule_completed|apply Hb]].
    rewrite <- (id_completed (tz e) (today e) (r_base_points routine) u).
    apply getUser_upsertUser.
Qed.

(** A user at level 4 with 63 points completes [q1]: 74 points, level 5,
    one tier more. *)
Lemma avatar_tier_rule_witness :
  exists u',
    sql.getUser
      (fst (post_runs (sql.upsertUser empty_store (mkUser "a" 63 4 0 0 None 0))
                      (mkEnv 0 0 "r1" utc) (mkUser "a" 63 4 0 0 None 0) "q1"))
      "a" = Some u' /\
    tier_rule (mkUser "a" 63 4 0 0 None 0) u' /\
    0 <= avatar_tier u' <= 1.
Proof.
  apply (proj1 avatar_tier_rule
           (sql.upsertUser empty_store (mkUser "a" 63 4 0 0 None 0))
           (mkEnv 0 0 "r1" utc) (mkUser "a" 63 4 0 0 None 0) "q1"
           (fst (post_runs (sql.upsertUser empty_store (mkUser "a" 63 4 0 0 None 0))
                      (mkEnv 0 0 "r1" utc) (mkUser "a" 63 4 0 0 None 0) "q1"))
           (snd (post_runs (sql.upsertUser empty_store (mkUser "a" 63 4 0 0 None 0))
                      (mkEnv 0 0 "r1" utc) (mkUser "a" 63 4 0 0 None 0) "q1"))).
  - apply surjective_pairing.
  - vm_compute. reflexivity.
Defined.

(** ** The streak invariant *)

Lemma applyStreakProgress_longest tz today u :
  longest_streak (applyStreakProgress tz today u) =
  Z.max (longest_streak u) (current_streak (applyStreakProgress tz today u)).
Proof. unfold applyStreakProgress; simpl. now rewrite !or0_id. Qed.

Lemma completed_ordered tz today base u :
  current_streak (completed tz today base u) <=
  longest_streak (completed tz today base u).
Proof.
  rewrite current_streak_completed, longest_streak_completed.
  rewrite applyStreakProgress_longest. lia.
Qed.

Lemma upsertUser_ordered st u :
  streaks_ordered st -> current_streak u <= longest_streak u ->
  streaks_ordered (sql.upsertUser st u).
Proof.
  intros Hst Hu v. unfold sql.upsertUser; simpl. intros Hv.
  destruct (In_upsert _ _ _ Hv) as [->|Hin]; [exact Hu|now apply Hst].
Qed.

Lemma ensureUser_ordered st userId :
  streaks_ordered st -> streaks_ordered (fst (ensureUser st userId)).
Proof.
  intros Hst. unfold ensureUser.
  destruct (sql.getUser st userId); simpl; [exact Hst|].
  apply upsertUser_ordered; [exact Hst|simpl; lia].
Qed.

Lemma post_runs_ordered st e u questId :
  streaks_ordered st -> streaks_ordered (fst (post_runs st e u questId)).
Proof.
  intros Hst.
  destruct (post_runs_cases st e u questId) as [[-> _]|(q & Hq & Hc & Hnn)];
    [exact Hst|].
  rewrite (post_runs_success _ _ _ _ _ Hq Hc Hnn). cbv zeta.
  intros v Hv. simpl in Hv.
  apply (upsertUser_ordered st (completed (tz e) (today e) (q_base_points q) u) Hst
           (completed_ordered _ _ _ _) v). exact Hv.
Qed.

Lemma post_routine_log_ordered st e u rid :
  streaks_ordered st -> streaks_ordered (fst (post_routine_log st e u rid)).
Proof.
  intros Hst.
  destruct (post_routine_log_cases st e u rid)
    as [[-> _]|(routine & Hr & Hc & Hnn)]; [exact Hst|].
  rewrite (post_routine_log_success _ _ _ _ _ Hr Hc Hnn). cbv zeta.
  intros v Hv. simpl in Hv.
  apply (upsertUser_ordered st (completed (tz e) (today e) (r_base_points routine) u)
           Hst (completed_ordered _ _ _ _) v). exact Hv.
Qed.

Lemma handle_ordered st r :
  streaks_ordered st -> streaks_ordered (fst (handle st r)).
Proof.
  intros Hst. destruct r as [e userId questId|e userId rid]; simpl.
  - assert (H := ensureUser_ordered st userId Hst).
    destruct (ensureUser st userId) as [st1 u]. now apply post_runs_ordered.
  - assert (H := ensureUser_ordered st userId Hst).
    destruct (ensureUser st userId) as [st1 u].
    now apply post_routine_log_ordered.
Qed.

(** C4: the streak update sets the longest streak to the maximum of itself
    and the current streak, and after every event of any sequence of
    completion requests, accepted or refused, every user's longest streak
    is at least the current one, from any store where this holds. *)
Theorem longest_streak_invariant :
  (forall tz today u,
     longest_streak (applyStreakProgress tz today u) =
       Z.max (longest_streak u) (current_streak (applyStreakProgress tz today u)) /\
     current_streak (applyStreakProgress tz today u) <=
       longest_streak (applyStreakProgress tz today u)) /\
  (forall rs st, streaks_ordered st -> streaks_ordered (serve st rs)).
Proof.
  split.
  - intros tz today u. rewrite applyStreakProgress_longest. split; [reflexivity|lia].
  - induction rs as [|r rs IH]; intros st Hst; [exact Hst|].
    unfold serve; simpl. apply IH. apply handle_ordered. exact Hst.
Qed.

Lemma longest_streak_invariant_witness :
  streaks_ordered
    (serve empty_store
       [PostRun (mkEnv 0 10 "r1" utc) "a" "q1";
        PostRun (mkEnv 86400000 11 "r2" utc) "a" "q3";
        PostRun (mkEnv 86400001 11 "r3" utc) "a" "q2";
        PostRun (mkEnv 86400002 11 "r4" utc) "a" "q2";
        PostRun (mkEnv 400000000 14 "r5" utc) "a" "q1"]).
Proof.
  apply (proj2 longest_streak_invariant).
  intros u H. destruct H.
Defined.

(** ** The cooldown of a quest *)

Lemma fold_later rs : forall r,
  (fold_left sql.later rs r = r \/ In (fold_left sql.later rs r) rs) /\
  run_created_at r <= run_created_at (fold_left sql.later rs r) /\
  (forall x, In x rs ->
             run_created_at x <= run_created_at (fold_left sql.later rs r)).
Proof.
  induction rs as [|a rs IH]; intros r; simpl.
  - split; [now left|]. split; [lia|]. intros x [].
  - destruct (IH (sql.later r a)) as (Hin & Hle & Hall).
    assert (Hl : run_created_at r <= run_created_at (sql.later r a) /\
                 run_created_at a <= run_created_at (sql.later r a) /\
                 (sql.later r a = r \/ sql.later r a = a)).
    { unfold sql.later.
      destruct (Z.ltb_spec (run_created_at r) (run_created_at a));
        repeat split; try lia; auto. }
    destruct Hl as (Hr & Ha & Hor).
    split; [|split].
    + destruct Hin as [->|Hin]; [|now right; right].
      destruct Hor as [->| ->]; [now left|now right; left].
    + lia.
    + intros x [<-|Hx]; [lia|now apply Hall].
Qed.

Lemma run_matches uid questId r :
  String.eqb (run_user_id r) uid && String.eqb (run_quest_id r) questId = true
  <-> run_user_id r = uid /\ run_quest_id r = questId.
Proof. now rewrite andb_true_iff, !String.eqb_eq. Qed.

(** [lastRunForQuest] returns a most recent run. *)
Lemma lastRunForQuest_Some st uid questId last :
  sql.lastRunForQuest st uid questId = Some last ->
  most_recent_run st uid questId last.
Proof.
  unfold sql.lastRunForQuest, most_recent_run.
  set (f := fun r => String.eqb (run_user_id r) uid
                     && String.eqb (run_quest_id r) questId).
  destruct (List.filter f (runs st)) as [|r rs] eqn:Hf; [discriminate|].
  intros [= <-].
  destruct (fold_later rs r) as (Hin & Hle & Hall).
  assert (Hmem : In (fold_left sql.later rs r) (r :: rs)).
  { destruct Hin as [->|Hin]; [now left|now right]. }
  rewrite <- Hf in Hmem. apply filter_In in Hmem as [Hm1 Hm2].
  apply run_matches in Hm2 as [Hu Hq].
  repeat split; try assumption.
  intros x Hx Hxu Hxq.
  assert (Hx' : In x (r :: rs)).
  { rewrite <- Hf. apply filter_In. split; [exact Hx|].
    apply run_matches. now split. }
  destruct Hx' as [<-|Hx']; [exact Hle|now apply Hall].
Qed.

Lemma lastRunForQuest_None st uid questId :
  sql.lastRunForQuest st uid questId = None <-> no_run st uid questId.
Proof.
  unfold sql.lastRunForQuest, no_run.
  set (f := fun r => String.eqb (run_user_id r) uid
                     && String.eqb (run_quest_id r) questId).
  destruct (List.filter f (runs st)) as [|r rs] eqn:Hf.
  - split; [|reflexivity]. intros _ x Hx Hm.
    assert (Hin : In x (List.filter f (runs st))).
    { apply filter_In. split; [exact Hx|]. now apply run_matches. }
    rewrite Hf in Hin. destruct Hin.
  - split; [discriminate|]. intros Hno. exfalso.
    assert (Hin : In r (List.filter f (runs st))) by (rewrite Hf; now left).
    apply filter_In in Hin as [Hin Hm].
    apply (Hno r Hin). now apply run_matches.
Qed.

(** Any most recent run has the instant of the run that [lastRunForQuest]
    returns. *)
Lemma most_recent_run_found st uid questId last :
  most_recent_run st uid questId last ->
  exists last', sql.lastRunForQuest st uid questId = Some last' /\
                run_created_at last' = run_created_at last.
Proof.
  intros (Hin & Hu & Hq & Hmax).
  destruct (sql.lastRunForQuest st uid questId) as [last'|] eqn:Hl.
  - exists last'. split; [reflexivity|].
    apply lastRunForQuest_Some in Hl as (Hin' & Hu' & Hq' & Hmax').
    specialize (Hmax last' Hin' Hu' Hq'). specialize (Hmax' last Hin Hu Hq).
    lia.
  - apply lastRunForQuest_None in Hl. exfalso. apply (Hl last Hin). now split.
Qed.

Lemma ceil_div_1000 x : 1000 * (ceil_div x 1000 - 1) < x <= 1000 * ceil_div x 1000.
Proof.
  unfold ceil_div.
  assert (H := Z.div_mod (- x) 1000 ltac:(lia)).
  assert (Hr := Z.mod_pos_bound (- x) 1000 ltac:(lia)). lia.
Qed.



(** ** The daily target of a routine *)

Lemma count_insertRoutineLog st l rid uid d :
  sql.countRoutineLogsToday (sql.insertRoutineLog st l) rid uid d =
  sql.countRoutineLogsToday st rid uid d
  + (if sql.logged_on rid uid d l then 1 else 0).
Proof.
  unfold sql.countRoutineLogsToday, sql.insertRoutineLog; simpl.
  rewrite List.filter_app, length_app, Nat2Z.inj_add. simpl.
  destruct (sql.logged_on rid uid d l); reflexivity.
Qed.


Lemma ensureUser_found st userId u :
  sql.getUser st userId = Some u -> ensureUser st userId = (st, u).
Proof. intros H. unfold ensureUser. now rewrite H. Qed.




End Completion.

(** ** Weekly insights *)

Section Weekly.

Lemma byDay_init_no_logs days : no_logs (byDay_init days).
Proof.
  unfold byDay_init.
  assert (H : forall m, no_logs m ->
            no_logs (fold_left (fun m d => <[d := mkDay d 0 0 0]> m) days m)).
  { induction days as [|d days IH]; intros m Hm; [exact Hm|].
    simpl. apply IH. intros d' row.
    destruct (decide (d = d')) as [->|Hne].
    - rewrite lookup_insert_eq. intros [= <-]. reflexivity.
    - rewrite lookup_insert_ne by exact Hne. apply Hm. }
  apply H. intros d row. rewrite lookup_empty. discriminate.
Qed.

Lemma byDay_runs_no_logs rows : forall m,
  no_logs m -> no_logs (byDay_runs rows m).
Proof.
  unfold byDay_runs.
  induction rows as [|[[d n] xp] rows IH]; intros m Hm; [exact Hm|].
  simpl. apply IH. destruct (m !! d) as [row|] eqn:Hd; [|exact Hm].
  intros d' row'. destruct (decide (d = d')) as [->|Hne].
  - rewrite lookup_insert_eq. intros [= <-]. simpl. exact (Hm _ _ Hd).
  - rewrite lookup_insert_ne by exact Hne. apply Hm.
Qed.

Lemma logs_by_date_nil st today userId :
  no_logs_in_window st today userId ->
  logs_by_date st userId (today - 6) today = [].
Proof.
  unfold no_logs_in_window, logs_by_date.
  generalize (routine_logs st). intros ls Hno.
  assert (Hf : List.filter
                 (fun l => String.eqb (rl_user_id l) userId
                           && (today - 6 <=? rl_local_date l)
                           && (rl_local_date l <=? today)) ls = []).
  { induction ls as [|l ls IH]; [reflexivity|].
    simpl. rewrite IH.
    - destruct (String.eqb_spec (rl_user_id l) userId) as [Hu|]; [|reflexivity].
      destruct (Z.leb_spec (today - 6) (rl_local_date l)); [|reflexivity].
      destruct (Z.leb_spec (rl_local_date l) today); [|reflexivity].
      exfalso. apply (Hno l); [now left|exact Hu|lia].
    - intros l' Hl'. apply Hno. now right. }
  rewrite Hf. reflexivity.
Qed.

Lemma daysMetTarget_bounds total rows :
  0 <= daysMetTarget_of total rows <= Z.of_nat (length rows).
Proof.
  unfold daysMetTarget_of.
  assert (H : forall n,
            n <= fold_left
                   (fun n row =>
                      if (total >? 0) && (d_routineLogs row >=? total)
                      then n + 1 else n) rows n
            <= n + Z.of_nat (length rows)).
  { induction rows as [|row rows IH]; intros n; simpl length; simpl fold_left.
    - simpl. lia.
    - destruct ((total >? 0) && (d_routineLogs row >=? total)).
      + specialize (IH (n + 1)). lia.
      + specialize (IH n). lia. }
  specialize (H 0). lia.
Qed.

Lemma daysMetTarget_no_logs total rows :
  Forall (fun row => d_routineLogs row = 0) rows ->
  daysMetTarget_of total rows = 0.
Proof.
  intros Hall. unfold daysMetTarget_of.
  assert (H : forall n,
            fold_left
              (fun n row =>
                 if (total >? 0) && (d_routineLogs row >=? total)
                 then n + 1 else n) rows n = n); [|apply H].
  induction Hall as [|row rows H0 _ IH]; intros n; [reflexivity|].
  simpl. rewrite H0.
  replace ((total >? 0) && (0 >=? total)) with false; [apply IH|].
  destruct (Z.gtb_spec total 0), (Z.geb_spec 0 total); simpl; lia.
Qed.

Lemma byDay_init_spec days :
  dated (byDay_init days) /\
  forall d, In d days -> is_Some (byDay_init days !! d).
Proof.
  unfold byDay_init.
  assert (H : forall m,
            dated m ->
            dated (fold_left (fun m d => <[d := mkDay d 0 0 0]> m) days m) /\
            forall d, In d days \/ is_Some (m !! d) ->
                      is_Some (fold_left (fun m d => <[d := mkDay d 0 0 0]> m)
                                 days m !! d)).
  { induction days as [|d0 days IH]; intros m Hm.
    - split; [exact Hm|]. intros d [[]|H]. exact H.
    - simpl.
      assert (Hm' : dated (<[d0 := mkDay d0 0 0 0]> m)).
      { intros d row. destruct (decide (d0 = d)) as [->|Hne].
        - rewrite lookup_insert_eq. intros [= <-]. reflexivity.
        - rewrite lookup_insert_ne by exact Hne. apply Hm. }
      destruct (IH _ Hm') as [IH1 IH2]. split; [exact IH1|].
      intros d Hd. apply IH2.
      destruct (decide (d0 = d)) as [->|Hne].
      + right. rewrite lookup_insert_eq. eauto.
      + rewrite lookup_insert_ne by exact Hne.
        destruct Hd as [[Hd|Hd]|Hd]; [contradiction|now left|now right]. }
  destruct (H ∅) as [H1 H2].
  - intros d row. rewrite lookup_empty. discriminate.
  - split; [exact H1|]. intros d Hd. apply H2. now left.
Qed.

Lemma byDay_runs_spec rows : forall m,
  dated m ->
  dated (byDay_runs rows m) /\
  forall d, is_Some (m !! d) -> is_Some (byDay_runs rows m !! d).
Proof.
  unfold byDay_runs.
  induction rows as [|[[d0 n] xp] rows IH]; intros m Hm.
  - split; [exact Hm|]. intros d H; exact H.
  - simpl. destruct (m !! d0) as [row0|] eqn:Hd0; [|now apply IH].
    set (m' := <[d0 := _]> m).
    assert (Hm' : dated m').
    { intros d row. unfold m'. destruct (decide (d0 = d)) as [->|Hne].
      - rewrite lookup_insert_eq. intros [= <-]. simpl. exact (Hm _ _ Hd0).
      - rewrite lookup_insert_ne by exact Hne. apply Hm. }
    destruct (IH m' Hm') as [IH1 IH2]. split; [exact IH1|].
    intros d Hd. apply IH2. unfold m'.
    destruct (decide (d0 = d)) as [->|Hne].
    + rewrite lookup_insert_eq. eauto.
    + now rewrite lookup_insert_ne by exact Hne.
Qed.

(** The loop over the grouped logs: a day of the map that the query
    returned gets the count of the query, any other day keeps its row. *)
Lemma byDay_logs_lookup (f : Z -> Z) rows :
  (forall d n, In (d, n) rows -> n = f d) ->
  forall m d row,
    m !! d = Some row ->
    exists row',
      byDay_logs rows m !! d = Some row' /\ date row' = date row /\
      (In d (map fst rows) -> d_routineLogs row' = f d) /\
      (~ In d (map fst rows) -> d_routineLogs row' = d_routineLogs row).
Proof.
  unfold byDay_logs.
  induction rows as [|[d0 n0] rows IH]; intros Hf m d row Hd.
  - exists row. simpl. split; [exact Hd|]. split; [reflexivity|].
    split; [intros []|reflexivity].
  - assert (Hf' : forall d n, In (d, n) rows -> n = f d).
    { intros d1 n1 H1. apply Hf. now right. }
    assert (Hn0 : n0 = f d0) by (apply Hf; now left).
    simpl fold_left. destruct (decide (d0 = d)) as [->|Hne].
    + rewrite Hd.
      destruct (IH Hf'
                  (<[d := mkDay (date row) (d_quests row) (or0 n0) (d_xp row)]> m)
                  d (mkDay (date row) (d_quests row) (or0 n0) (d_xp row)))
        as (row' & Hl & Hdate & Hin & Hout).
      { apply lookup_insert_eq. }
      exists row'. split; [exact Hl|]. split; [exact Hdate|].
      split; [|intros Hno; exfalso; apply Hno; now left].
      intros _. destruct (in_dec Z.eq_dec d (map fst rows)) as [Hi|Hi].
      * now apply Hin.
      * rewrite (Hout Hi). simpl. rewrite or0_id. exact Hn0.
    + assert (Hstep :
          match m !! d0 with
          | Some row0 =>
              <[d0 := mkDay (date row0) (d_quests row0) (or0 n0) (d_xp row0)]> m
          | None => m
          end !! d = Some row).
      { destruct (m !! d0); [|exact Hd].
        now rewrite lookup_insert_ne by exact Hne. }
      destruct (IH Hf' _ d row Hstep) as (row' & Hl & Hdate & Hin & Hout).
      exists row'. split; [exact Hl|]. split; [exact Hdate|]. split.
      * intros [H0|Hi]; [simpl in H0; contradiction|now apply Hin].
      * intros Hno. apply Hout. intros Hi. apply Hno. now right.
Qed.

Lemma filter_filter_length {A} (p q : A -> bool) l :
  length (List.filter p (List.filter q l)) =
  length (List.filter (fun x => q x && p x) l).
Proof.
  induction l as [|x l IH]; [reflexivity|].
  simpl. destruct (q x); simpl; [destruct (p x); simpl|]; now rewrite ?IH.
Qed.

Lemma filter_ext_length {A} (p q : A -> bool) l :
  (forall x, p x = q x) ->
  length (List.filter p l) = length (List.filter q l).
Proof.
  intros H. induction l as [|x l IH]; [reflexivity|].
  simpl. rewrite H. destruct (q x); simpl; now rewrite IH.
Qed.

(** On a day of the window the count that the grouped query carries is
    the number of the user's logs of that day. *)
Lemma window_count st userId start stop d :
  start <= d <= stop ->
  Z.of_nat
    (length
       (List.filter (fun l => rl_local_date l =? d)
          (List.filter (fun l => String.eqb (rl_user_id l) userId
                                 && (start <=? rl_local_date l)
                                 && (rl_local_date l <=? stop))
             (routine_logs st)))) = logs_on st userId d.
Proof.
  intros Hd. unfold logs_on. f_equal. rewrite filter_filter_length.
  apply filter_ext_length. intros l.
  destruct (Z.eqb_spec (rl_local_date l) d) as [->|]; [|now rewrite !andb_false_r].
  destruct (Z.leb_spec start d), (Z.leb_spec d stop); try lia.
  now rewrite !andb_true_r.
Qed.

(** Each row of the series carries its date and the number of the
    user's routine logs of that date. *)
Lemma weekly_series st today userId :
  series (weekly st today userId) =
  map (fun d => default (mkDay d 0 0 0)
                  (byDay_logs (logs_by_date st userId (today - 6) today)
                     (byDay_runs (runs_by_date st userId (today - 6) today)
                        (byDay_init (window_days today))) !! d))
      (window_days today) /\
  Forall2 (fun d row => date row = d /\ d_routineLogs row = logs_on st userId d)
          (window_days today) (series (weekly st today userId)).
Proof.
  split; [reflexivity|].
  unfold weekly; cbn [series].
  apply Forall2_fmap_r, Forall_Forall2_diag, Forall_forall. intros d Hd.
  apply list_elem_of_In in Hd.
  assert (Hw : today - 6 <= d <= today).
  { unfold window_days in Hd. simpl in Hd.
    destruct Hd as [<-|[<-|[<-|[<-|[<-|[<-|[<-|[]]]]]]]]; lia. }
  destruct (byDay_init_spec (window_days today)) as [Hdated0 Hdom0].
  destruct (byDay_runs_spec (runs_by_date st userId (today - 6) today) _ Hdated0)
    as [Hdated1 Hdom1].
  destruct (Hdom1 d (Hdom0 d Hd)) as [row Hrow].
  assert (Hzero := byDay_runs_no_logs (runs_by_date st userId (today - 6) today)
                     _ (byDay_init_no_logs (window_days today)) d row Hrow).
  set (rows := List.filter
                 (fun l => String.eqb (rl_user_id l) userId
                           && (today - 6 <=? rl_local_date l)
                           && (rl_local_date l <=? today)) (routine_logs st)).
  set (f := fun d => Z.of_nat
                       (length (List.filter (fun l => rl_local_date l =? d) rows))).
  destruct (byDay_logs_lookup f (logs_by_date st userId (today - 6) today))
    with (m := byDay_runs (runs_by_date st userId (today - 6) today)
                 (byDay_init (window_days today))) (d := d) (row := row)
    as (row' & Hl & Hdate & Hin & Hout).
  { intros d1 n1 H1. unfold logs_by_date in H1. apply in_map_iff in H1.
    destruct H1 as (d2 & [= <- <-] & _). reflexivity. }
  { exact Hrow. }
  unfold compose. rewrite Hl. simpl. split; [rewrite Hdate; exact (Hdated1 _ _ Hrow)|].
  rewrite <- (window_count st userId (today - 6) today d Hw).
  fold rows. fold (f d).
  destruct (in_dec Z.eq_dec d
              (map fst (logs_by_date st userId (today - 6) today))) as [Hi|Hi].
  - now apply Hin.
  - rewrite (Hout Hi), Hzero. unfold f.
    destruct (List.filter (fun l => rl_local_date l =? d) rows) as [|l ls] eqn:Hf;
      [reflexivity|].
    exfalso. apply Hi.
    assert (Hl' : In l (List.filter (fun l => rl_local_date l =? d) rows))
      by (rewrite Hf; now left).
    apply filter_In in Hl' as [Hl1 Hl2]. apply Z.eqb_eq in Hl2.
    unfold logs_by_date. rewrite map_map. simpl. rewrite map_id.
    apply list_elem_of_In. apply elem_of_remove_dups. apply list_elem_of_In.
    apply in_map_iff. exists l. split; [exact Hl2|exact Hl1].
Qed.

(** [daysMetTarget] counts the days of the window on which the user's
    routine logs reach the total. *)
Lemma daysMetTarget_count st today userId :
  daysMetTarget (weekly st today userId) =
  Z.of_nat
    (length
       (List.filter
          (fun d => (dailyTargetTotal (weekly st today userId) >? 0)
                    && (logs_on st userId d
                        >=? dailyTargetTotal (weekly st today userId)))
          (window_days today))).
Proof.
  destruct (weekly_series st today userId) as [_ Hrows].
  change (daysMetTarget (weekly st today userId))
    with (daysMetTarget_of (dailyTargetTotal (weekly st today userId))
                           (series (weekly st today userId))).
  generalize dependent (series (weekly st today userId)).
  generalize (dailyTargetTotal (weekly st today userId)).
  generalize (window_days today).
  intros ds total rows Hrows. unfold daysMetTarget_of.
  assert (H : forall n,
    fold_left
      (fun n row =>
         if (total >? 0) && (d_routineLogs row >=? total) then n + 1 else n)
      rows n
    = n + Z.of_nat
            (length (List.filter
                       (fun d => (total >? 0) && (logs_on st userId d >=? total))
                       ds))); [|apply H].
  induction Hrows as [|d row ds rows [_ Hd] _ IH]; intros n; simpl.
  - lia.
  - rewrite Hd, IH.
    destruct ((total >? 0) && (logs_on st userId d >=? total)); simpl length; lia.
Qed.

Lemma dailyTargetTotal_sum rs :
  dailyTargetTotal_of rs =
  fold_left (fun acc r => acc + r_daily_target r) rs 0.
Proof.
  unfold dailyTargetTotal_of. rewrite or0_id.
  generalize 0. induction rs as [|r rs IH]; intros n; [reflexivity|].
  simpl. rewrite or0_id. apply IH.
Qed.

(** The binary64 evaluation of [Math.round((k / 7) * 100)] on the eight
    possible counts is the exact quotient rounded half up. *)
Lemma completionRate_table total k :
  0 < total -> 0 <= k <= 7 ->
  completionRate_of total k = (200 * k + 7) / 14.
Proof.
  intros Ht Hk. unfold completionRate_of.
  destruct (Z.gtb_spec total 0); [|lia].
  assert (Hc : k = 0 \/ k = 1 \/ k = 2 \/ k = 3 \/ k = 4 \/ k = 5 \/ k = 6 \/ k = 7)
    by lia.
  repeat (destruct Hc as [->|Hc]; [vm_compute; reflexivity|]).
  subst k. vm_compute. reflexivity.
Qed.

Lemma riskBand_of_spec rate :
  (riskBand_of rate = Green <-> 70 <= rate) /\
  (riskBand_of rate = Amber <-> 40 <= rate < 70) /\
  (riskBand_of rate = Red <-> rate < 40).
Proof.
  unfold riskBand_of.
  destruct (Z.geb_spec rate 70), (Z.geb_spec rate 40);
    repeat split; intros; try discriminate; try reflexivity; lia.
Qed.

Lemma fold_left_filter_weigh {A} (p : A -> bool) (w : A -> Z) l : forall acc,
  fold_left (fun acc x => acc + w x) (List.filter p l) acc = acc + weigh p w l.
Proof.
  unfold weigh. induction l as [|x l IH]; intros acc; simpl; [lia|].
  destruct (p x); simpl; rewrite IH; lia.
Qed.

Lemma dailyTargetTotal_target_total st today userId :
  dailyTargetTotal (weekly st today userId) = target_total st userId.
Proof.
  unfold weekly; cbn [dailyTargetTotal]. rewrite dailyTargetTotal_sum.
  unfold active_routines, target_total. now rewrite fold_left_filter_weigh.
Qed.

Lemma half_up_sevenths k :
  0 <= k <= 7 -> half_up (inject_Z k / 7 * 100) = (200 * k + 7) / 14.
Proof.
  intros Hk.
  assert (H : k = 0 \/ k = 1 \/ k = 2 \/ k = 3 \/ k = 4 \/ k = 5 \/ k = 6 \/ k = 7)
    by lia.
  destruct H as [->|[->|[->|[->|[->|[->|[->| ->]]]]]]]; reflexivity.
Qed.

(** C7: the weekly report takes for [completionRate] the value
    [round ((daysMetTarget / 7) * 100)], rounded half up, when the daily
    targets of the caller's active routines sum to a positive number and
    0 otherwise, [daysMetTarget] being the number of the seven dates of
    the window on which the caller's routine logs reach that sum; the
    band is Green exactly from 70 on, Amber exactly from 40 to 69, Red
    below; a week without routine logs has rate 0 and band Red, and a
    caller without active routines has rate 0 whatever the runs. *)
Theorem weekly_completion_rate st today userId :
  dailyTargetTotal (weekly st today userId) = target_total st userId /\
  daysMetTarget (weekly st today userId) =
    Z.of_nat
      (length
         (List.filter
            (fun d => (0 <? target_total st userId)
                      && (target_total st userId <=? logs_on st userId d))
            [today - 6; today - 5; today - 4; today - 3; today - 2; today - 1;
             today - 0])) /\
  0 <= daysMetTarget (weekly st today userId) <= 7 /\
  (0 < target_total st userId ->
   completionRate (weekly st today userId) =
     half_up (inject_Z (daysMetTarget (weekly st today userId)) / 7 * 100)) /\
  (target_total st userId <= 0 ->
   completionRate (weekly st today userId) = 0) /\
  (riskBand (weekly st today userId) = Green <->
   70 <= completionRate (weekly st today userId)) /\
  (riskBand (weekly st today userId) = Amber <->
   40 <= completionRate (weekly st today userId) < 70) /\
  (riskBand (weekly st today userId) = Red <->
   completionRate (weekly st today userId) < 40) /\
  (no_logs_in_window st today userId ->
   completionRate (weekly st today userId) = 0 /\
   riskBand (weekly st today userId) = Red) /\
  ((forall r, In r (routines st) -> r_user_id r = userId -> r_active r = false) ->
   completionRate (weekly st today userId) = 0).
Proof.
  assert (HT := dailyTargetTotal_target_total st today userId).
  assert (Hmet : 0 <= daysMetTarget (weekly st today userId) <= 7).
  { unfold weekly; cbn [daysMetTarget].
    match goal with
    | |- _ <= daysMetTarget_of ?t ?rows <= _ =>
        assert (H := daysMetTarget_bounds t rows)
    end.
    rewrite length_map in H. exact H. }
  assert (Hrate : completionRate (weekly st today userId) =
                  completionRate_of (target_total st userId)
                    (daysMetTarget (weekly st today userId))).
  { rewrite <- HT. reflexivity. }
  assert (Hzero : target_total st userId <= 0 ->
                  completionRate (weekly st today userId) = 0).
  { intros Hle. rewrite Hrate. unfold completionRate_of.
    destruct (Z.gtb_spec (target_total st userId) 0); [lia|reflexivity]. }
  split; [exact HT|]. split.
  { rewrite daysMetTarget_count, HT.
    change (window_days today)
      with [today - 6; today - 5; today - 4; today - 3; today - 2; today - 1;
            today - 0].
    f_equal. f_equal. apply List.filter_ext. intros d.
    now rewrite Z.gtb_ltb, Z.geb_leb. }
  split; [exact Hmet|].
  split.
  { intros Hpos. rewrite Hrate, (completionRate_table _ _ Hpos Hmet).
    symmetry. now apply half_up_sevenths. }
  split; [exact Hzero|].
  split; [apply riskBand_of_spec|]. split; [apply riskBand_of_spec|].
  split; [apply riskBand_of_spec|]. split.
  - intros Hno.
    assert (H0 : daysMetTarget (weekly st today userId) = 0).
    { unfold weekly; cbn [daysMetTarget]. apply daysMetTarget_no_logs.
      rewrite (logs_by_date_nil _ _ _ Hno). unfold byDay_logs at 1; simpl fold_left.
      apply Forall_map. apply Forall_forall. intros d _.
      assert (Hinv := byDay_runs_no_logs
                        (runs_by_date st userId (today - 6) today) _
                        (byDay_init_no_logs (window_days today))).
      destruct (byDay_runs _ _ !! d) as [row|] eqn:Hd; simpl.
      - exact (Hinv _ _ Hd).
      - reflexivity. }
    assert (Hr0 : completionRate (weekly st today userId) = 0).
    { rewrite Hrate, H0. unfold completionRate_of.
      destruct (_ >? 0); [vm_compute|]; reflexivity. }
    split; [exact Hr0|].
    change (riskBand (weekly st today userId))
      with (riskBand_of (completionRate (weekly st today userId))).
    rewrite Hr0. reflexivity.
  - intros Hnone. apply Hzero.
    assert (H0 : target_total st userId = 0); [|lia].
    unfold target_total, weigh.
    induction (routines st) as [|r rs IH]; [reflexivity|].
    simpl. rewrite IH by (intros r' Hr'; apply Hnone; now right).
    destruct (String.eqb_spec (r_user_id r) userId) as [Hu|]; [|reflexivity].
    now rewrite (Hnone r (or_introl eq_refl) Hu).
Qed.

(** A user with one active routine of target 1, another that is retired,
    and the routine logged on five of the seven days up to day 100: the
    target total is 1, five days meet it, the rate is
    [round (5 / 7 * 100) = 71]. *)
Lemma weekly_completion_rate_witness :
  let st :=
    mkStore [mkUser "a" 30 3 5 5 (Some 100) 0] seed_quests []
      [mkRoutine "walk" "a" "Walk" 6 1 true;
       mkRoutine "read" "a" "Read" 6 3 false]
      [mkRoutineLog "l1" "walk" "a" 6 10 96;
       mkRoutineLog "l2" "walk" "a" 6 20 97;
       mkRoutineLog "l3" "walk" "a" 6 30 98;
       mkRoutineLog "l4" "walk" "a" 6 40 99;
       mkRoutineLog "l5" "walk" "a" 6 50 100] in
  completionRate (weekly st 100 "a") =
    half_up (inject_Z (daysMetTarget (weekly st 100 "a")) / 7 * 100).
Proof.
  intros st.
  apply (proj1 (proj2 (proj2 (proj2 (weekly_completion_rate st 100 "a"))))).
  reflexivity.
Defined.

End Weekly.

(** ** Creating a routine *)

Section CreateRoutine_facts.

Variable StringToNumber : string -> number.

Lemma number_or_spec v d :
  d <> 0 ->
  number_or StringToNumber v d <> 0 /\
  (zero_or_NaN (Number StringToNumber v) -> number_or StringToNumber v d = d) /\
  (forall z, Number StringToNumber v = Num z -> z <> 0 ->
             number_or StringToNumber v d = z).
Proof.
  intros Hd. unfold number_or, zero_or_NaN.
  destruct (Number StringToNumber v) as [|z].
  - repeat split; [exact Hd|discriminate].
  - destruct z as [|p|p].
    + repeat split; [exact Hd|]. intros z [= <-] Hz. now destruct Hz.
    + repeat split; try discriminate.
      * intros [H|H]; discriminate H.
      * now intros z [= <-] _.
    + repeat split; try discriminate.
      * intros [H|H]; discriminate H.
      * now intros z [= <-] _.
Qed.

Lemma Number_with_default v d :
  Number StringToNumber (with_default v d) =
  match v with
  | JUndefined => Num d
  | _ => Number StringToNumber v
  end.
Proof. destruct v; reflexivity. Qed.

End CreateRoutine_facts.

(** What [Number(x) || d] keeps out: a routine created with a title is
    stored with a daily target and base points that are never 0; a
    [dailyTarget] that is absent, or whose number is 0 or NaN, gives a
    stored target of 1, a [basePoints] of that kind gives 6 stored
    points, and any other number is stored as it is, a negative one
    included. *)
Theorem created_routine_never_zero
    (StringToNumber : string -> number) st e userId title dailyTarget basePoints :
  title <> EmptyString ->
  exists r,
    fst (post_routines StringToNumber st e userId (Some title)
                       dailyTarget basePoints)
      = sql.insertRoutine st r /\
    r_user_id r = userId /\ r_active r = true /\
    r_daily_target r <> 0 /\ r_base_points r <> 0 /\
    (dailyTarget = JUndefined \/ zero_or_NaN (Number StringToNumber dailyTarget) ->
     r_daily_target r = 1) /\
    (basePoints = JUndefined \/ zero_or_NaN (Number StringToNumber basePoints) ->
     r_base_points r = 6) /\
    (forall z, Number StringToNumber dailyTarget = Num z -> z <> 0 ->
               r_daily_target r = z) /\
    (forall z, Number StringToNumber basePoints = Num z -> z <> 0 ->
               r_base_points r = z).
Proof.
  intros Ht. unfold post_routines.
  destruct title as [|c title]; [now destruct Ht|].
  eexists. split; [reflexivity|]. cbn [r_user_id r_active r_daily_target r_base_points].
  destruct (number_or_spec StringToNumber (with_default dailyTarget 1) 1 ltac:(lia))
    as (Hd0 & Hd1 & Hd2).
  destruct (number_or_spec StringToNumber (with_default basePoints 6) 6 ltac:(lia))
    as (Hb0 & Hb1 & Hb2).
  rewrite Number_with_default in Hd1, Hd2, Hb1, Hb2.
  repeat split; try assumption.
  - intros [->|H]; [reflexivity|].
    destruct dailyTarget; try (now apply Hd1); reflexivity.
  - intros [->|H]; [reflexivity|].
    destruct basePoints; try (now apply Hb1); reflexivity.
  - intros z Hz Hnz. destruct dailyTarget; try (now apply Hd2); discriminate Hz.
  - intros z Hz Hnz. destruct basePoints; try (now apply Hb2); discriminate Hz.
Qed.

(** A body with the title ["Walk"], [dailyTarget: 0] and no [basePoints]:
    the routine is stored with a target of 1 and 6 points. *)
Lemma created_routine_never_zero_witness :
  exists r,
    fst (post_routines (fun _ => NaN) empty_store (mkEnv 0 0 "r1" utc) "demo-user"
                       (Some "Walk") (JNum 0) JUndefined)
      = sql.insertRoutine empty_store r /\
    r_daily_target r = 1 /\ r_base_points r = 6.
Proof.
  destruct (created_routine_never_zero (fun _ => NaN) empty_store
              (mkEnv 0 0 "r1" utc) "demo-user" "Walk" (JNum 0) JUndefined)
    as (r & Hst & _ & _ & _ & _ & Hd & Hb & _); [discriminate|].
  exists r. split; [exact Hst|]. split.
  - apply Hd. right. right. reflexivity.
  - apply Hb. left. reflexivity.
Defined.

(** C10: the route does not keep negative numbers out.  The body
    [{ title: "Walk", dailyTarget: -1 }] stores a routine whose daily
    target is -1, which is not positive, and every log of it is refused
    as over the target; the body [{ title: "Run", basePoints: -5 }] stores
    a routine worth -5 points, and its log by a user without points fails
    (the total would be -5, the level NaN) with nothing written. *)
Theorem negative_daily_target_stored :
  let st1 :=
    fst (post_routines (fun _ => NaN) empty_store (mkEnv 0 0 "r1" utc) "demo-user"
                       (Some "Walk") (JNum (-1)) JUndefined) in
  let st2 :=
    fst (post_routines (fun _ => NaN) empty_store (mkEnv 0 0 "r2" utc) "demo-user"
                       (Some "Run") JUndefined (JNum (-5))) in
  routines st1 = [mkRoutine "r1" "demo-user" "Walk" 6 (-1) true] /\
  ~ (forall r, In r (routines st1) -> 0 < r_daily_target r /\ 0 < r_base_points r) /\
  snd (handle st1 (PostRoutineLog (mkEnv 1 0 "l1" utc) "demo-user" "r1"))
    = limit_reached /\
  routines st2 = [mkRoutine "r2" "demo-user" "Run" (-5) 1 true] /\
  ~ (forall r, In r (routines st2) -> 0 < r_daily_target r /\ 0 < r_base_points r) /\
  handle st2 (PostRoutineLog (mkEnv 1 0 "l1" utc) "demo-user" "r2")
    = (sql.upsertUser st2 (newUser "demo-user"), ServerError).
Proof.
  intros st1 st2. split; [reflexivity|]. split; [|split; [|split; [|split]]].
  - intros H.
    destruct (H (mkRoutine "r1" "demo-user" "Walk" 6 (-1) true)) as [H0 _];
      [left; reflexivity|].
    cbn [r_daily_target] in H0. lia.
  - vm_compute. reflexivity.
  - reflexivity.
  - intros H.
    destruct (H (mkRoutine "r2" "demo-user" "Run" (-5) 1 true)) as [_ H0];
      [left; reflexivity|].
    cbn [r_base_points] in H0. lia.
  - vm_compute. reflexivity.
Qed.


(** * Further properties *)

(** ** Streaks over several completions *)

(** X1: a second completion on the same date changes nothing in the
    streak fields: the update is idempotent within a day, in every time
    zone. *)
Theorem applyStreakProgress_same_day tz today u :
  applyStreakProgress tz today (applyStreakProgress tz today u) =
  applyStreakProgress tz today u.
Proof.
  unfold applyStreakProgress; simpl.
  rewrite diff_days_same. simpl. rewrite !or0_id. f_equal. lia.
Qed.

Lemma consecutive_days_from_yesterday tz n : midnights tz -> forall d u,
  last_active_local_date u = Some (d - 1) ->
  current_streak (consecutive_days tz (S n) d u)
    = current_streak u + Z.of_nat n + 1 /\
  longest_streak (consecutive_days tz (S n) d u) =
    Z.max (longest_streak u) (current_streak u + Z.of_nat n + 1) /\
  last_active_local_date (consecutive_days tz (S n) d u) = Some (d + Z.of_nat n).
Proof.
  intros Htz. induction n as [|n IH]; intros d u Hlast.
  - simpl. unfold applyStreakProgress. rewrite Hlast. simpl.
    rewrite (diff_days_calendar tz d (d - 1) Htz).
    replace (d - (d - 1)) with 1 by lia. simpl. rewrite !or0_id.
    repeat split; [lia|f_equal; lia|f_equal; lia].
  - change (consecutive_days tz (S (S n)) d u)
      with (consecutive_days tz (S n) (d + 1) (applyStreakProgress tz d u)).
    destruct (IH (d + 1) (applyStreakProgress tz d u)) as (Hc & Hl & Hd).
    { simpl. f_equal. lia. }
    rewrite Hc, Hl, Hd. unfold applyStreakProgress. rewrite Hlast. simpl.
    rewrite (diff_days_calendar tz d (d - 1) Htz).
    replace (d - (d - 1)) with 1 by lia. simpl. rewrite !or0_id.
    rewrite Nat2Z.inj_succ. repeat split; [lia|lia|f_equal; lia].
Qed.

(** X2: where every local midnight exists (no clock change skips one),
    completions on [n + 1] consecutive dates by a user who was never
    active end with a streak of [n + 1] days, the longest streak being
    the larger of the old one and [n + 1]; for a user last active the day
    before, the streak grows by [n + 1]; and a completion after a gap of
    two days or more starts again at 1 without lowering the longest
    streak. *)
Theorem consecutive_days_streak tz :
  midnights tz ->
  (forall n d u,
     last_active_local_date u = None ->
     current_streak (consecutive_days tz (S n) d u) = Z.of_nat n + 1 /\
     longest_streak (consecutive_days tz (S n) d u) =
       Z.max (longest_streak u) (Z.of_nat n + 1) /\
     last_active_local_date (consecutive_days tz (S n) d u)
       = Some (d + Z.of_nat n)) /\
  (forall n d u,
     last_active_local_date u = Some (d - 1) ->
     current_streak (consecutive_days tz (S n) d u) =
       current_streak u + Z.of_nat n + 1 /\
     longest_streak (consecutive_days tz (S n) d u) =
       Z.max (longest_streak u) (current_streak u + Z.of_nat n + 1)) /\
  (forall d last u,
     last_active_local_date u = Some last -> last + 1 < d ->
     current_streak (applyStreakProgress tz d u) = 1 /\
     longest_streak (applyStreakProgress tz d u) = Z.max (longest_streak u) 1).
Proof.
  intros Htz. split; [|split].
  - intros n d u Hnone. destruct n as [|n].
    + simpl. unfold applyStreakProgress. rewrite Hnone. simpl.
      rewrite or0_id. split; [reflexivity|]. split; [reflexivity|f_equal; lia].
    + change (consecutive_days tz (S (S n)) d u)
        with (consecutive_days tz (S n) (d + 1) (applyStreakProgress tz d u)).
      destruct (consecutive_days_from_yesterday tz n Htz (d + 1)
                  (applyStreakProgress tz d u)) as (Hc & Hl & Hd).
      { simpl. f_equal. lia. }
      rewrite Hc, Hl, Hd. unfold applyStreakProgress. rewrite Hnone.
      cbn [current_streak longest_streak]. rewrite !or0_id, Nat2Z.inj_succ.
      repeat split; [lia|lia|f_equal; lia].
  - intros n d u Hlast.
    destruct (consecutive_days_from_yesterday tz n Htz d u Hlast) as (Hc & Hl & _).
    split; assumption.
  - intros d last u Hlast Hgap. unfold applyStreakProgress. rewrite Hlast. simpl.
    rewrite (diff_days_calendar tz d last Htz).
    destruct (Z.eqb_spec (d - last) 0); [lia|].
    destruct (Z.eqb_spec (d - last) 1); [lia|].
    rewrite !or0_id. split; reflexivity.
Qed.

(** Seven consecutive days from day 100 on for a new user, in UTC: a
    streak of 7, which is then also the longest. *)
Lemma consecutive_days_streak_witness :
  current_streak (consecutive_days utc 7 100 (newUser "a")) = 7 /\
  longest_streak (consecutive_days utc 7 100 (newUser "a")) = 7 /\
  last_active_local_date (consecutive_days utc 7 100 (newUser "a")) = Some 106.
Proof.
  exact (proj1 (consecutive_days_streak utc midnights_utc) 6%nat 100
           (newUser "a") eq_refl).
Defined.


(** ** What every request keeps *)

Lemma find_upsert_other u rows uid :
  id u <> uid ->
  List.find (fun v => String.eqb (id v) uid) (sql.upsert u rows) =
  List.find (fun v => String.eqb (id v) uid) rows.
Proof.
  intros Hne. induction rows as [|v rows IH]; simpl.
  - destruct (String.eqb_spec (id u) uid); [contradiction|reflexivity].
  - destruct (String.eqb_spec (id v) (id u)) as [Hv|Hv]; simpl.
    + destruct (String.eqb_spec (id u) uid); [contradiction|].
      destruct (String.eqb_spec (id v) uid); [congruence|reflexivity].
    + destruct (String.eqb_spec (id v) uid); [reflexivity|exact IH].
Qed.

Lemma getUser_upsertUser_other st u uid :
  id u <> uid -> sql.getUser (sql.upsertUser st u) uid = sql.getUser st uid.
Proof. intros H. unfold sql.getUser, sql.upsertUser; simpl. now apply find_upsert_other. Qed.

Lemma getUser_In st uid u : sql.getUser st uid = Some u -> In u (users st).
Proof. unfold sql.getUser. intros H. now apply find_some in H. Qed.

(** The middleware returns the stored row when there is one, and stores
    and returns the row of a new user otherwise. *)
Lemma ensureUser_cases st userId :
  (exists u, sql.getUser st userId = Some u /\ ensureUser st userId = (st, u)) \/
  (sql.getUser st userId = None /\
   ensureUser st userId = (sql.upsertUser st (newUser userId), newUser userId)).
Proof.
  unfold ensureUser. destruct (sql.getUser st userId) as [u|] eqn:Hu.
  - left. exists u. split; reflexivity.
  - right. split; [reflexivity|].
    change userId with (id (newUser userId)) at 3.
    rewrite getUser_upsertUser. reflexivity.
Qed.

(** A request either leaves the rows of the users as the middleware left
    them, or replaces the row of the caller by the completed one. *)
Lemma handle_users st r :
  forall st1 u, ensureUser st (caller r) = (st1, u) ->
  users (fst (handle st r)) = users st1 \/
  exists tz today base,
    users (fst (handle st r)) = sql.upsert (completed tz today base u) (users st1).
Proof.
  intros st1 u He. destruct r as [e userId questId|e userId rid]; simpl in *;
    rewrite He.
  - destruct (post_runs_cases st1 e u questId) as [[-> _]|(q & Hq & Hc & Hnn)];
      [now left|].
    rewrite (post_runs_success _ _ _ _ _ Hq Hc Hnn). cbv zeta.
    right. exists (tz e), (today e), (q_base_points q). reflexivity.
  - destruct (post_routine_log_cases st1 e u rid)
      as [[-> _]|(routine & Hr & Hc & Hnn)]; [now left|].
    rewrite (post_routine_log_success _ _ _ _ _ Hr Hc Hnn). cbv zeta.
    right. exists (tz e), (today e), (r_base_points routine). reflexivity.
Qed.

(** A property of rows that new users have and completions keep holds of
    every row after any request. *)
Lemma handle_rows (P : user -> Prop) :
  (forall uid, P (newUser uid)) ->
  (forall tz today base u, P u -> P (completed tz today base u)) ->
  forall st r,
    (forall u, In u (users st) -> P u) ->
    forall u, In u (users (fst (handle st r))) -> P u.
Proof.
  intros Hnew Hdone st r Hst.
  destruct (ensureUser st (caller r)) as [st1 u0] eqn:He.
  assert (H1 : (forall u, In u (users st1) -> P u) /\ P u0).
  { destruct (ensureUser_cases st (caller r)) as [(u & Hu & He')|[Hn He']];
      rewrite He' in He; injection He as <- <-.
    - split; [exact Hst|]. apply Hst. now apply getUser_In in Hu.
    - split; [|apply Hnew]. intros u Hu. simpl in Hu.
      destruct (In_upsert _ _ _ Hu) as [->|Hin]; [apply Hnew|now apply Hst]. }
  destruct H1 as [Hst1 Hu0].
  destruct (handle_users st r st1 u0 He) as [->|(tz & today & base & ->)].
  - exact Hst1.
  - intros u Hu. destruct (In_upsert _ _ _ Hu) as [->|Hin].
    + now apply Hdone.
    + now apply Hst1.
Qed.

Lemma serve_rows (P : user -> Prop) :
  (forall uid, P (newUser uid)) ->
  (forall tz today base u, P u -> P (completed tz today base u)) ->
  forall rs st,
    (forall u, In u (users st) -> P u) ->
    forall u, In u (users (serve st rs)) -> P u.
Proof.
  intros Hnew Hdone. induction rs as [|r rs IH]; intros st Hst; [exact Hst|].
  unfold serve; simpl. apply IH. now apply handle_rows.
Qed.

(** X3: through any sequence of completion requests, every user who has
    a last active date has a streak of at least one day, from any store
    where this holds (the empty one does). *)
Theorem streaks_started_invariant rs st :
  streaks_started st -> streaks_started (serve st rs).
Proof.
  intros Hst.
  refine (serve_rows (fun u => last_active_local_date u <> None ->
                               1 <= current_streak u) _ _ rs st Hst).
  - intros uid H. now destruct H.
  - intros tz today base u Hu _. rewrite current_streak_completed.
    unfold applyStreakProgress; simpl.
    destruct (last_active_local_date u) as [last|]; [|lia].
    specialize (Hu ltac:(discriminate)).
    destruct (diff_days tz today last =? 0); [exact Hu|].
    destruct (diff_days tz today last =? 1); [rewrite or0_id|]; lia.
Qed.

Lemma streaks_started_invariant_witness :
  streaks_started
    (serve empty_store
       [PostRun (mkEnv 0 10 "r1" utc) "a" "q1";
        PostRoutineLog (mkEnv 5 10 "l1" utc) "b" "none";
        PostRun (mkEnv 86400000 11 "r2" utc) "a" "q3"]).
Proof.
  apply streaks_started_invariant. intros u [].
Defined.



(** ** Points are never negative *)

(** X4: a quest or routine worth a non-negative number of points never
    awards a negative number of them, whatever the streak. *)
Theorem gainedXP_nonneg base streak :
  0 <= base -> 0 <= gainedXP base (streakMultiplier streak).
Proof.
  intros Hb. unfold gainedXP. apply round_not_negative.
  apply mul_not_negative;
    [now apply of_Z_not_negative|apply streakMultiplier_not_negative].
Qed.

Lemma gainedXP_nonneg_witness : 0 <= gainedXP 12 (streakMultiplier 9).
Proof. apply gainedXP_nonneg. lia. Defined.


(** ** The histories and the totals *)

Lemma id_ensureUser st userId st1 u :
  ensureUser st userId = (st1, u) -> id u = userId.
Proof.
  intros He.
  destruct (ensureUser_cases st userId) as [(v & Hv & He')|[_ He']];
    rewrite He' in He; injection He as <- <-; [|reflexivity].
  now apply getUser_id in Hv.
Qed.

(** The three outcomes of a request after the middleware: nothing is
    written, or the caller's row is replaced by the completed one and one
    run, or one routine log, carrying the points awarded is added. *)
Lemma handle_cases st r st1 u :
  ensureUser st (caller r) = (st1, u) ->
  (is_success (snd (handle st r)) = false /\ fst (handle st r) = st1) \/
  (is_success (snd (handle st r)) = true /\
   exists q n questId sa t z d,
     In q (quests st1) /\
     fst (handle st r) =
       sql.insertRun
         (sql.upsertUser st1 (completed z d (q_base_points q) u))
         (mkRun n (id u) questId (awarded z (q_base_points q) d u) sa t d)) \/
  (is_success (snd (handle st r)) = true /\
   exists routine n rid t z d,
     In routine (routines st1) /\
     fst (handle st r) =
       sql.insertRoutineLog
         (sql.upsertUser st1 (completed z d (r_base_points routine) u))
         (mkRoutineLog n rid (id u) (awarded z (r_base_points routine) d u) t d)).
Proof.
  intros He. destruct r as [e userId questId|e userId rid]; simpl in *;
    rewrite He.
  - destruct (post_runs_cases st1 e u questId) as [[H1 H2]|(q & Hq & Hc & Hnn)].
    + left. split; [exact H2|exact H1].
    + right. left. rewrite (post_runs_success _ _ _ _ _ Hq Hc Hnn). cbv zeta.
      split; [reflexivity|].
      exists q, (nanoid e), questId,
        (current_streak (completed (tz e) (today e) (q_base_points q) u)),
        (nowMs e), (tz e), (today e).
      split; [|reflexivity]. unfold sql.getQuest in Hq.
      now apply find_some in Hq.
  - destruct (post_routine_log_cases st1 e u rid)
      as [[H1 H2]|(routine & Hr & Hlt & Hnn)].
    + left. split; [exact H2|exact H1].
    + right. right. rewrite (post_routine_log_success _ _ _ _ _ Hr Hlt Hnn).
      cbv zeta. split; [reflexivity|].
      exists routine, (nanoid e), rid, (nowMs e), (tz e), (today e).
      split; [|reflexivity]. unfold sql.getRoutineById in Hr.
      now apply find_some in Hr.
Qed.









Lemma handle_catalog st r :
  quests (fst (handle st r)) = quests st /\
  routines (fst (handle st r)) = routines st.
Proof.
  destruct (ensureUser st (caller r)) as [st1 u] eqn:He.
  assert (H1 : quests st1 = quests st /\ routines st1 = routines st).
  { destruct (ensureUser_cases st (caller r)) as [(v & Hv & He')|[Hn He']];
      rewrite He' in He; injection He as <- <-; split; reflexivity. }
  destruct (handle_cases st r st1 u He)
    as [[_ ->]|[[_ (q & n & questId & sa & t & z & d & Hq & ->)]
               |[_ (routine & n & rid & t & z & d & Hr & ->)]]];
    exact H1.
Qed.

Lemma serve_catalog rs : forall st,
  quests (serve st rs) = quests st /\ routines (serve st rs) = routines st.
Proof.
  induction rs as [|r rs IH]; intros st; [split; reflexivity|].
  unfold serve; simpl. fold (serve (fst (handle st r)) rs).
  destruct (IH (fst (handle st r))) as [-> ->]. apply handle_catalog.
Qed.






(** ** What a request writes *)

Lemma ensureUser_history st userId :
  runs (fst (ensureUser st userId)) = runs st /\
  routine_logs (fst (ensureUser st userId)) = routine_logs st.
Proof.
  destruct (ensureUser_cases st userId) as [(v & Hv & ->)|[Hn ->]];
    split; reflexivity.
Qed.

Lemma handle_history st r :
  exists new_runs new_logs,
    runs (fst (handle st r)) = runs st ++ new_runs /\
    routine_logs (fst (handle st r)) = routine_logs st ++ new_logs /\
    Z.of_nat (length new_runs + length new_logs) =
      (if is_success (snd (handle st r)) then 1 else 0).
Proof.
  destruct (ensureUser st (caller r)) as [st1 u] eqn:He.
  destruct (ensureUser_history st (caller r)) as [Hr Hl]. rewrite He in Hr, Hl.
  simpl in Hr, Hl.
  destruct (handle_cases st r st1 u He)
    as [[Hs ->]|[[Hs (q & n & questId & sa & t & z & d & Hq & ->)]
               |[Hs (routine & n & rid & t & z & d & Hro & ->)]]]; rewrite Hs.
  - exists [], []. rewrite !app_nil_r. repeat split; assumption.
  - eexists [_], []. simpl. rewrite Hr, Hl, app_nil_r. repeat split.
  - eexists [], [_]. simpl. rewrite Hr, Hl, app_nil_r. repeat split.
Qed.

(** X7: the histories are append-only: after any sequence of completion
    requests the runs and the routine logs that were there are still
    there, unaltered and in place, the rows added behind them are as many
    as the accepted requests, and the quests and the routines are as they
    were. *)
Theorem history_append_only rs st :
  exists new_runs new_logs,
    runs (serve st rs) = runs st ++ new_runs /\
    routine_logs (serve st rs) = routine_logs st ++ new_logs /\
    Z.of_nat (length new_runs + length new_logs) = accepted (replies st rs) /\
    quests (serve st rs) = quests st /\
    routines (serve st rs) = routines st.
Proof.
  revert st. induction rs as [|r rs IH]; intros st.
  - exists [], []. rewrite !app_nil_r. repeat split.
  - unfold serve; simpl. fold (serve (fst (handle st r)) rs).
    destruct (IH (fst (handle st r))) as (nr & nl & Hr & Hl & Hn & Hq & Hro).
    destruct (handle_history st r) as (nr0 & nl0 & Hr0 & Hl0 & Hn0).
    destruct (handle_catalog st r) as [Hq0 Hro0].
    exists (nr0 ++ nr), (nl0 ++ nl).
    rewrite Hr, Hl, Hr0, Hl0, Hq, Hro, Hq0, Hro0, <- !app_assoc.
    repeat split.
    unfold accepted in *. simpl.
    rewrite !length_app.
    destruct (is_success (snd (handle st r))); simpl length; lia.
Qed.

(** X8: a refused completion request writes nothing: the store is the
    one the middleware left, which is the store itself when the caller
    already has a row. *)
Theorem refusal_writes_nothing st r :
  is_success (snd (handle st r)) = false ->
  fst (handle st r) = fst (ensureUser st (caller r)) /\
  (forall u, sql.getUser st (caller r) = Some u -> fst (handle st r) = st).
Proof.
  intros Hno. destruct (ensureUser st (caller r)) as [st1 u] eqn:He.
  assert (H1 : fst (handle st r) = st1).
  { destruct (handle_cases st r st1 u He)
      as [[_ ->]|[[Hs _]|[Hs _]]]; [reflexivity| |]; congruence. }
  split; [exact H1|]. intros v Hv.
  rewrite H1. rewrite (ensureUser_found _ _ _ Hv) in He. congruence.
Qed.

(** An unknown quest asked for by a user who has a row: the store is
    left as it is. *)
Lemma refusal_writes_nothing_witness :
  let st := sql.upsertUser empty_store (newUser "a") in
  fst (handle st (PostRun (mkEnv 0 10 "r1" utc) "a" "q9")) = st.
Proof.
  intros st.
  exact (proj2 (refusal_writes_nothing st (PostRun (mkEnv 0 10 "r1" utc) "a" "q9")
                  eq_refl) (newUser "a") eq_refl).
Defined.


(** ** Whose quest, whose routine *)

Lemma find_none_iff {A} (p : A -> bool) l :
  List.find p l = None <-> forall x, In x l -> p x = false.
Proof.
  split.
  - intros H x Hx. exact (find_none p l H x Hx).
  - intros H. induction l as [|a l IH]; [reflexivity|].
    simpl. rewrite (H a (or_introl eq_refl)). apply IH.
    intros x Hx. apply H. now right.
Qed.

(** X9: a completion is refused as unknown exactly when no active row
    answers: [POST /api/runs] replies 400 (invalid quest) exactly when no
    active quest has the id, and [POST /api/routines/:id/log] replies 404
    exactly when no active routine with the id belongs to the caller, so
    that nobody logs on the routine of somebody else; in both cases the
    store is returned as it is. *)
Theorem unknown_target_refused st e u :
  (forall questId,
     (snd (post_runs st e u questId) = Error 400 "Invalid questId" None <->
      forall q, In q (quests st) -> ~ (q_id q = questId /\ q_active q = true)) /\
     (snd (post_runs st e u questId) = Error 400 "Invalid questId" None ->
      fst (post_runs st e u questId) = st)) /\
  (forall rid,
     (snd (post_routine_log st e u rid) = Error 404 "Routine not found" None <->
      forall r, In r (routines st) ->
                ~ (r_id r = rid /\ r_user_id r = id u /\ r_active r = true)) /\
     (snd (post_routine_log st e u rid) = Error 404 "Routine not found" None ->
      fst (post_routine_log st e u rid) = st)).
Proof.
  split.
  - intros questId.
    assert (Hnone : sql.getQuest st questId = None <->
                    forall q, In q (quests st) ->
                              ~ (q_id q = questId /\ q_active q = true)).
    { unfold sql.getQuest. rewrite find_none_iff. split; intros H q Hq.
      - specialize (H q Hq). intros [H1 H2].
        rewrite H2, andb_true_r in H. apply String.eqb_neq in H. contradiction.
      - specialize (H q Hq). destruct (String.eqb_spec (q_id q) questId);
          [|reflexivity]. destruct (q_active q); [|reflexivity].
        exfalso. apply H. split; [assumption|reflexivity]. }
    rewrite <- Hnone. unfold post_runs.
    destruct (sql.getQuest st questId) as [q|].
    + destruct (cooldown_wait st e u q questId); [|destruct (award _ _)];
        simpl; (split; [split; discriminate|discriminate]).
    + simpl. split; [split; reflexivity|reflexivity].
  - intros rid.
    assert (Hnone : sql.getRoutineById st rid (id u) = None <->
                    forall r, In r (routines st) ->
                      ~ (r_id r = rid /\ r_user_id r = id u /\ r_active r = true)).
    { unfold sql.getRoutineById. rewrite find_none_iff. split; intros H r Hr.
      - specialize (H r Hr). intros (H1 & H2 & H3).
        rewrite H3, andb_true_r in H. apply andb_false_iff in H.
        destruct H as [H|H]; apply String.eqb_neq in H; contradiction.
      - specialize (H r Hr). destruct (String.eqb_spec (r_id r) rid);
          [|reflexivity]. destruct (String.eqb_spec (r_user_id r) (id u));
          [|reflexivity]. destruct (r_active r); [|reflexivity].
        exfalso. apply H. repeat split; assumption. }
    rewrite <- Hnone. unfold post_routine_log.
    destruct (sql.getRoutineById st rid (id u)) as [routine|].
    + cbv zeta. destruct (_ >=? _); [|destruct (award _ _)]; simpl;
        (split; [split; discriminate|discriminate]).
    + simpl. split; [split; reflexivity|reflexivity].
Qed.


(** ** Routines: created, listed, logged *)

Lemma find_app_l {A} (p : A -> bool) l l' x :
  List.find p l = Some x -> List.find p (l ++ l') = Some x.
Proof.
  induction l as [|a l IH]; [discriminate|]. simpl.
  destruct (p a); [trivial|exact IH].
Qed.

Lemma find_app_r {A} (p : A -> bool) l l' :
  List.find p l = None -> List.find p (l ++ l') = List.find p l'.
Proof.
  induction l as [|a l IH]; [reflexivity|]. simpl.
  destruct (p a); [discriminate|exact IH].
Qed.

(** X10: creating a routine under an identifier that no routine has yet
    stores an active routine of the caller that the reply shows; its
    owner finds it under that identifier and nobody else does, and every
    other identifier answers as before.  Without a title, or with an
    empty one, nothing is stored. *)
Theorem created_routine_found
    (StringToNumber : string -> number) st e userId title dailyTarget basePoints :
  title <> EmptyString ->
  (forall r, In r (routines st) -> r_id r <> nanoid e) ->
  exists r,
    post_routines StringToNumber st e userId (Some title) dailyTarget basePoints
      = (sql.insertRoutine st r, Created (Some r)) /\
    r_id r = nanoid e /\ r_user_id r = userId /\ r_title r = title /\
    r_active r = true /\
    sql.getRoutineById (sql.insertRoutine st r) (nanoid e) userId = Some r /\
    (forall other, other <> userId ->
       sql.getRoutineById (sql.insertRoutine st r) (nanoid e) other = None) /\
    (forall rid uid, rid <> nanoid e ->
       sql.getRoutineById (sql.insertRoutine st r) rid uid =
       sql.getRoutineById st rid uid) /\
    post_routines StringToNumber st e userId None dailyTarget basePoints
      = (st, TitleRequired) /\
    post_routines StringToNumber st e userId (Some EmptyString)
                  dailyTarget basePoints = (st, TitleRequired).
Proof.
  intros Ht Hfresh.
  set (r := mkRoutine (nanoid e) userId title
              (number_or StringToNumber (with_default basePoints 6) 6)
              (number_or StringToNumber (with_default dailyTarget 1) 1) true).
  assert (Hnone : forall uid,
            List.find (fun r0 => String.eqb (r_id r0) (nanoid e)
                                 && String.eqb (r_user_id r0) uid && r_active r0)
                      (routines st) = None).
  { intros uid. apply find_none_iff. intros x Hx.
    destruct (String.eqb_spec (r_id x) (nanoid e)) as [Heq|]; [|reflexivity].
    now apply Hfresh in Hx. }
  assert (Hget : sql.getRoutineById (sql.insertRoutine st r) (nanoid e) userId
                 = Some r).
  { unfold sql.getRoutineById, sql.insertRoutine; simpl.
    rewrite (find_app_r _ _ _ (Hnone userId)). simpl.
    now rewrite !String.eqb_refl. }
  exists r. split.
  - unfold post_routines. destruct title as [|c title]; [now destruct Ht|].
    fold r. now rewrite Hget.
  - repeat split; try reflexivity; try exact Hget.
    + intros other Hother. unfold sql.getRoutineById, sql.insertRoutine; simpl.
      rewrite (find_app_r _ _ _ (Hnone other)). simpl.
      rewrite String.eqb_refl.
      destruct (String.eqb_spec userId other); [congruence|reflexivity].
    + intros rid uid Hrid. unfold sql.getRoutineById, sql.insertRoutine; simpl.
      destruct (List.find _ (routines st)) as [x|] eqn:Hx.
      * now apply find_app_l.
      * rewrite (find_app_r _ _ _ Hx). simpl.
        destruct (String.eqb_spec (nanoid e) rid); [congruence|reflexivity].
Qed.

Lemma created_routine_found_witness :
  exists r,
    post_routines (fun _ => NaN) empty_store (mkEnv 0 0 "r1" utc) "a"
                  (Some "Walk") (JNum 3) JUndefined
      = (sql.insertRoutine empty_store r, Created (Some r)) /\
    r_daily_target r = 3 /\
    sql.getRoutineById (sql.insertRoutine empty_store r) "r1" "b" = None.
Proof.
  destruct (created_routine_found (fun _ => NaN) empty_store (mkEnv 0 0 "r1" utc)
              "a" "Walk" (JNum 3) JUndefined)
    as (r & Hp & _ & _ & _ & _ & _ & Hother & _).
  - discriminate.
  - intros r [].
  - exists r. split; [exact Hp|]. split.
    + vm_compute in Hp. injection Hp as _ Hr. now subst r.
    + apply Hother. discriminate.
Defined.

Lemma find_unique {A B} (f : A -> B) (p : A -> bool) l x :
  NoDup (map f l) -> In x l -> p x = true ->
  (forall y, In y l -> p y = true -> f y = f x) ->
  List.find p l = Some x.
Proof.
  induction l as [|a l IH]; intros Hnd Hx Hp Hall; [destruct Hx|].
  simpl in *. apply NoDup_cons in Hnd as [Hna Hnd].
  destruct (p a) eqn:Hpa.
  - destruct Hx as [->|Hx]; [reflexivity|]. exfalso. apply Hna.
    rewrite (Hall a (or_introl eq_refl) Hpa).
    apply list_elem_of_In. apply in_map. exact Hx.
  - destruct Hx as [->|Hx]; [congruence|].
    apply IH; auto.
Qed.

(** X11: [GET /api/routines] lists exactly the active routines of the
    caller, each with the count that the logging route compares with the
    daily target; so, identifiers being distinct, a listed routine whose
    count of today has reached its target is the one whose log is refused
    today, and a listed routine below its target is one whose log is
    accepted, when neither the points of the routine nor the total of the
    caller are negative. *)
Theorem listed_routines_gate st e u :
  NoDup (map r_id (routines st)) ->
  (forall r, In r (map fst (get_routines st (today e) (id u))) <->
             In r (routines st) /\ r_user_id r = id u /\ r_active r = true) /\
  (forall r c, In (r, c) (get_routines st (today e) (id u)) ->
     c = sql.countRoutineLogsToday st (r_id r) (id u) (today e) /\
     (r_daily_target r <= c ->
      post_routine_log st e u (r_id r) = (st, limit_reached)) /\
     (c < r_daily_target r -> 0 <= r_base_points r -> 0 <= total_xp u ->
      is_success (snd (post_routine_log st e u (r_id r))) = true)).
Proof.
  intros Hnd.
  assert (Hmem : forall r c, In (r, c) (get_routines st (today e) (id u)) ->
            (In r (routines st) /\ r_user_id r = id u /\ r_active r = true) /\
            c = sql.countRoutineLogsToday st (r_id r) (id u) (today e)).
  { intros r c H. unfold get_routines in H. apply in_rev in H.
    apply in_map_iff in H as (r0 & [= <- <-] & Hr0).
    apply filter_In in Hr0 as [Hin Hp]. apply andb_prop in Hp as [Hu Ha].
    apply String.eqb_eq in Hu. rewrite Hu. repeat split; assumption. }
  split.
  - intros r. split.
    + intros H. apply in_map_iff in H as ([r0 c] & <- & H).
      now apply Hmem in H.
    + intros (Hin & Hu & Ha). apply in_map_iff.
      exists (r, sql.countRoutineLogsToday st (r_id r) (r_user_id r) (today e)).
      split; [reflexivity|]. unfold get_routines. apply in_rev.
      rewrite rev_involutive. apply in_map_iff. exists r. split; [reflexivity|].
      apply filter_In. split; [exact Hin|]. rewrite Hu, Ha, String.eqb_refl.
      reflexivity.
  - intros r c H. destruct (Hmem r c H) as [(Hin & Hu & Ha) Hc].
    split; [exact Hc|].
    assert (Hget : sql.getRoutineById st (r_id r) (id u) = Some r).
    { unfold sql.getRoutineById.
      apply (find_unique r_id _ _ r Hnd Hin).
      - now rewrite String.eqb_refl, Hu, String.eqb_refl, Ha.
      - intros y _ Hy. apply andb_prop in Hy as [Hy _].
        apply andb_prop in Hy as [Hy _]. now apply String.eqb_eq in Hy. }
    subst c. split.
    + intros Hge. unfold post_routine_log. rewrite Hget. cbv zeta.
      destruct (Z.geb_spec (sql.countRoutineLogsToday st (r_id r) (id u) (today e))
                  (r_daily_target r)); [reflexivity|lia].
    + intros Hlt Hb Hx.
      now rewrite (post_routine_log_success _ _ _ _ _ Hget Hlt
                     (payable_nonneg e (r_base_points r) u Hb Hx)).
Qed.

Lemma listed_routines_gate_witness :
  let alice := mkUser "alice" 12 2 1 1 (Some 100) 0 in
  let walk := mkRoutine "walk" "alice" "Walk" 6 2 true in
  let st := mkStore [alice] seed_quests [] [walk]
              [mkRoutineLog "l1" "walk" "alice" 6 10 100;
               mkRoutineLog "l2" "walk" "alice" 6 20 100] in
  get_routines st 100 "alice" = [(walk, 2)] /\
  post_routine_log st (mkEnv 30 100 "l3" utc) alice "walk" = (st, limit_reached).
Proof.
  intros alice walk st. split; [reflexivity|].
  assert (Hnd : NoDup (map r_id (routines st))).
  { apply NoDup_cons. split; [intros H; inversion H|apply NoDup_nil; exact I]. }
  refine (proj1 (proj2 (proj2 (listed_routines_gate st (mkEnv 30 100 "l3" utc) alice Hnd)
                          walk 2 _)) _).
  - left. reflexivity.
  - simpl. lia.
Defined.


(** ** The weekly report against the histories *)

Lemma byDay_init_zero days :
  forall d row, byDay_init days !! d = Some row -> row = mkDay d 0 0 0.
Proof.
  unfold byDay_init.
  assert (H : forall m : gmap Z day_row,
            (forall d row, m !! d = Some row -> row = mkDay d 0 0 0) ->
            forall d row,
              fold_left (fun m d => <[d := mkDay d 0 0 0]> m) days m !! d = Some row ->
              row = mkDay d 0 0 0).
  { induction days as [|d0 days IH]; intros m Hm; [exact Hm|].
    simpl. apply IH. intros d row.
    destruct (decide (d0 = d)) as [->|Hne].
    - rewrite lookup_insert_eq. now intros [= <-].
    - rewrite lookup_insert_ne by exact Hne. apply Hm. }
  apply H. intros d row. rewrite lookup_empty. discriminate.
Qed.

(** The loop over the grouped runs: a day of the map that the query
    returned gets the count and the sum of the query, any other day keeps
    its row; no routine-log count is touched. *)
Lemma byDay_runs_lookup (f g : Z -> Z) rows :
  (forall d n xp, In (d, n, xp) rows -> n = f d /\ xp = g d) ->
  forall m d row,
    m !! d = Some row ->
    exists row',
      byDay_runs rows m !! d = Some row' /\ date row' = date row /\
      d_routineLogs row' = d_routineLogs row /\
      (In d (map (fun p => fst (fst p)) rows) ->
       d_quests row' = f d /\ d_xp row' = g d) /\
      (~ In d (map (fun p => fst (fst p)) rows) ->
       d_quests row' = d_quests row /\ d_xp row' = d_xp row).
Proof.
  unfold byDay_runs.
  induction rows as [|[[d0 n0] x0] rows IH]; intros Hf m d row Hd.
  - exists row. simpl. split; [exact Hd|]. split; [reflexivity|].
    split; [reflexivity|]. split; [intros []|intros _; split; reflexivity].
  - assert (Hf' : forall d n xp, In (d, n, xp) rows -> n = f d /\ xp = g d).
    { intros d1 n1 x1 H1. apply Hf. now right. }
    destruct (Hf d0 n0 x0 (or_introl eq_refl)) as [Hn0 Hx0].
    simpl fold_left. destruct (decide (d0 = d)) as [->|Hne].
    + rewrite Hd.
      destruct (IH Hf'
                  (<[d := mkDay (date row) (or0 n0) (d_routineLogs row) (or0 x0)]> m)
                  d (mkDay (date row) (or0 n0) (d_routineLogs row) (or0 x0)))
        as (row' & Hl & Hdate & Hlogs & Hin & Hout).
      { apply lookup_insert_eq. }
      exists row'. split; [exact Hl|]. split; [exact Hdate|].
      split; [exact Hlogs|].
      split; [|intros Hno; exfalso; apply Hno; now left].
      intros _.
      destruct (in_dec Z.eq_dec d (map (fun p => fst (fst p)) rows)) as [Hi|Hi].
      * now apply Hin.
      * destruct (Hout Hi) as [-> ->]. simpl. rewrite !or0_id. now split.
    + assert (Hstep :
          match m !! d0 with
          | Some row0 =>
              <[d0 := mkDay (date row0) (or0 n0) (d_routineLogs row0) (or0 x0)]> m
          | None => m
          end !! d = Some row).
      { destruct (m !! d0); [|exact Hd].
        now rewrite lookup_insert_ne by exact Hne. }
      destruct (IH Hf' _ d row Hstep) as (row' & Hl & Hdate & Hlogs & Hin & Hout).
      exists row'. split; [exact Hl|]. split; [exact Hdate|].
      split; [exact Hlogs|]. split.
      * intros [H0|Hi]; [simpl in H0; contradiction|now apply Hin].
      * intros Hno. apply Hout. intros Hi. apply Hno. now right.
Qed.

(** The loop over the grouped logs leaves the counts and the points of
    the runs as they are. *)
Lemma byDay_logs_keeps rows : forall m d row,
  m !! d = Some row ->
  exists row',
    byDay_logs rows m !! d = Some row' /\
    d_quests row' = d_quests row /\ d_xp row' = d_xp row.
Proof.
  unfold byDay_logs.
  induction rows as [|[d0 n0] rows IH]; intros m d row Hd.
  - exists row. simpl. repeat split. exact Hd.
  - simpl fold_left. destruct (decide (d0 = d)) as [->|Hne].
    + rewrite Hd.
      destruct (IH (<[d := mkDay (date row) (d_quests row) (or0 n0) (d_xp row)]> m)
                  d (mkDay (date row) (d_quests row) (or0 n0) (d_xp row)))
        as (row' & Hl & Hq & Hx).
      { apply lookup_insert_eq. }
      exists row'. repeat split; assumption.
    + apply IH. destruct (m !! d0); [|exact Hd].
      now rewrite lookup_insert_ne by exact Hne.
Qed.

Lemma fold_left_sum {A} (f : A -> Z) l : forall acc,
  fold_left (fun acc x => acc + f x) l acc = acc + fold_right Z.add 0 (map f l).
Proof.
  induction l as [|x l IH]; intros acc; simpl; [lia|]. rewrite IH. lia.
Qed.

Lemma filter_filter {A} (p q : A -> bool) l :
  List.filter p (List.filter q l) = List.filter (fun x => q x && p x) l.
Proof.
  induction l as [|x l IH]; [reflexivity|].
  simpl. destruct (q x); simpl; [destruct (p x); simpl|]; now rewrite ?IH.
Qed.

Lemma filter_ext_eq {A} (p q : A -> bool) l :
  (forall x, p x = q x) -> List.filter p l = List.filter q l.
Proof.
  intros H. induction l as [|x l IH]; [reflexivity|].
  simpl. rewrite H, IH. reflexivity.
Qed.

(** On a day of the window the group of the query is the runs of the user
    of that day. *)
Lemma window_runs st userId start stop d :
  start <= d <= stop ->
  List.filter (fun r => run_local_date r =? d)
    (List.filter (fun r => String.eqb (run_user_id r) userId
                           && (start <=? run_local_date r)
                           && (run_local_date r <=? stop)) (runs st))
  = List.filter (fun r => String.eqb (run_user_id r) userId
                          && (run_local_date r =? d)) (runs st).
Proof.
  intros Hd. rewrite filter_filter. apply filter_ext_eq. intros r.
  destruct (Z.eqb_spec (run_local_date r) d) as [->|]; [|now rewrite !andb_false_r].
  destruct (Z.leb_spec start d), (Z.leb_spec d stop); try lia.
  now rewrite !andb_true_r.
Qed.

Lemma window_days_in today d :
  In d (window_days today) <-> today - 6 <= d <= today.
Proof.
  unfold window_days. simpl. split.
  - intros [<-|[<-|[<-|[<-|[<-|[<-|[<-|[]]]]]]]]; lia.
  - intros H.
    assert (Hc : d = today - 6 \/ d = today - 5 \/ d = today - 4 \/ d = today - 3
                 \/ d = today - 2 \/ d = today - 1 \/ d = today - 0) by lia.
    intuition auto.
Qed.

(** Each row of the series, run side: the count and the points of the
    user's runs of its date. *)
Lemma weekly_series_runs st today userId :
  Forall2 (fun d row => d_quests row = runs_on st userId d /\
                        d_xp row = xp_on st userId d)
          (window_days today) (series (weekly st today userId)).
Proof.
  unfold weekly; cbn [series].
  apply Forall2_fmap_r, Forall_Forall2_diag, Forall_forall. intros d Hd.
  apply list_elem_of_In in Hd.
  assert (Hw : today - 6 <= d <= today) by now apply window_days_in.
  destruct (byDay_init_spec (window_days today)) as [_ Hdom0].
  destruct (Hdom0 d Hd) as [row0 Hrow0].
  assert (Hz := byDay_init_zero _ _ _ Hrow0). subst row0.
  set (rows := List.filter
                 (fun r => String.eqb (run_user_id r) userId
                           && (today - 6 <=? run_local_date r)
                           && (run_local_date r <=? today)) (runs st)).
  set (f := fun d => Z.of_nat
                       (length (List.filter (fun r => run_local_date r =? d) rows))).
  set (g := fun d => fold_left (fun acc r => acc + run_gained_xp r)
                       (List.filter (fun r => run_local_date r =? d) rows) 0).
  destruct (byDay_runs_lookup f g (runs_by_date st userId (today - 6) today))
    with (m := byDay_init (window_days today)) (d := d) (row := mkDay d 0 0 0)
    as (row1 & Hl1 & _ & _ & Hin & Hout).
  { intros d1 n1 x1 H1. unfold runs_by_date in H1. apply in_map_iff in H1.
    destruct H1 as (d2 & [= <- <- <-] & _). split; reflexivity. }
  { exact Hrow0. }
  destruct (byDay_logs_keeps (logs_by_date st userId (today - 6) today) _ d row1 Hl1)
    as (row2 & Hl2 & Hq2 & Hx2).
  unfold compose. rewrite Hl2. simpl. rewrite Hq2, Hx2.
  assert (Hfd : f d = runs_on st userId d).
  { unfold f, rows, runs_on. now rewrite window_runs. }
  assert (Hgd : g d = xp_on st userId d).
  { unfold g, rows, xp_on. rewrite window_runs by exact Hw.
    rewrite fold_left_sum. lia. }
  rewrite <- Hfd, <- Hgd.
  destruct (in_dec Z.eq_dec d
              (map (fun p => fst (fst p)) (runs_by_date st userId (today - 6) today)))
    as [Hi|Hi].
  - now apply Hin.
  - destruct (Hout Hi) as [-> ->]. simpl.
    assert (Hnil : List.filter (fun r => run_local_date r =? d) rows = []).
    { destruct (List.filter (fun r => run_local_date r =? d) rows) as [|r rs] eqn:Hf;
        [reflexivity|].
      exfalso. apply Hi.
      assert (Hr : In r (List.filter (fun r => run_local_date r =? d) rows))
        by (rewrite Hf; now left).
      apply filter_In in Hr as [Hr1 Hr2]. apply Z.eqb_eq in Hr2.
      unfold runs_by_date. rewrite map_map. simpl. rewrite map_id.
      apply list_elem_of_In. apply elem_of_remove_dups. apply list_elem_of_In.
      apply in_map_iff. exists r. split; [exact Hr2|exact Hr1]. }
    unfold f, g. rewrite Hnil. split; reflexivity.
Qed.


Lemma weigh_count {A} (p : A -> bool) l :
  Z.of_nat (length (List.filter p l)) = weigh p (fun _ => 1) l.
Proof.
  unfold weigh. induction l as [|x l IH]; [reflexivity|].
  simpl. destruct (p x); simpl length; lia.
Qed.

Lemma weigh_sum {A} (p : A -> bool) (w : A -> Z) l :
  fold_right Z.add 0 (map w (List.filter p l)) = weigh p w l.
Proof.
  unfold weigh. induction l as [|x l IH]; [reflexivity|].
  simpl. destruct (p x); simpl; lia.
Qed.

(** A weight counted on the day it is dated, summed over the days of the
    window, is the weight when the date is in the window. *)
Lemma sum_days_window today (b : bool) (dt w : Z) :
  sum_days (fun d => if b && (dt =? d) then w else 0) (window_days today)
  = if b && in_window today dt then w else 0.
Proof.
  unfold sum_days, window_days, in_window. simpl.
  destruct b; simpl; [|reflexivity].
  destruct (Z.leb_spec (today - 6) dt), (Z.leb_spec dt today); simpl;
    repeat match goal with
           | |- context [?a =? ?b] => destruct (Z.eqb_spec a b)
           end; lia.
Qed.

(** Summing the daily weights over the window gives the weight of the
    window. *)
Lemma weigh_window {A} today (u : A -> bool) (dt w : A -> Z) l :
  sum_days (fun d => weigh (fun x => u x && (dt x =? d)) w l) (window_days today)
  = weigh (fun x => u x && in_window today (dt x)) w l.
Proof.
  induction l as [|x l IH].
  - unfold weigh, sum_days, window_days. reflexivity.
  - unfold weigh at 2. simpl. fold (weigh (fun x => u x && in_window today (dt x)) w l).
    rewrite <- IH, <- (sum_days_window today (u x) (dt x) (w x)).
    unfold sum_days, window_days, weigh. simpl. lia.
Qed.

Lemma sum_series {B} (h : B -> Z) (k : Z -> Z) days rows :
  Forall2 (fun d row => h row = k d) days rows ->
  fold_left (fun acc row => acc + h row) rows 0 = sum_days k days.
Proof.
  intros H. rewrite fold_left_sum, Z.add_0_l. unfold sum_days.
  induction H as [|d row days rows Hd _ IH]; [reflexivity|].
  simpl. rewrite Hd, IH. reflexivity.
Qed.

(** X12: the weekly report reads the histories exactly: its series has
    one row for each of the seven dates from [today - 6] to [today], in
    order, carrying the number and the points of the caller's runs and
    the number of the caller's routine logs of that date (zeros where
    there are none); its totals are the number and the points of the
    caller's runs, and the number of their routine logs, dated in the
    window. *)
Theorem weekly_report_exact st today userId :
  Forall2 (fun d row =>
             date row = d /\ d_quests row = runs_on st userId d /\
             d_xp row = xp_on st userId d /\
             d_routineLogs row = logs_on st userId d)
          [today - 6; today - 5; today - 4; today - 3; today - 2; today - 1;
           today - 0]
          (series (weekly st today userId)) /\
  t_quests (weekly st today userId) =
    Z.of_nat (length (List.filter
                        (fun r => String.eqb (run_user_id r) userId
                                  && in_window today (run_local_date r))
                        (runs st))) /\
  t_xp (weekly st today userId) =
    fold_right Z.add 0
      (map run_gained_xp
         (List.filter (fun r => String.eqb (run_user_id r) userId
                                && in_window today (run_local_date r))
                      (runs st))) /\
  t_routineLogs (weekly st today userId) =
    Z.of_nat (length (List.filter
                        (fun l => String.eqb (rl_user_id l) userId
                                  && in_window today (rl_local_date l))
                        (routine_logs st))).
Proof.
  assert (Hruns := weekly_series_runs st today userId).
  destruct (weekly_series st today userId) as [_ Hlogs].
  assert (Hall :
    Forall2 (fun d row =>
               date row = d /\ d_quests row = runs_on st userId d /\
               d_xp row = xp_on st userId d /\
               d_routineLogs row = logs_on st userId d)
            (window_days today) (series (weekly st today userId))).
  { revert Hruns Hlogs. generalize (series (weekly st today userId)).
    generalize (window_days today). intros days rows Hruns.
    induction Hruns as [|d row days rows [Hq Hx] _ IH]; intros Hlogs.
    - constructor.
    - inversion Hlogs as [|? ? ? ? [Hd Hl] Hrest]; subst.
      constructor; [repeat split; assumption|now apply IH]. }
  split; [exact Hall|].
  change (t_quests (weekly st today userId))
    with (fold_left (fun acc row => acc + d_quests row)
                    (series (weekly st today userId)) 0).
  change (t_xp (weekly st today userId))
    with (fold_left (fun acc row => acc + d_xp row)
                    (series (weekly st today userId)) 0).
  change (t_routineLogs (weekly st today userId))
    with (fold_left (fun acc row => acc + d_routineLogs row)
                    (series (weekly st today userId)) 0).
  split; [|split].
  - rewrite (sum_series d_quests (runs_on st userId) (window_days today)).
    + rewrite weigh_count, <- weigh_window. unfold sum_days. f_equal.
      apply map_ext. intros d. unfold runs_on. apply weigh_count.
    + eapply Forall2_impl; [exact Hall|]. now intros d row (_ & H & _).
  - rewrite (sum_series d_xp (xp_on st userId) (window_days today)).
    + rewrite weigh_sum, <- weigh_window. unfold sum_days. f_equal.
      apply map_ext. intros d. unfold xp_on. apply weigh_sum.
    + eapply Forall2_impl; [exact Hall|]. now intros d row (_ & _ & H & _).
  - rewrite (sum_series d_routineLogs (logs_on st userId) (window_days today)).
    + rewrite weigh_count, <- weigh_window. unfold sum_days. f_equal.
      apply map_ext. intros d. unfold logs_on. apply weigh_count.
    + eapply Forall2_impl; [exact Hall|]. now intros d row (_ & _ & _ & H).
Qed.


(** ** Waiting out a cooldown *)

(** A reply 429 is the refusal of the cooldown check. *)
Lemma post_runs_429 st e u questId q msg w :
  sql.getQuest st questId = Some q ->
  snd (post_runs st e u questId) = Error 429 msg (Some w) ->
  cooldown_wait st e u q questId = Some w.
Proof.
  intros Hq H. destruct (cooldown_wait st e u q questId) as [w'|] eqn:Hc.
  - unfold post_runs in H. rewrite Hq, Hc in H. simpl in H. congruence.
  - exfalso.
    destruct (Z.lt_ge_cases
                (total_xp u + awarded (tz e) (q_base_points q) (today e) u) 0)
      as [Hneg|Hnn].
    + rewrite (post_runs_failure _ _ _ _ _ Hq Hc Hneg) in H. discriminate.
    + rewrite (post_runs_success _ _ _ _ _ Hq Hc Hnn) in H. discriminate.
Qed.

(** X13: when [POST /api/runs] refuses a quest for its cooldown and the
    clock is not behind the last run, the wait it announces is at least
    one second and at most the cooldown, and it is enough: the same
    request made that many seconds later is not refused for the cooldown,
    and is accepted when neither the points of the quest nor the total of
    the user are negative. *)
Theorem cooldown_wait_suffices st e u questId q last w :
  sql.getQuest st questId = Some q ->
  most_recent_run st (id u) questId last ->
  run_created_at last <= nowMs e ->
  snd (post_runs st e u questId) = Error 429 "Cooldown active" (Some w) ->
  1 <= w <= cooldown_sec q /\
  forall e', nowMs e' = nowMs e + 1000 * w ->
             kind_of (snd (post_runs st e' u questId)) <> Some RATE_LIMITED /\
             (0 <= q_base_points q -> 0 <= total_xp u ->
              is_success (snd (post_runs st e' u questId)) = true).
Proof.
  intros Hq Hlast Hclock Hrefused.
  destruct (most_recent_run_found _ _ _ _ Hlast) as (last' & Hl & Heq).
  assert (Hw : 0 < cooldown_sec q /\
               nowMs e - run_created_at last < cooldown_sec q * 1000 /\
               w = ceil_div (cooldown_sec q * 1000
                             - (nowMs e - run_created_at last)) 1000).
  { apply (post_runs_429 _ _ _ _ q) in Hrefused; [|exact Hq].
    unfold cooldown_wait in Hrefused. rewrite Hl in Hrefused.
    destruct (Z.gtb_spec (cooldown_sec q) 0) as [Hpos|_];
      [|discriminate Hrefused].
    cbv zeta in Hrefused. rewrite Heq in Hrefused.
    destruct (Z.ltb_spec (nowMs e - run_created_at last) (cooldown_sec q * 1000));
      [|discriminate Hrefused].
    injection Hrefused as <-. repeat split; lia. }
  destruct Hw as (Hpos & Hlt & ->).
  assert (Hc := ceil_div_1000 (cooldown_sec q * 1000
                               - (nowMs e - run_created_at last))).
  set (w := ceil_div _ 1000) in *.
  split; [lia|]. intros e' Hnow.
  assert (Hnone : cooldown_wait st e' u q questId = None).
  { unfold cooldown_wait. rewrite Hl. destruct (_ >? _); [|reflexivity].
    cbv zeta. rewrite Heq.
    destruct (Z.ltb_spec (nowMs e' - run_created_at last) (cooldown_sec q * 1000));
      [lia|reflexivity]. }
  split.
  - destruct (Z.lt_ge_cases
                (total_xp u + awarded (tz e') (q_base_points q) (today e') u) 0)
      as [Hneg|Hnn].
    + rewrite (post_runs_failure _ _ _ _ _ Hq Hnone Hneg). discriminate.
    + rewrite (post_runs_success _ _ _ _ _ Hq Hnone Hnn). discriminate.
  - intros Hb Hx.
    now rewrite (post_runs_success _ _ _ _ _ Hq Hnone
                   (payable_nonneg e' (q_base_points q) u Hb Hx)).
Qed.

Lemma cooldown_wait_suffices_witness :
  let alice := mkUser "alice" 5 2 1 1 (Some 100) 0 in
  let st := mkStore [alice] seed_quests
              [mkRun "n1" "alice" "q2" 5 1 0 100] [] [] in
  1 <= 2400 <= 3600 /\
  is_success (snd (post_runs st (mkEnv (1200500 + 1000 * 2400) 100 "n3" utc)
                             alice "q2")) = true.
Proof.
  intros alice st.
  assert (Hlast : most_recent_run st (id alice) "q2"
                    (mkRun "n1" "alice" "q2" 5 1 0 100)).
  { repeat split; try (now left).
    intros r [<-|[]] _ _. simpl. lia. }
  destruct (cooldown_wait_suffices st (mkEnv 1200500 100 "n2" utc) alice "q2"
              (mkQuest "q2" "Drink Water" 5 3600 true)
              (mkRun "n1" "alice" "q2" 5 1 0 100) 2400
              eq_refl Hlast ltac:(simpl; lia) eq_refl) as [Hb Hretry].
  split; [exact Hb|].
  apply (proj2 (Hretry (mkEnv (1200500 + 1000 * 2400) 100 "n3" utc) eq_refl));
    simpl; lia.
Defined.

(** ** One user's requests and another user's state *)

Lemma lastRunForQuest_insertRun_other st r uid questId :
  ~ (run_user_id r = uid /\ run_quest_id r = questId) ->
  sql.lastRunForQuest (sql.insertRun st r) uid questId =
  sql.lastRunForQuest st uid questId.
Proof.
  intros Hne. unfold sql.lastRunForQuest, sql.insertRun; simpl.
  rewrite List.filter_app. simpl.
  replace (String.eqb (run_user_id r) uid && String.eqb (run_quest_id r) questId)
    with false.
  - now rewrite app_nil_r.
  - symmetry. apply not_true_is_false. intros H. apply Hne.
    now apply run_matches.
Qed.

(** X14: a completion request of one user leaves every other user alone:
    their row, the run that decides each of their cooldowns and the count
    that decides each of their daily targets are what they were. *)
Theorem other_users_untouched st r uid :
  caller r <> uid ->
  sql.getUser (fst (handle st r)) uid = sql.getUser st uid /\
  (forall questId,
     sql.lastRunForQuest (fst (handle st r)) uid questId =
     sql.lastRunForQuest st uid questId) /\
  (forall rid d,
     sql.countRoutineLogsToday (fst (handle st r)) rid uid d =
     sql.countRoutineLogsToday st rid uid d).
Proof.
  intros Hne. destruct (ensureUser st (caller r)) as [st1 u] eqn:He.
  assert (Hid := id_ensureUser _ _ _ _ He).
  assert (H1 : sql.getUser st1 uid = sql.getUser st uid /\
               runs st1 = runs st /\ routine_logs st1 = routine_logs st).
  { destruct (ensureUser_cases st (caller r)) as [(v & Hv & He')|[Hn He']];
      rewrite He' in He; injection He as <- <-; repeat split.
    now apply getUser_upsertUser_other. }
  destruct H1 as (Hu1 & Hr1 & Hl1).
  assert (Hlast1 : forall questId, sql.lastRunForQuest st1 uid questId
                                   = sql.lastRunForQuest st uid questId).
  { intros questId. unfold sql.lastRunForQuest. now rewrite Hr1. }
  assert (Hcount1 : forall rid d, sql.countRoutineLogsToday st1 rid uid d
                                  = sql.countRoutineLogsToday st rid uid d).
  { intros rid d. unfold sql.countRoutineLogsToday. now rewrite Hl1. }
  destruct (handle_cases st r st1 u He)
    as [[_ ->]|[[_ (q & n & questId & sa & t & z & d & Hq & ->)]
               |[_ (routine & n & rid & t & z & d & Hro & ->)]]].
  - repeat split; auto.
  - split; [|split].
    + rewrite <- Hu1. apply (getUser_upsertUser_other st1).
      rewrite id_completed. congruence.
    + intros questId'. rewrite lastRunForQuest_insertRun_other.
      * rewrite <- Hlast1. reflexivity.
      * simpl. intros [H _]. congruence.
    + intros rid' d'. rewrite <- Hcount1. reflexivity.
  - split; [|split].
    + rewrite <- Hu1. apply (getUser_upsertUser_other st1).
      rewrite id_completed. congruence.
    + intros questId'. rewrite <- Hlast1. reflexivity.
    + intros rid' d'. rewrite count_insertRoutineLog.
      unfold sql.logged_on. cbn [rl_user_id rl_routine_id rl_local_date].
      destruct (String.eqb_spec (id u) uid); [congruence|].
      rewrite andb_false_r. simpl. rewrite <- Hcount1.
      unfold sql.countRoutineLogsToday. simpl. lia.
Qed.

Lemma other_users_untouched_witness :
  sql.getUser
    (fst (handle (sql.upsertUser empty_store (newUser "b"))
                 (PostRun (mkEnv 0 10 "r1" utc) "a" "q1"))) "b"
  = Some (newUser "b").
Proof.
  refine (eq_trans
            (proj1 (other_users_untouched
                      (sql.upsertUser empty_store (newUser "b"))
                      (PostRun (mkEnv 0 10 "r1" utc) "a" "q1") "b" _)) _).
  - discriminate.
  - reflexivity.
Defined.


(** ** The multiplier along the streak *)

Lemma streakMultiplier_step streak :
  streak < 5000 ->
  (B64.toQ (streakMultiplier streak) <= B64.toQ (streakMultiplier (streak + 1)))%Q.
Proof.
  intros H. destruct (Z.ltb_spec streak 0) as [Hneg|Hpos].
  - assert (E : forall s, s < 1 -> streakMultiplier s = B64.of_Z 1).
    { intros s Hs. unfold streakMultiplier.
      destruct (Z.ltb_spec s 1); [|lia]. now rewrite orb_true_r. }
    rewrite !E by lia. apply Qle_refl.
  - apply Qle_bool_iff.
    apply (holds_from_spec
             (fun s => Qle_bool (B64.toQ (streakMultiplier s))
                                (B64.toQ (streakMultiplier (s + 1))))
             5000%nat 0); [vm_compute; reflexivity|lia].
Qed.

(** X15: up to a streak of 5000 days a longer streak never gives a
    smaller multiplier, and the multiplier is never below 1. *)
Theorem streakMultiplier_monotone s t :
  s <= t -> t <= 5000 ->
  (1 <= B64.toQ (streakMultiplier s))%Q /\
  (B64.toQ (streakMultiplier s) <= B64.toQ (streakMultiplier t))%Q.
Proof.
  intros Hst Ht.
  assert (Hmono : forall n s,
            s + Z.of_nat n <= 5000 ->
            (B64.toQ (streakMultiplier s)
             <= B64.toQ (streakMultiplier (s + Z.of_nat n)))%Q).
  { induction n as [|n IH]; intros s0 Hn.
    - rewrite Z.add_0_r. apply Qle_refl.
    - eapply Qle_trans; [apply IH; lia|].
      replace (s0 + Z.of_nat (S n)) with (s0 + Z.of_nat n + 1) by lia.
      apply streakMultiplier_step. lia. }
  split.
  - destruct (Z.ltb_spec s 1) as [Hlow|Hhigh].
    + unfold streakMultiplier. destruct (Z.ltb_spec s 1); [|lia].
      rewrite orb_true_r. vm_compute. discriminate.
    + assert (E : (1 <= B64.toQ (streakMultiplier 0))%Q)
        by (vm_compute; discriminate).
      eapply Qle_trans; [exact E|].
      replace s with (0 + Z.of_nat (Z.to_nat s)) by lia. apply Hmono. lia.
  - replace t with (s + Z.of_nat (Z.to_nat (t - s))) by lia. apply Hmono. lia.
Qed.

Lemma streakMultiplier_monotone_witness :
  (B64.toQ (streakMultiplier 6) <= B64.toQ (streakMultiplier 7))%Q.
Proof.
  apply (proj2 (streakMultiplier_monotone 6 7 ltac:(lia) ltac:(lia))).
Defined.

(** ** The migration script *)

Lemma existsb_eqb_In c cols : existsb (String.eqb c) cols = true <-> In c cols.
Proof.
  rewrite existsb_exists. split.
  - intros (x & Hx & He). apply String.eqb_eq in He. now subst.
  - intros H. exists c. split; [exact H|apply String.eqb_refl].
Qed.

Lemma filter_ext_in_eq {A} (p q : A -> bool) l :
  (forall x, In x l -> p x = q x) -> List.filter p l = List.filter q l.
Proof.
  induction l as [|x l IH]; intros H; [reflexivity|].
  simpl. rewrite (H x (or_introl eq_refl)), IH; [reflexivity|].
  intros y Hy. apply H. now right.
Qed.

Lemma existsb_ext_in {A} (p q : A -> bool) l :
  (forall x, In x l -> p x = q x) -> existsb p l = existsb q l.
Proof.
  induction l as [|x l IH]; intros H; [reflexivity|].
  simpl. rewrite (H x (or_introl eq_refl)), IH; [reflexivity|].
  intros y Hy. apply H. now right.
Qed.

Lemma steps_thrown cs :
  fold_left
    (fun acc c =>
       match acc with
       | Some db => addColumn db "users" c ("users", c)
       | None => None
       end) cs None = None.
Proof. induction cs as [|c cs IH]; [reflexivity|exact IH]. Qed.

(** The [addColumn] calls for columns [cs] that differ by more than their
    case, on a database with a [users] table: the first call for a column
    that the table has in another case throws; without one, the columns
    that the table lacks are put behind its own, in the order of the
    calls. *)
Lemma migration_steps_from cs : forall db cols,
  List.NoDup (map lower cs) ->
  db !! "users" = Some cols ->
  fold_left
    (fun acc c =>
       match acc with
       | Some db => addColumn db "users" c ("users", c)
       | None => None
       end) cs (Some db)
  = if existsb (clashes cols) cs then None
    else Some (<["users" :=
                  cols ++ List.filter (fun c => negb (existsb (String.eqb c) cols)) cs]>
                db).
Proof.
  induction cs as [|c cs IH]; intros db cols Hnd Hu.
  - simpl. now rewrite app_nil_r, insert_id.
  - simpl in Hnd. inversion Hnd as [|? ? Hnotin Hnd']; subst.
    cbn [fold_left List.filter existsb].
    unfold addColumn at 2, hasColumn, alter_add, clashes at 1.
    cbn [fst snd]. rewrite Hu.
    destruct (existsb (String.eqb c) cols) eqn:He; cbn [negb andb orb].
    + now apply IH.
    + destruct (existsb (same_column c) cols) eqn:Hs; cbn [orb].
      * apply steps_thrown.
      * rewrite (IH _ (cols ++ [c]) Hnd' (lookup_insert_eq _ _ _)).
        assert (Hx : forall x, In x cs ->
                  existsb (String.eqb x) (cols ++ [c]) = existsb (String.eqb x) cols /\
                  existsb (same_column x) (cols ++ [c]) = existsb (same_column x) cols).
        { intros x Hx. rewrite !existsb_app. simpl. rewrite !orb_false_r.
          assert (Hl : same_column x c = false).
          { unfold same_column. apply String.eqb_neq. intros E.
            apply Hnotin. rewrite <- E. now apply in_map. }
          rewrite Hl, orb_false_r.
          destruct (String.eqb_spec x c) as [->|]; [|now rewrite orb_false_r].
          unfold same_column in Hl. now rewrite String.eqb_refl in Hl. }
        rewrite (existsb_ext_in (clashes (cols ++ [c])) (clashes cols)).
        2:{ intros x Hin. unfold clashes. destruct (Hx x Hin) as [-> ->].
            reflexivity. }
        destruct (existsb (clashes cols) cs); [reflexivity|].
        rewrite insert_insert_eq, <- app_assoc. do 3 f_equal. simpl. f_equal.
        apply filter_ext_in_eq. intros x Hin. now destruct (Hx x Hin) as [-> _].
Qed.

Lemma filter_none {A} (p : A -> bool) l :
  (forall x, In x l -> p x = false) -> List.filter p l = [].
Proof.
  induction l as [|x l IH]; intros H; [reflexivity|].
  simpl. rewrite (H x (or_introl eq_refl)). apply IH.
  intros y Hy. apply H. now right.
Qed.

Lemma existsb_none {A} (p : A -> bool) l :
  (forall x, In x l -> p x = false) -> existsb p l = false.
Proof.
  induction l as [|x l IH]; intros H; [reflexivity|].
  simpl. rewrite (H x (or_introl eq_refl)). apply IH.
  intros y Hy. apply H. now right.
Qed.

Lemma migration_columns_distinct : List.NoDup (map lower migration_columns).
Proof.
  cbv.
  repeat (constructor; [simpl; intros H; intuition discriminate|]).
  constructor.
Qed.

(** X16: on a database whose [users] table has no column that differs
    from one of the script's by its case only, the migration commits: the
    table keeps its columns in place and gets behind them the columns of
    the script that it lacked, in the script's order, so that it has all
    seven afterwards; no other table changes, and a second run changes
    nothing.  With such a column ([Email], say), and without a [users]
    table, the script rolls back and the database is as it was. *)
Theorem migrate_adds_missing_columns db :
  (forall cols,
     db !! "users" = Some cols -> case_clash cols = false ->
     migrate db = (<["users" := cols ++ missing_columns cols]> db, true) /\
     (forall c, In c migration_columns -> In c (cols ++ missing_columns cols)) /\
     (forall t, t <> "users" -> fst (migrate db) !! t = db !! t) /\
     migrate (fst (migrate db)) = (fst (migrate db), true)) /\
  (forall cols,
     db !! "users" = Some cols -> case_clash cols = true ->
     migrate db = (db, false)) /\
  (db !! "users" = None -> migrate db = (db, false)).
Proof.
  split; [|split].
  - intros cols Hu Hc.
    assert (Hm : migrate db = (<["users" := cols ++ missing_columns cols]> db, true)).
    { unfold migrate, migration_steps.
      rewrite (migration_steps_from _ db cols migration_columns_distinct Hu).
      unfold case_clash in Hc. now rewrite Hc. }
    assert (Hall : forall c, In c migration_columns ->
                             In c (cols ++ missing_columns cols)).
    { intros c Hin. apply in_or_app.
      destruct (existsb (String.eqb c) cols) eqn:He.
      - left. now apply existsb_eqb_In.
      - right. unfold missing_columns. apply filter_In. split; [exact Hin|].
        now rewrite He. }
    split; [exact Hm|]. split; [exact Hall|]. split.
    + intros t Ht. rewrite Hm. simpl. now apply lookup_insert_ne.
    + rewrite Hm. cbn [fst]. unfold migrate, migration_steps.
      rewrite (migration_steps_from _ _ (cols ++ missing_columns cols)
                 migration_columns_distinct (lookup_insert_eq _ _ _)).
      assert (Hin : forall c, In c migration_columns ->
                existsb (String.eqb c) (cols ++ missing_columns cols) = true).
      { intros c Hin. apply existsb_eqb_In. now apply Hall. }
      rewrite existsb_none.
      2:{ intros c Hc'. unfold clashes. now rewrite (Hin c Hc'). }
      rewrite insert_insert_eq.
      rewrite filter_none; [now rewrite app_nil_r|].
      intros c Hc'. now rewrite (Hin c Hc').
  - intros cols Hu Hc. unfold migrate, migration_steps.
    rewrite (migration_steps_from _ db cols migration_columns_distinct Hu).
    unfold case_clash in Hc. now rewrite Hc.
  - intros Hn. unfold migrate, migration_steps, migration_columns.
    cbn [fold_left].
    assert (H1 : addColumn db "users" "email" ("users", "email") = None).
    { unfold addColumn, hasColumn, alter_add. cbn [fst snd]. now rewrite Hn. }
    rewrite H1. reflexivity.
Qed.

(** A database created before the accounts: [users] has the progress
    columns and the e-mail only. *)
Lemma migrate_adds_missing_columns_witness :
  migrate {["users" := ["id"; "total_xp"; "level"; "email"]]} =
  (<["users" := ["id"; "total_xp"; "level"; "email"; "password_hash";
                 "theme_color"; "daily_target"; "goals_json"; "baseline_mood";
                 "onboarding_done"]]>
     {["users" := ["id"; "total_xp"; "level"; "email"]]}, true).
Proof.
  exact (proj1 (proj1 (migrate_adds_missing_columns
                         {["users" := ["id"; "total_xp"; "level"; "email"]]})
                  ["id"; "total_xp"; "level"; "email"]
                  (lookup_singleton_eq _ _) eq_refl)).
Defined.


(** ** Who a request belongs to *)

Lemma truthy_not_empty o s : truthy o = Some s -> s <> EmptyString.
Proof. destruct o as [[|c s']|]; simpl; intros [= <-]; discriminate. Qed.

(** X17: every request gets an identity that is not empty: under a
    bearer token that verifies it is the token's subject, or the token's
    [userId] when it has no subject; a request without a token that
    verifies is served under whatever its [x-user-id] header says, and
    under ["demo-user"] without the header. *)
Theorem authUserId_never_empty (verify : string -> option payload)
    (authorization x_user_id : option string) :
  authUserId verify authorization x_user_id <> EmptyString /\
  (forall token p s,
     authorization = Some (String.append "Bearer " token) ->
     verify token = Some p ->
     (truthy (p_sub p) = Some s \/
      (truthy (p_sub p) = None /\ truthy (p_userId p) = Some s)) ->
     authUserId verify authorization x_user_id = s) /\
  ((authorization = None \/
    (exists auth, authorization = Some auth /\
                  (String.prefix "Bearer " auth = false \/
                   verify (String.substring 7 (String.length auth - 7)%nat auth)
                   = None))) ->
   authUserId verify authorization x_user_id =
     match truthy x_user_id with
     | Some uid => uid
     | None => "demo-user"
     end).
Proof.
  split; [|split].
  - unfold authUserId.
    destruct (truthy _) as [uid|] eqn:H1.
    + now apply truthy_not_empty in H1.
    + destruct (truthy x_user_id) as [uid|] eqn:H2; [|discriminate].
      now apply truthy_not_empty in H2.
  - intros token p s -> Hv Hs. unfold authUserId.
    assert (Hpre : String.prefix "Bearer " (String.append "Bearer " token) = true).
    { simpl. repeat (destruct (Ascii.ascii_dec _ _); [|congruence]).
      now destruct token. }
    rewrite Hpre.
    assert (Hsub : String.substring 7
                     (String.length (String.append "Bearer " token) - 7)%nat
                     (String.append "Bearer " token) = token).
    { simpl. change (String.append "" token) with token.
      rewrite Nat.sub_0_r.
      clear. induction token as [|c token IH]; [reflexivity|].
      simpl. now rewrite IH. }
    rewrite Hsub, Hv. unfold or_else.
    assert (Ht : truthy (Some s) = Some s).
    { destruct s; [|reflexivity].
      destruct Hs as [Hs|[_ Hs]]; now apply truthy_not_empty in Hs. }
    destruct Hs as [Hs|[Hn Hs]].
    + now rewrite Hs, Ht.
    + rewrite Hn, Hs. reflexivity.
  - intros [->|(auth & -> & [Hp|Hv])]; unfold authUserId.
    + reflexivity.
    + now rewrite Hp.
    + rewrite Hv. now destruct (String.prefix "Bearer " auth).
Qed.

Lemma authUserId_never_empty_witness :
  authUserId (fun t => if String.eqb t "tok" then Some (mkPayload (Some "u1") None)
                       else None)
             (Some "Bearer tok") (Some "mallory") = "u1".
Proof.
  exact (proj1 (proj2 (authUserId_never_empty _ (Some "Bearer tok") (Some "mallory")))
           "tok" (mkPayload (Some "u1") None) "u1" eq_refl eq_refl
           (or_introl eq_refl)).
Defined.

(** ** The row of the caller *)

(** X18: the middleware that provides the caller's row returns a row
    stored under the caller's id, leaves a row that is there as it is,
    stores the row of a beginner (no points, level 1, no streak, no tier)
    otherwise, touches no other user's row, and does nothing when it runs
    again; [GET /api/progress] always answers with that row. *)
Theorem ensureUser_once st userId :
  sql.getUser (fst (ensureUser st userId)) userId = Some (snd (ensureUser st userId)) /\
  id (snd (ensureUser st userId)) = userId /\
  ensureUser (fst (ensureUser st userId)) userId = ensureUser st userId /\
  (forall u, sql.getUser st userId = Some u -> ensureUser st userId = (st, u)) /\
  (sql.getUser st userId = None ->
   snd (ensureUser st userId) = mkUser userId 0 1 0 0 None 0) /\
  (forall other, other <> userId ->
     sql.getUser (fst (ensureUser st userId)) other = sql.getUser st other) /\
  get_progress st userId =
    (fst (ensureUser st userId), Some (progress_of (snd (ensureUser st userId)))).
Proof.
  assert (Hget : sql.getUser (fst (ensureUser st userId)) userId
                 = Some (snd (ensureUser st userId))).
  { destruct (ensureUser_cases st userId) as [(v & Hv & ->)|[Hn ->]]; simpl.
    - exact Hv.
    - change userId with (id (newUser userId)) at 2. apply getUser_upsertUser. }
  assert (Hid : id (snd (ensureUser st userId)) = userId).
  { apply (id_ensureUser st userId (fst (ensureUser st userId))).
    now destruct (ensureUser st userId). }
  split; [exact Hget|]. split; [exact Hid|]. split; [|split; [|split; [|split]]].
  - rewrite (ensureUser_found _ _ _ Hget). now destruct (ensureUser st userId).
  - intros u Hu. now apply ensureUser_found.
  - intros Hn. destruct (ensureUser_cases st userId) as [(v & Hv & _)|[_ ->]];
      [congruence|reflexivity].
  - intros other Hne.
    destruct (ensureUser_cases st userId) as [(v & Hv & ->)|[Hn ->]];
      [reflexivity|]. simpl. apply getUser_upsertUser_other. simpl. congruence.
  - unfold get_progress. destruct (ensureUser st userId) as [st1 u] eqn:He.
    simpl in *. rewrite Hid, Hget. reflexivity.
Qed.
